(** * Webhook delivery, circuit breaker and token bucket

    A shallow embedding of [src/webhooks.py] (event model, [WebhookManager])
    and of the fault-tolerance classes of [src/advanced_pro.py]
    ([CircuitBreaker], [RateLimiter]), with the properties the specification
    states about them.

    Conventions of the embedding:
    - a Python [int] is a [Z]; a [str] is a [string]; [Optional[T]] is
      [option T]; a [dict] is an association list in insertion order;
    - everything the code obtains from outside (the wall clock, [uuid4],
      the answer of the remote endpoint) is read from a [World] threaded
      through the code, the answers being chosen by an [Env];
    - a Python exception is a value of [exn]; a computation that can raise
      returns a [Result];
    - calls to [logger] have no effect on any value and are left out;
    - the [async]/[await] code is read sequentially, one coroutine at a
      time; task cancellation is not part of the model. *)

From Stdlib Require Import ZArith List String Ascii Bool Lia.
From Stdlib Require Import DecimalString QArith Sorted.
From Stdlib Require Import Permutation.
Import ListNotations.
Local Open Scope string_scope.
Local Open Scope list_scope.
Local Open Scope Z_scope.

(** ** Python prelude *)

(** An exception: the name of its class, whether the class derives from
    [Exception] (what [except Exception] tests), and [str(e)]. *)
Record exn : Type := mkExn {
  exn_class : string;
  exn_is_Exception : bool;
  exn_str : string
}.

Inductive Result (A : Type) : Type :=
| Returned (a : A)
| Raised (e : exn).
Arguments Returned {A} a.
Arguments Raised {A} e.

(** [str(n)] for an [int]. *)
Definition str_of_int (n : Z) : string := NilZero.string_of_int (Z.to_int n).

(** Truth value of an [Optional[str]]: [None] and the empty string are
    false. *)
Definition truthy_str (o : option string) : bool :=
  match o with
  | Some EmptyString => false
  | Some _ => true
  | None => false
  end.

(** The text [datetime.isoformat()] gives for an instant, kept as the
    instant itself (microseconds since the epoch).  Such a text is never
    empty, so an [Optional] holding one is true exactly when it is set. *)
Inductive isotime : Type := IsoFormat (micros : Z).

Definition truthy_iso (o : option isotime) : bool :=
  match o with Some _ => true | None => false end.

Definition micros_per_second : Z := 1000000.

(** JSON values, for the payload of an event. *)
#[local] Set Warnings "-register-all".
Inductive json : Type :=
| JNull
| JBool (b : bool)
| JInt (n : Z)
| JStr (s : string)
| JArr (l : list json)
| JObj (l : list (string * json)).

(** ** The outside world *)

Record Request : Type := mkRequest {
  req_method : string;
  req_url : string;
  req_json : json;
  req_timeout : Z;
  req_headers : list (string * string)
}.

(** What one outbound call does: a response with a status code, or an
    exception raised by the HTTP client. *)
Inductive Outcome : Type :=
| Responds (status_code : Z)
| Fails (e : exn).

Record World : Type := mkWorld {
  clock : Z;                 (* microseconds *)
  uuid_count : nat;          (* identifiers drawn so far *)
  outbox : list Request;     (* outbound calls made, oldest first *)
  slept : list Z             (* arguments of asyncio.sleep, oldest first *)
}.

Record Env : Type := mkEnv {
  uuid_source : nat -> string;
  endpoint : nat -> Request -> Outcome   (* indexed by the calls made before *)
}.

Definition Py (A : Type) : Type := World -> Result A * World.

Definition ret {A} (a : A) : Py A := fun w => (Returned a, w).

Definition bind {A B} (m : Py A) (k : A -> Py B) : Py B :=
  fun w =>
    match m w with
    | (Returned a, w') => k a w'
    | (Raised e, w') => (Raised e, w')
    end.

Definition raise {A} (e : exn) : Py A := fun w => (Raised e, w).

(** [try: body / except Exception as e: handler e]. *)
Definition try_except_Exception {A} (body : Py A) (handler : exn -> Py A) : Py A :=
  fun w =>
    match body w with
    | (Returned a, w') => (Returned a, w')
    | (Raised e, w') =>
        if exn_is_Exception e then handler e w' else (Raised e, w')
    end.

Declare Scope py_scope.
Delimit Scope py_scope with py.
Notation "x <- m ;; k" := (bind m (fun x => k))
  (at level 61, m at next level, right associativity) : py_scope.
Notation "m ;;; k" := (bind m (fun _ => k))
  (at level 61, right associativity) : py_scope.
Local Open Scope py_scope.

(** [str(uuid.uuid4())] *)
Definition uuid4 (env : Env) : Py string :=
  fun w =>
    (Returned (uuid_source env (uuid_count w)),
     mkWorld (clock w) (S (uuid_count w)) (outbox w) (slept w)).

(** [datetime.now()] *)
Definition now : Py Z := fun w => (Returned (clock w), w).

(** The world after [seconds] of sleep, and after a call is sent. *)
Definition after_sleep (seconds : Z) (w : World) : World :=
  mkWorld (clock w + seconds * micros_per_second) (uuid_count w)
          (outbox w) (slept w ++ [seconds]).

Definition sent (r : Request) (w : World) : World :=
  mkWorld (clock w) (uuid_count w) (outbox w ++ [r]) (slept w).

(** [await asyncio.sleep(seconds)] *)
Definition sleep (seconds : Z) : Py unit :=
  fun w => (Returned tt, after_sleep seconds w).

(** [await client.post(...)] inside [async with httpx.AsyncClient()]. *)
Definition post (env : Env) (r : Request) : Py Z :=
  fun w =>
    match endpoint env (List.length (outbox w)) r with
    | Responds code => (Returned code, sent r w)
    | Fails e => (Raised e, sent r w)
    end.

(** ** [src/webhooks.py]: the event model *)

Inductive EventType : Type :=
| PLAN_CREATED
| PLAN_STARTED
| PLAN_COMPLETED
| PLAN_FAILED
| TASK_STARTED
| TASK_COMPLETED
| TASK_FAILED
| CONVERSATION_MESSAGE.

Definition EventType_value (t : EventType) : string :=
  match t with
  | PLAN_CREATED => "plan.created"
  | PLAN_STARTED => "plan.started"
  | PLAN_COMPLETED => "plan.completed"
  | PLAN_FAILED => "plan.failed"
  | TASK_STARTED => "task.started"
  | TASK_COMPLETED => "task.completed"
  | TASK_FAILED => "task.failed"
  | CONVERSATION_MESSAGE => "conversation.message"
  end.

Definition EventType_eqb (a b : EventType) : bool :=
  match a, b with
  | PLAN_CREATED, PLAN_CREATED
  | PLAN_STARTED, PLAN_STARTED
  | PLAN_COMPLETED, PLAN_COMPLETED
  | PLAN_FAILED, PLAN_FAILED
  | TASK_STARTED, TASK_STARTED
  | TASK_COMPLETED, TASK_COMPLETED
  | TASK_FAILED, TASK_FAILED
  | CONVERSATION_MESSAGE, CONVERSATION_MESSAGE => true
  | _, _ => false
  end.

(** [x in xs] on a list of event types. *)
Definition EventType_in (x : EventType) (xs : list EventType) : bool :=
  existsb (EventType_eqb x) xs.

Module WebhookEvent.
Record t : Type := mk {
  id : string;
  type : EventType;
  timestamp : string;
  data : list (string * json);
  metadata : list (string * json)
}.

Definition to_dict (self : t) : json :=
  JObj [ ("id", JStr (id self));
         ("type", JStr (EventType_value (type self)));
         ("timestamp", JStr (timestamp self));
         ("data", JObj (data self));
         ("metadata", JObj (metadata self)) ].
End WebhookEvent.

Module Webhook.
Record t : Type := mk {
  id : string;
  url : string;
  event_types : list EventType;
  active : bool;
  created_at : isotime;
  secret : string;
  retry_count : Z;
  timeout_seconds : Z
}.
End Webhook.

Module WebhookDelivery.
Record t : Type := mk {
  id : string;
  webhook_id : string;
  event_id : string;
  status_code : option Z;
  error : option string;
  attempts : Z;
  next_retry : option isotime;
  completed_at : option isotime
}.

Definition set_status_code (v : option Z) (d : t) : t :=
  mk (id d) (webhook_id d) (event_id d) v (error d) (attempts d)
     (next_retry d) (completed_at d).
Definition set_error (v : option string) (d : t) : t :=
  mk (id d) (webhook_id d) (event_id d) (status_code d) v (attempts d)
     (next_retry d) (completed_at d).
Definition set_attempts (v : Z) (d : t) : t :=
  mk (id d) (webhook_id d) (event_id d) (status_code d) (error d) v
     (next_retry d) (completed_at d).
Definition set_next_retry (v : option isotime) (d : t) : t :=
  mk (id d) (webhook_id d) (event_id d) (status_code d) (error d)
     (attempts d) v (completed_at d).
Definition set_completed_at (v : option isotime) (d : t) : t :=
  mk (id d) (webhook_id d) (event_id d) (status_code d) (error d)
     (attempts d) (next_retry d) v.
End WebhookDelivery.

(** The record [trigger_event] creates before the first attempt. *)
Definition fresh_delivery (id : string) (webhook : Webhook.t)
    (event : WebhookEvent.t) : WebhookDelivery.t :=
  WebhookDelivery.mk id (Webhook.id webhook) (WebhookEvent.id event)
                     None None 0 None None.

(** ** Dictionaries in insertion order *)

Section Dict.
Context {V : Type}.

Definition dict : Type := list (string * V).

Definition dict_values (d : dict) : list V := map snd d.
Definition dict_keys (d : dict) : list string := map fst d.

Definition dict_contains (k : string) (d : dict) : bool :=
  existsb (fun kv => String.eqb (fst kv) k) d.

(** [d[k] = v]: an existing key keeps its place, a new one goes last. *)
Fixpoint dict_set (k : string) (v : V) (d : dict) : dict :=
  match d with
  | [] => [(k, v)]
  | (k', v') :: rest =>
      if String.eqb k' k then (k, v) :: rest
      else (k', v') :: dict_set k v rest
  end.

(** [del d[k]] *)
Definition dict_del (k : string) (d : dict) : dict :=
  filter (fun kv => negb (String.eqb (fst kv) k)) d.

Definition dict_get (k : string) (d : dict) : option V :=
  match find (fun kv => String.eqb (fst kv) k) d with
  | Some kv => Some (snd kv)
  | None => None
  end.
End Dict.
Arguments dict V : clear implicits.

(** ** [WebhookManager] *)

Module WebhookManager.

(** [event_handlers] is created empty by [__init__] and used by no
    method; it is left out. *)
Record t : Type := mk {
  webhooks : dict Webhook.t;
  deliveries : list WebhookDelivery.t
}.

Definition __init__ : t := mk [] [].

(** [secret or str(uuid.uuid4())] *)
Definition secret_or_uuid (env : Env) (secret : option string) : Py string :=
  if truthy_str secret
  then ret (match secret with Some s => s | None => "" end)
  else uuid4 env.

Definition register_webhook (env : Env) (self : t) (url : string)
    (event_types : list EventType) (secret : option string)
  : Py (Webhook.t * t) :=
  sec <- secret_or_uuid env secret ;;
  wid <- uuid4 env ;;
  created <- now ;;
  let webhook :=
    Webhook.mk wid url event_types true (IsoFormat created) sec 3 30 in
  ret (webhook,
       mk (dict_set (Webhook.id webhook) webhook (webhooks self))
          (deliveries self)).

Definition unregister_webhook (self : t) (webhook_id : string) : bool * t :=
  if dict_contains webhook_id (webhooks self)
  then (true, mk (dict_del webhook_id (webhooks self)) (deliveries self))
  else (false, self).

Definition list_webhooks (self : t) (active_only : bool) : list Webhook.t :=
  let ws := dict_values (webhooks self) in
  if active_only then filter Webhook.active ws else ws.

(** The call made by one attempt. *)
Definition delivery_request (webhook : Webhook.t) (event : WebhookEvent.t)
  : Request :=
  mkRequest "POST" (Webhook.url webhook) (WebhookEvent.to_dict event)
    (Webhook.timeout_seconds webhook)
    [ ("X-Webhook-ID", Webhook.id webhook);
      ("X-Event-ID", WebhookEvent.id event);
      ("X-Event-Type", EventType_value (WebhookEvent.type event));
      ("X-Secret", Webhook.secret webhook) ].

(** How one iteration of the attempt loop ends. *)
Inductive Flow : Type :=
| Return (success : bool)
| Continue.

(** The [try] statement of iteration [attempt]; [delivery] already has
    [attempts = attempt + 1]. *)
Definition attempt_body (env : Env) (webhook : Webhook.t)
    (event : WebhookEvent.t) (attempt : Z) (delivery : WebhookDelivery.t)
  : Py (Flow * WebhookDelivery.t) :=
  try_except_Exception
    (code <- post env (delivery_request webhook event) ;;
     let delivery := WebhookDelivery.set_status_code (Some code) delivery in
     if (200 <=? code) && (code <? 300) then
       ret (Return true, delivery)
     else if (500 <=? code)
             && (attempt <? Webhook.retry_count webhook - 1) then
       sleep (2 ^ attempt) ;;;
       ret (Continue, delivery)
     else
       ret (Return false,
            WebhookDelivery.set_error
              (Some (String.append "HTTP " (str_of_int code))) delivery))
    (fun e =>
       let delivery := WebhookDelivery.set_error (Some (exn_str e)) delivery in
       if attempt <? Webhook.retry_count webhook - 1 then
         sleep (2 ^ attempt) ;;;
         ret (Continue, delivery)
       else
         ret (Return false, delivery)).

(** [for attempt in range(webhook.retry_count)] from iteration [attempt]
    on, with [todo] iterations left; falling out of the loop returns
    [False]. *)
Fixpoint deliver_loop (env : Env) (webhook : Webhook.t)
    (event : WebhookEvent.t) (todo : nat) (attempt : Z)
    (delivery : WebhookDelivery.t) : Py (bool * WebhookDelivery.t) :=
  match todo with
  | O => ret (false, delivery)
  | S todo' =>
      r <- attempt_body env webhook event attempt
             (WebhookDelivery.set_attempts (attempt + 1) delivery) ;;
      match r with
      | (Return success, delivery) => ret (success, delivery)
      | (Continue, delivery) =>
          deliver_loop env webhook event todo' (attempt + 1) delivery
      end
  end.

Definition _deliver_webhook (env : Env) (webhook : Webhook.t)
    (event : WebhookEvent.t) (delivery : WebhookDelivery.t)
  : Py (bool * WebhookDelivery.t) :=
  deliver_loop env webhook event (Z.to_nat (Webhook.retry_count webhook)) 0
               delivery.

(** One iteration of the loop of [trigger_event] for a webhook that
    passed both tests. *)
Definition deliver_one (env : Env) (webhook : Webhook.t)
    (event : WebhookEvent.t) : Py WebhookDelivery.t :=
  did <- uuid4 env ;;
  let delivery := fresh_delivery did webhook event in
  r <- _deliver_webhook env webhook event delivery ;;
  let '(success, delivery) := r in
  t <- now ;;
  if success : bool
  then ret (WebhookDelivery.set_completed_at (Some (IsoFormat t)) delivery)
  else ret (WebhookDelivery.set_next_retry
              (Some (IsoFormat (t + 5 * 60 * micros_per_second))) delivery).

(** The loop of [trigger_event] over [self.webhooks.values()]; [acc] is
    the local list [deliveries], [stored] is [self.deliveries]. *)
Fixpoint trigger_loop (env : Env) (event : WebhookEvent.t)
    (ws : list Webhook.t) (stored acc : list WebhookDelivery.t)
  : Py (list WebhookDelivery.t * list WebhookDelivery.t) :=
  match ws with
  | [] => ret (stored, acc)
  | webhook :: rest =>
      if negb (Webhook.active webhook) then
        trigger_loop env event rest stored acc
      else if negb (EventType_in (WebhookEvent.type event)
                                 (Webhook.event_types webhook)) then
        trigger_loop env event rest stored acc
      else
        delivery <- deliver_one env webhook event ;;
        trigger_loop env event rest (stored ++ [delivery]) (acc ++ [delivery])
  end.

Definition trigger_event (env : Env) (self : t) (event : WebhookEvent.t)
  : Py (list WebhookDelivery.t * t) :=
  r <- trigger_loop env event (dict_values (webhooks self))
                    (deliveries self) [] ;;
  ret (snd r, mk (webhooks self) (fst r)).

Record DeliveryStatus : Type := mkStatus {
  status_webhook_id : string;
  total_deliveries : nat;
  successful : nat;
  failed : nat;
  pending : nat;
  last_delivery : option isotime
}.

(** [max(..., default=None)] over the completion times; the ISO texts of
    two instants compare as the instants do. *)
Fixpoint max_iso (l : list (option isotime)) : option isotime :=
  match l with
  | [] => None
  | None :: rest => max_iso rest
  | Some (IsoFormat a) :: rest =>
      match max_iso rest with
      | Some (IsoFormat b) => Some (IsoFormat (Z.max a b))
      | None => Some (IsoFormat a)
      end
  end.

Definition get_delivery_status (self : t) (webhook_id : string)
  : DeliveryStatus :=
  let ds :=
    filter (fun d => String.eqb (WebhookDelivery.webhook_id d) webhook_id)
           (deliveries self) in
  mkStatus webhook_id
    (List.length ds)
    (List.length
       (filter (fun d => truthy_iso (WebhookDelivery.completed_at d)) ds))
    (List.length
       (filter (fun d => truthy_str (WebhookDelivery.error d)) ds))
    (List.length
       (filter (fun d => truthy_iso (WebhookDelivery.next_retry d)) ds))
    (max_iso (map WebhookDelivery.completed_at ds)).

End WebhookManager.

(** ** [src/advanced_pro.py]: [CircuitBreaker] *)

(** [timedelta.total_seconds()] and the arithmetic on it are Python
    floats (binary64); they are read as exact rationals.  The reading is
    exact on integers up to [float_exact_int], and on the comparison of an
    elapsed time in microseconds with a whole number of seconds below
    [float_exact_seconds] in absolute value (the step between two floats
    is then under two microseconds). *)
Definition total_seconds (micros : Z) : Q :=
  (inject_Z micros / inject_Z micros_per_second)%Q.

Definition float_exact_int : Z := 9007199254740992.       (* 2 ^ 53 *)
Definition float_exact_seconds : Z := 8589934592.         (* 2 ^ 33 *)

Module CircuitBreaker.

Record t : Type := mk {
  name : string;
  failure_threshold : Z;
  recovery_timeout : Z;
  expected_exception : exn -> bool;    (* isinstance(e, expected_exception) *)
  failure_count : Z;
  last_failure_time : option Z;        (* microseconds *)
  state : string                       (* closed, open, half-open *)
}.

Definition isinstance_Exception (e : exn) : bool := exn_is_Exception e.

Definition __init__ (name : string) (failure_threshold recovery_timeout : Z)
    (expected_exception : exn -> bool) : t :=
  mk name failure_threshold recovery_timeout expected_exception 0 None
     "closed".

Definition set_state (s : string) (self : t) : t :=
  mk (name self) (failure_threshold self) (recovery_timeout self)
     (expected_exception self) (failure_count self)
     (last_failure_time self) s.

(** [now] is the reading of [datetime.now()]. *)
Definition _should_attempt_reset (self : t) (now : Z) : bool :=
  match last_failure_time self with
  | None => false
  | Some t0 =>
      Qle_bool (inject_Z (recovery_timeout self)) (total_seconds (now - t0))
  end.

Definition _on_success (self : t) : t :=
  mk (name self) (failure_threshold self) (recovery_timeout self)
     (expected_exception self) 0 (last_failure_time self) "closed".

Definition _on_failure (self : t) (now : Z) : t :=
  let count := failure_count self + 1 in
  mk (name self) (failure_threshold self) (recovery_timeout self)
     (expected_exception self) count (Some now)
     (if failure_threshold self <=? count then "open" else state self).

Definition open_error (self : t) : exn :=
  mkExn "Exception" true
    (String.append "Circuit breaker '" (String.append (name self) "' is OPEN")).

(** The test at the head of [call]: [None] when the call is refused,
    otherwise the breaker as the protected function will see it. *)
Definition entry (self : t) (w : World) : option t :=
  if String.eqb (state self) "open" then
    if _should_attempt_reset self (clock w)
    then Some (set_state "half-open" self)
    else None
  else Some self.

(** [call(func)]: the result or exception of the call, the breaker
    afterwards, and the world afterwards. *)
Definition call {A} (self : t) (func : Py A) (w : World)
  : Result A * t * World :=
  match entry self w with
  | None => (Raised (open_error self), self, w)
  | Some self =>
      match func w with
      | (Returned result, w') => (Returned result, _on_success self, w')
      | (Raised e, w') =>
          if expected_exception self e
          then (Raised e, _on_failure self (clock w'), w')
          else (Raised e, self, w')
      end
  end.

End CircuitBreaker.

(** ** [src/advanced_pro.py]: [RateLimiter] *)

Module RateLimiter.

Record t : Type := mk {
  rate : Z;
  period : Z;
  tokens : Q;
  last_update : Z       (* microseconds *)
}.

Definition __init__ (rate period : Z) (now : Z) : t :=
  mk rate period (inject_Z rate) now.

Definition ZeroDivisionError : exn :=
  mkExn "ZeroDivisionError" true "float division by zero".

(** [min(a, b)] of Python: [b] when [b < a], else [a]. *)
Definition py_min (a b : Q) : Q := if Qle_bool a b then a else b.

Definition _refill (self : t) (now : Z) : Result t :=
  let elapsed := total_seconds (now - last_update self) in
  if period self =? 0 then Raised ZeroDivisionError
  else
    let tokens_to_add :=
      ((elapsed / inject_Z (period self)) * inject_Z (rate self))%Q in
    Returned
      (mk (rate self) (period self)
          (py_min (inject_Z (rate self)) (tokens self + tokens_to_add)%Q)
          now).

Definition is_allowed (self : t) (now : Z) : Result (bool * t) :=
  match _refill self now with
  | Raised e => Raised e
  | Returned self =>
      if Qle_bool 1 (tokens self)
      then Returned
             (true,
              mk (rate self) (period self) (tokens self - 1)%Q
                 (last_update self))
      else Returned (false, self)
  end.

(** [is_allowed] called once at each of the instants [times], in order:
    the answers, and the limiter at the end; [None] if a call raised. *)
Fixpoint run (self : t) (times : list Z) : option (list bool * t) :=
  match times with
  | [] => Some ([], self)
  | now :: rest =>
      match is_allowed self now with
      | Raised _ => None
      | Returned (b, self') =>
          match run self' rest with
          | Some (bs, final) => Some (b :: bs, final)
          | None => None
          end
      end
  end.

End RateLimiter.

(** ** Python slices *)

(** The position a slice bound [i] denotes in a list of length [n]:
    negative bounds count from the end, and all are clipped to [0..n]. *)
Definition slice_index (i : Z) (n : nat) : nat :=
  if i <? 0 then Z.to_nat (Z.max 0 (i + Z.of_nat n))
  else Nat.min (Z.to_nat i) n.

(** [l[i:]] and [l[:i]] *)
Definition slice_from {A} (i : Z) (l : list A) : list A :=
  skipn (slice_index i (List.length l)) l.

Definition slice_to {A} (i : Z) (l : list A) : list A :=
  firstn (slice_index i (List.length l)) l.

(** ** [src/webhooks.py]: [EventStream] *)

Module EventStream.

(** A callback is a function object; objects are told apart by their
    identity, here a number. *)
Definition callable : Type := nat.

Record t : Type := mk {
  stream_id : string;
  subscribers : list callable;
  events : list WebhookEvent.t
}.

Definition __init__ (env : Env) (stream_id : option string) : Py t :=
  sid <- (if truthy_str stream_id
          then ret (match stream_id with Some s => s | None => "" end)
          else uuid4 env) ;;
  ret (mk sid [] []).

Definition subscribe (self : t) (callback : callable) : t :=
  mk (stream_id self) (subscribers self ++ [callback]) (events self).

(** [list.remove(x)]: the first occurrence goes. *)
Fixpoint list_remove (x : callable) (l : list callable) : list callable :=
  match l with
  | [] => []
  | y :: rest => if Nat.eqb y x then rest else y :: list_remove x rest
  end.

Definition unsubscribe (self : t) (callback : callable) : t :=
  if existsb (Nat.eqb callback) (subscribers self)
  then mk (stream_id self) (list_remove callback (subscribers self))
          (events self)
  else self.

(** What calling a callback on an event does: any effect on the world
    and on the stream that emits (a callback may hold the stream and
    subscribe, unsubscribe or clear on it), and possibly an exception. *)
Definition behaviour : Type :=
  callable -> WebhookEvent.t -> t -> World -> Result unit * t * World.

(** The [for] loop of [emit_event].  It iterates over the list object
    [self.subscribers] itself, not over a copy: the iterator keeps a
    position and reads the list as it is when the next callback is due,
    so what callbacks append or remove meanwhile is seen.  The loop ends
    when the position is past the end of the list; it need not end (each
    callback may subscribe another), hence [fuel], and [None] when it
    runs out. *)
Fixpoint emit_loop (run : behaviour) (fuel : nat) (position : nat)
    (event : WebhookEvent.t) (self : t) (w : World)
  : option (Result unit * t * World) :=
  match fuel with
  | O => None
  | S fuel =>
      match nth_error (subscribers self) position with
      | None => Some (Returned tt, self, w)
      | Some callback =>
          match run callback event self w with
          | (Returned _, self, w) =>
              emit_loop run fuel (S position) event self w
          | (Raised e, self, w) =>
              if exn_is_Exception e
              then emit_loop run fuel (S position) event self w
              else Some (Raised e, self, w)
          end
      end
  end.

Definition emit_event (run : behaviour) (fuel : nat) (self : t)
    (event : WebhookEvent.t) (w : World)
  : option (Result unit * t * World) :=
  let self := mk (stream_id self) (subscribers self) (events self ++ [event]) in
  emit_loop run fuel 0 event self w.

Definition get_events (self : t) (limit : Z) : list WebhookEvent.t :=
  slice_from (- limit) (events self).

Definition clear_events (self : t) : t :=
  mk (stream_id self) (subscribers self) [].

End EventStream.

(** ** [src/advanced_pro.py]: [AdvancedMetrics] *)

Module AdvancedMetrics.

(** [operation], [memory_mb] and [timestamp] are stored and used by no
    method; [duration_ms] is a float, read as a rational. *)
Record t : Type := mk {
  operation : string;
  duration_ms : Q;
  memory_mb : Q;
  cache_hits : Z;
  cache_misses : Z;
  timestamp : Z
}.

Definition hit_rate (self : t) : Q :=
  let total := cache_hits self + cache_misses self in
  if 0 <? total then (inject_Z (cache_hits self) / inject_Z total)%Q else 0%Q.

Definition ZeroDivisionError : exn :=
  mkExn "ZeroDivisionError" true "float division by zero".

Definition efficiency_score (self : t) : Result Q :=
  let hit_rate_score := (hit_rate self * 50)%Q in
  if Qeq_bool (duration_ms self) 0 then Raised ZeroDivisionError
  else
    let speed := ((1000 / duration_ms self) * 50)%Q in
    (* min(100, speed) *)
    let speed_score := if Qle_bool 100 speed then 100%Q else speed in
    Returned (hit_rate_score + speed_score)%Q.

End AdvancedMetrics.

(** ** [src/advanced_pro.py]: [RequestSignature] *)

Module RequestSignature.

Section WithHash.
(** [sha256_hexdigest s] stands for
    [hashlib.sha256(s.encode()).hexdigest()]. *)
Variable sha256_hexdigest : string -> string.

Record t : Type := mk { secret : string }.




End WithHash.

End RequestSignature.

(** ** [src/advanced_pro.py]: [AdaptiveCaching] *)

(** [sorted(items, key=lambda x: x[1], reverse=True)]: by decreasing
    count, items of equal count in their original order. *)
Fixpoint insert_desc (x : string * Z) (l : list (string * Z))
  : list (string * Z) :=
  match l with
  | [] => [x]
  | y :: rest =>
      if snd x <? snd y then y :: insert_desc x rest else x :: y :: rest
  end.

Definition sorted_desc (l : list (string * Z)) : list (string * Z) :=
  fold_right insert_desc [] l.

(** [d.get(k, default)] *)
Definition dict_get_default {V} (k : string) (default : V) (d : dict V) : V :=
  match dict_get k d with Some v => v | None => default end.

Module AdaptiveCaching.

Section WithValue.
Variable V : Type.

Record t : Type := mk {
  max_size_mb : Z;
  cache : dict V;
  access_count : dict Z;
  access_times : dict Z         (* microseconds *)
}.

Definition __init__ (max_size_mb : Z) : t := mk max_size_mb [] [] [].

Definition get (self : t) (key : string) : Py (option V * t) :=
  match dict_get key (cache self) with
  | Some value =>
      t0 <- now ;;
      ret (Some value,
           mk (max_size_mb self) (cache self)
              (dict_set key (dict_get_default key 0 (access_count self) + 1)
                        (access_count self))
              (dict_set key t0 (access_times self)))
  | None => ret (None, self)
  end.

Definition set (self : t) (key : string) (value : V) : Py t :=
  t0 <- now ;;
  ret (mk (max_size_mb self)
          (dict_set key value (cache self))
          (dict_set key 1 (access_count self))
          (dict_set key t0 (access_times self))).

Definition get_hot_keys (self : t) (top_n : Z) : list (string * Z) :=
  slice_to top_n (sorted_desc (access_count self)).

Definition get_recommendations (self : t) : dict string :=
  fold_left
    (fun recommendations kc =>
       let '(key, count) := kc in
       if 100 <? count then dict_set key "Increase TTL" recommendations
       else if count <? 5 then dict_set key "Consider removing" recommendations
       else recommendations)
    (get_hot_keys self 10) [].

End WithValue.

End AdaptiveCaching.

(** ** [src/advanced_pro.py]: [DistributedTracing] *)

Module DistributedTracing.

Record span : Type := mkSpan {
  span_name : string;
  span_service : string;
  span_duration_ms : Q;       (* stored only *)
  span_status : string;
  span_timestamp : isotime
}.

Record t : Type := mk {
  service_name : string;
  traces : dict (list span)
}.

Definition __init__ (service_name : string) : t := mk service_name [].

Definition start_trace (self : t) (trace_id : string) : t :=
  mk (service_name self) (dict_set trace_id [] (traces self)).

Definition add_span (self : t) (trace_id span_name : string)
    (duration_ms : Q) (status : string) : Py t :=
  let traces0 :=
    if negb (dict_contains trace_id (traces self))
    then dict_set trace_id [] (traces self)
    else traces self in
  t0 <- now ;;
  let span :=
    mkSpan span_name (service_name self) duration_ms status (IsoFormat t0) in
  ret (mk (service_name self)
          (dict_set trace_id (dict_get_default trace_id [] traces0 ++ [span])
                    traces0)).

Definition get_trace (self : t) (trace_id : string) : list span :=
  dict_get_default trace_id [] (traces self).

End DistributedTracing.

(** ** [src/advanced_pro.py]: [AdvancedAnalytics] *)

Module AdvancedAnalytics.

Record event : Type := mkEvent {
  type : string;
  user_id : string;
  timestamp : isotime;
  metadata : list (string * json)
}.

(** [aggregates] is created empty and used by no method. *)
Record t : Type := mk { events : list event }.

Definition __init__ : t := mk [].

Definition track_event (self : t) (event_type user_id : string)
    (metadata : list (string * json)) : Py t :=
  t0 <- now ;;
  ret (mk (events self ++ [mkEvent event_type user_id (IsoFormat t0) metadata])).

(** The loop that counts the events of each type. *)
Definition count_types (evs : list event) : dict Z :=
  fold_left
    (fun event_counts e =>
       dict_set (type e) (dict_get_default (type e) 0 event_counts + 1)
                event_counts)
    evs [].

(** [max(items, key=lambda x: x[1])] from a first item on: the first of
    the items with the greatest count. *)
Fixpoint max_item (best : string * Z) (items : list (string * Z))
  : string * Z :=
  match items with
  | [] => best
  | x :: rest => if snd best <? snd x then max_item x rest else max_item best rest
  end.

Record insights : Type := mkInsights {
  total_events : nat;
  unique_users : nat;
  event_distribution : dict Z;
  most_common_event : string
}.

(** [None] stands for the empty dictionary returned when there is no
    event. *)
Definition get_insights (self : t) : option insights :=
  match events self with
  | [] => None
  | _ :: _ =>
      let event_counts := count_types (events self) in
      Some (mkInsights
              (List.length (events self))
              (List.length (nodup string_dec (map user_id (events self))))
              event_counts
              (fst (match event_counts with
                    | [] => ("unknown", 0)
                    | x :: rest => max_item x rest
                    end)))
  end.

End AdvancedAnalytics.

(** ** Notions used by the statements *)

(** The endpoint raises only exceptions derived from [Exception] (network
    and protocol errors of the HTTP client). *)
Definition only_Exceptions (env : Env) : Prop :=
  forall n r e, endpoint env n r = Fails e -> exn_is_Exception e = true.

(** The two tests of [trigger_event]: active, and interested in the kind
    of the event. *)
Definition matches (event : WebhookEvent.t) (webhook : Webhook.t) : bool :=
  Webhook.active webhook
  && EventType_in (WebhookEvent.type event) (Webhook.event_types webhook).

(** Header names compare without regard to case. *)
Definition ascii_lower (c : ascii) : ascii :=
  let n := nat_of_ascii c in
  if (Nat.leb 65 n && Nat.leb n 90)%bool then ascii_of_nat (n + 32) else c.

Fixpoint lower (s : string) : string :=
  match s with
  | EmptyString => EmptyString
  | String c rest => String (ascii_lower c) (lower rest)
  end.

Definition header_get (name : string) (headers : list (string * string))
  : option string :=
  match find (fun kv => String.eqb (lower (fst kv)) (lower name)) headers with
  | Some kv => Some (snd kv)
  | None => None
  end.

(** Endpoints for examples: the same outcome every time, and a script of
    outcomes followed by a default. *)
Definition uuid_of_nat (n : nat) : string :=
  String.append "uuid-" (str_of_int (Z.of_nat n)).

Definition env_always (o : Outcome) : Env := mkEnv uuid_of_nat (fun _ _ => o).

Definition env_script (script : list Outcome) (default : Outcome) : Env :=
  mkEnv uuid_of_nat (fun n _ => nth n script default).

Definition world0 : World := mkWorld 0 0 [] [].

Definition connection_refused : exn :=
  mkExn "ConnectError" true "connection refused".

Definition task_done : WebhookEvent.t :=
  WebhookEvent.mk "event-1" TASK_COMPLETED "2024-01-01T00:00:00" [] [].

(** The fields of a delivery record the attempt loop never writes. *)
Definition same_identity (d d' : WebhookDelivery.t) : Prop :=
  WebhookDelivery.id d' = WebhookDelivery.id d
  /\ WebhookDelivery.webhook_id d' = WebhookDelivery.webhook_id d
  /\ WebhookDelivery.event_id d' = WebhookDelivery.event_id d
  /\ WebhookDelivery.next_retry d' = WebhookDelivery.next_retry d
  /\ WebhookDelivery.completed_at d' = WebhookDelivery.completed_at d.

(** The delays between the attempts of a loop of [n] attempts. *)
Definition backoff_delays (first : Z) (n : nat) : list Z :=
  map (fun i => 2 ^ (first + Z.of_nat i)) (seq 0 n).

(** What [trigger_event] leaves in the record it makes for a subscription:
    whose it is, how many attempts, and the outcome: completed, or not
    completed with [next_retry] stamped. *)
Definition delivery_for (event : WebhookEvent.t) (d : WebhookDelivery.t)
    (webhook : Webhook.t) : Prop :=
  WebhookDelivery.webhook_id d = Webhook.id webhook
  /\ WebhookDelivery.event_id d = WebhookEvent.id event
  /\ 0 <= WebhookDelivery.attempts d <= Z.max 0 (Webhook.retry_count webhook)
  /\ ((WebhookDelivery.completed_at d <> None
       /\ WebhookDelivery.next_retry d = None)
      \/ (WebhookDelivery.completed_at d = None
          /\ WebhookDelivery.next_retry d <> None)).

(** Subscriptions and a registry for examples. *)
Definition hook_a : Webhook.t :=
  Webhook.mk "hook-a" "https://a.example/hook" [TASK_COMPLETED; TASK_FAILED]
             true (IsoFormat 0) "s3cret" 3 30.

Definition hook_b : Webhook.t :=
  Webhook.mk "hook-b" "https://b.example/hook" [PLAN_CREATED]
             true (IsoFormat 0) "b-secret" 3 30.

Definition hook_c : Webhook.t :=
  Webhook.mk "hook-c" "https://c.example/hook" [TASK_COMPLETED]
             false (IsoFormat 0) "c-secret" 3 30.

Definition manager_abc : WebhookManager.t :=
  WebhookManager.mk [("hook-a", hook_a); ("hook-b", hook_b); ("hook-c", hook_c)]
                    [].

(** The specification's "well-formed absolute URL", read as RFC 3986
    does: a scheme (a letter, then letters, digits, [+], [-] or [.]),
    a colon, and something after it.  The code has no such test; the
    predicate only serves to state what the specification says of
    [register]. *)
Definition is_alpha (c : ascii) : bool :=
  let n := nat_of_ascii c in
  ((Nat.leb 65 n && Nat.leb n 90) || (Nat.leb 97 n && Nat.leb n 122))%bool.

Definition is_scheme_char (c : ascii) : bool :=
  let n := nat_of_ascii c in
  (is_alpha c || (Nat.leb 48 n && Nat.leb n 57)
   || Nat.eqb n 43 || Nat.eqb n 45 || Nat.eqb n 46)%bool.

Fixpoint scheme_then_colon (s : string) : bool :=
  match s with
  | EmptyString => false
  | String c rest =>
      if Nat.eqb (nat_of_ascii c) 58
      then negb (String.eqb rest EmptyString)
      else (is_scheme_char c && scheme_then_colon rest)%bool
  end.

Definition spec_absolute_url (s : string) : bool :=
  match s with
  | EmptyString => false
  | String c rest => (is_alpha c && scheme_then_colon rest)%bool
  end.

(** A call that fails, and a breaker for the endpoint of [hook_a] after
    five of them in a row. *)
Definition failing_call : Py unit := raise connection_refused.

Fixpoint breaker_after_calls {A} (funcs : list (Py A)) (b : CircuitBreaker.t)
    (w : World) : CircuitBreaker.t * World :=
  match funcs with
  | [] => (b, w)
  | func :: rest =>
      match CircuitBreaker.call b func w with
      | (_, b', w') => breaker_after_calls rest b' w'
      end
  end.

Definition opened_breaker : CircuitBreaker.t :=
  fst (breaker_after_calls (repeat failing_call 5)
         (CircuitBreaker.__init__ (Webhook.url hook_a) 5 60
            CircuitBreaker.isinstance_Exception)
         world0).

(** A protected function that fails with an exception the breaker
    expects, whatever the world it runs in. *)
Definition fails_expectedly {A} (b : CircuitBreaker.t) (func : Py A) : Prop :=
  forall w, exists e w',
    func w = (Raised e, w') /\ CircuitBreaker.expected_exception b e = true.


(** Two states of one limiter: same capacity and period. *)
Definition same_settings (s s' : RateLimiter.t) : Prop :=
  RateLimiter.rate s' = RateLimiter.rate s
  /\ RateLimiter.period s' = RateLimiter.period s.

(** The registry as [register_webhook] and [unregister_webhook] keep it:
    every subscription is stored under its own identifier, and no
    identifier is stored twice. *)
Definition registry_wf (ws : dict Webhook.t) : Prop :=
  NoDup (dict_keys ws)
  /\ Forall (fun kv => fst kv = Webhook.id (snd kv)) ws.

(** A delivery record as [trigger_event] stores it: completed, or not
    completed with a retry time stamped, never both and never neither. *)
Definition outcome_recorded (d : WebhookDelivery.t) : Prop :=
  (WebhookDelivery.completed_at d <> None
   /\ WebhookDelivery.next_retry d = None)
  \/ (WebhookDelivery.completed_at d = None
      /\ WebhookDelivery.next_retry d <> None).

(** The sum of a list of delays. *)
Definition total_delay (delays : list Z) : Z := fold_right Z.add 0 delays.

(** The three dictionaries of a cache hold the same keys, in the same
    order. *)
Definition cache_keys_agree {V} (c : AdaptiveCaching.t V) : Prop :=
  dict_keys (AdaptiveCaching.access_count V c)
  = dict_keys (AdaptiveCaching.cache V c)
  /\ dict_keys (AdaptiveCaching.access_times V c)
     = dict_keys (AdaptiveCaching.cache V c).

(** Decreasing order of the counts. *)
Definition count_ge (a b : string * Z) : Prop := snd b <= snd a.

(** The sum of the counts of a dictionary. *)
Definition sum_counts (d : dict Z) : Z := fold_right Z.add 0 (map snd d).

(** A callback that acts on the world only and leaves the stream alone. *)
Definition stream_untouched (m : Py unit) (self : EventStream.t) (w : World)
  : Result unit * EventStream.t * World :=
  let '(r, w') := m w in (r, self, w').

(** Stream and world after one more callback has run. *)
Definition after_callback (run : EventStream.behaviour)
    (event : WebhookEvent.t) (sw : EventStream.t * World)
    (callback : EventStream.callable) : EventStream.t * World :=
  let '(_, self, w) := run callback event (fst sw) (snd sw) in (self, w).

(** Subscriber 1 unsubscribes itself when called; any other subscriber
    sleeps as many seconds as its number. *)
Definition leaves_when_called : EventStream.behaviour :=
  fun callback _ self w =>
    if Nat.eqb callback 1
    then (Returned tt, EventStream.unsubscribe self 1%nat, w)
    else stream_untouched (sleep (Z.of_nat callback)) self w.

(** * Properties *)

(** ** The attempt loop *)

Section AttemptLoop.
Variable env : Env.
Variable webhook : Webhook.t.
Variable event : WebhookEvent.t.

Let req := WebhookManager.delivery_request webhook event.
Let rc := Webhook.retry_count webhook.

Ltac run_body :=
  unfold WebhookManager.attempt_body, try_except_Exception, bind, post,
    ret, sleep, after_sleep, sent;
  cbn [fst snd outbox slept clock uuid_count].

Lemma same_identity_refl d : same_identity d d.
Proof. repeat split. Qed.

Lemma same_identity_trans d1 d2 d3 :
  same_identity d1 d2 -> same_identity d2 d3 -> same_identity d1 d3.
Proof.
  unfold same_identity. intros (a1 & a2 & a3 & a4 & a5) (b1 & b2 & b3 & b4 & b5).
  repeat split; congruence.
Qed.

(** One iteration makes exactly one call, draws no identifier, and
    either ends the loop, goes on, or lets through an exception that
    [except Exception] does not catch. *)
Lemma attempt_body_spec attempt d w :
  exists r w',
    WebhookManager.attempt_body env webhook event attempt d w = (r, w')
    /\ outbox w' = outbox w ++ [req]
    /\ uuid_count w' = uuid_count w
    /\ match r with
       | Returned (_, d') =>
           same_identity d d'
           /\ WebhookDelivery.attempts d' = WebhookDelivery.attempts d
       | Raised e =>
           endpoint env (List.length (outbox w)) req = Fails e
           /\ exn_is_Exception e = false
       end.
Proof.
  run_body. fold req.
  destruct (endpoint env (List.length (outbox w)) req) as [code | e] eqn:Ho.
  - destruct ((200 <=? code) && (code <? 300))%bool.
    + eexists _, _; split; [reflexivity |]. cbn. repeat split.
    + destruct ((500 <=? code) && (attempt <? Webhook.retry_count webhook - 1))%bool.
      * eexists _, _; split; [reflexivity |]. cbn. repeat split.
      * eexists _, _; split; [reflexivity |]. cbn. repeat split.
  - destruct (exn_is_Exception e) eqn:He.
    + destruct (attempt <? Webhook.retry_count webhook - 1).
      * eexists _, _; split; [reflexivity |]. cbn. repeat split.
      * eexists _, _; split; [reflexivity |]. cbn. repeat split.
    + eexists _, _; split; [reflexivity |]. cbn. repeat split; assumption.
Qed.

(** The iteration, by what the endpoint answers. *)
Lemma attempt_body_status attempt d w code :
  endpoint env (List.length (outbox w)) req = Responds code ->
  WebhookManager.attempt_body env webhook event attempt d w
  = let d1 := WebhookDelivery.set_status_code (Some code) d in
    if ((200 <=? code) && (code <? 300))%bool then
      (Returned (WebhookManager.Return true, d1), sent req w)
    else if ((500 <=? code) && (attempt <? rc - 1))%bool then
      (Returned (WebhookManager.Continue, d1),
       after_sleep (2 ^ attempt) (sent req w))
    else
      (Returned
         (WebhookManager.Return false,
          WebhookDelivery.set_error
            (Some (String.append "HTTP " (str_of_int code))) d1),
       sent req w).
Proof.
  intros Ho.
  unfold WebhookManager.attempt_body, try_except_Exception, bind, post,
    ret, sleep.
  fold req. rewrite Ho. fold rc. cbn zeta.
  destruct ((200 <=? code) && (code <? 300))%bool; [reflexivity |].
  destruct ((500 <=? code) && (attempt <? rc - 1))%bool; reflexivity.
Qed.

Lemma attempt_body_raise attempt d w e :
  endpoint env (List.length (outbox w)) req = Fails e ->
  WebhookManager.attempt_body env webhook event attempt d w
  = if exn_is_Exception e then
      let d1 := WebhookDelivery.set_error (Some (exn_str e)) d in
      if attempt <? rc - 1 then
        (Returned (WebhookManager.Continue, d1),
         after_sleep (2 ^ attempt) (sent req w))
      else (Returned (WebhookManager.Return false, d1), sent req w)
    else (Raised e, sent req w).
Proof.
  intros Ho.
  unfold WebhookManager.attempt_body, try_except_Exception, bind, post,
    ret, sleep.
  fold req. rewrite Ho. fold rc. cbn zeta.
  destruct (exn_is_Exception e); [| reflexivity].
  destruct (attempt <? rc - 1); reflexivity.
Qed.

Lemma deliver_loop_return todo attempt d w success d1 w1 :
  WebhookManager.attempt_body env webhook event attempt
    (WebhookDelivery.set_attempts (attempt + 1) d) w
  = (Returned (WebhookManager.Return success, d1), w1) ->
  WebhookManager.deliver_loop env webhook event (S todo) attempt d w
  = (Returned (success, d1), w1).
Proof.
  intros H. cbn [WebhookManager.deliver_loop]. unfold bind. rewrite H.
  reflexivity.
Qed.

Lemma deliver_loop_continue todo attempt d w d1 w1 :
  WebhookManager.attempt_body env webhook event attempt
    (WebhookDelivery.set_attempts (attempt + 1) d) w
  = (Returned (WebhookManager.Continue, d1), w1) ->
  WebhookManager.deliver_loop env webhook event (S todo) attempt d w
  = WebhookManager.deliver_loop env webhook event todo (attempt + 1) d1 w1.
Proof.
  intros H. cbn [WebhookManager.deliver_loop]. unfold bind. rewrite H.
  reflexivity.
Qed.

(** What a run of the loop does, whatever the endpoint answers: [k]
    iterations, one call each; the record keeps its identity and counts
    the iterations. *)
Lemma deliver_loop_spec todo : forall attempt d w,
  exists r w' k,
    WebhookManager.deliver_loop env webhook event todo attempt d w = (r, w')
    /\ (k <= todo)%nat
    /\ outbox w' = outbox w ++ repeat req k
    /\ uuid_count w' = uuid_count w
    /\ match r with
       | Returned (b, d') =>
           same_identity d d'
           /\ (k = 0%nat -> d' = d /\ b = false)
           /\ ((0 < k)%nat ->
               WebhookDelivery.attempts d' = attempt + Z.of_nat k)
       | Raised e =>
           exn_is_Exception e = false
           /\ exists n, endpoint env n req = Fails e
       end.
Proof.
  induction todo as [| todo IH]; intros attempt d w.
  - exists (Returned (false, d)), w, 0%nat. cbn.
    rewrite app_nil_r. repeat split; try reflexivity; try lia.
  - cbn [WebhookManager.deliver_loop]. unfold bind at 1.
    destruct (attempt_body_spec attempt
                (WebhookDelivery.set_attempts (attempt + 1) d) w)
      as (r1 & w1 & Hrun & Hout & Huu & Hr).
    rewrite Hrun.
    destruct r1 as [[flow d1] | e].
    + destruct Hr as [Hid Hatt]. cbn in Hatt.
      assert (Hid0 : same_identity d d1).
      { eapply same_identity_trans; [| exact Hid]. repeat split. }
      destruct flow as [success |].
      * exists (Returned (success, d1)), w1, 1%nat. unfold ret.
        split; [reflexivity |]. split; [lia |].
        split; [exact Hout |]. split; [exact Huu |].
        split; [exact Hid0 |]. split; [lia |]. intros _. lia.
      * destruct (IH (attempt + 1) d1 w1)
          as (r2 & w2 & k & Hrun2 & Hk & Hout2 & Huu2 & Hr2).
        exists r2, w2, (S k). split; [exact Hrun2 |]. split; [lia |].
        split.
        { rewrite Hout2, Hout, <- app_assoc. reflexivity. }
        split; [congruence |].
        destruct r2 as [[b d2] | e2]; [| exact Hr2].
        destruct Hr2 as (Hid2 & Hz & Hpos).
        split; [eapply same_identity_trans; eassumption |].
        split; [lia |]. intros _.
        destruct k as [| k'].
        -- destruct (Hz eq_refl) as [-> _]. lia.
        -- rewrite Hpos by lia. lia.
    + destruct Hr as [Hfail Hne].
      exists (Raised e), w1, 1%nat.
      split; [reflexivity |]. split; [lia |].
      split; [exact Hout |]. split; [exact Huu |].
      split; [exact Hne |]. eexists; exact Hfail.
Qed.

End AttemptLoop.

(** ** [trigger_event] *)

Section Trigger.
Variable env : Env.
Variable event : WebhookEvent.t.

(** The record made for one matching subscription. *)
Lemma deliver_one_spec webhook w :
  exists r w' k,
    WebhookManager.deliver_one env webhook event w = (r, w')
    /\ (k <= Z.to_nat (Webhook.retry_count webhook))%nat
    /\ outbox w'
       = outbox w
         ++ repeat (WebhookManager.delivery_request webhook event) k
    /\ match r with
       | Returned d =>
           delivery_for event d webhook
           /\ WebhookDelivery.attempts d = Z.of_nat k
           /\ WebhookDelivery.id d = uuid_source env (uuid_count w)
       | Raised e =>
           exn_is_Exception e = false
           /\ exists n r, endpoint env n r = Fails e
       end.
Proof.
  unfold WebhookManager.deliver_one, WebhookManager._deliver_webhook.
  unfold bind at 1. unfold uuid4 at 1.
  set (w0 := mkWorld (clock w) (S (uuid_count w)) (outbox w) (slept w)).
  set (d0 := fresh_delivery _ webhook event).
  unfold bind at 1.
  destruct (deliver_loop_spec env webhook event
              (Z.to_nat (Webhook.retry_count webhook)) 0 d0 w0)
    as (r & w1 & k & Hrun & Hk & Hout & _ & Hr).
  rewrite Hrun.
  destruct r as [[success d1] | e].
  - destruct Hr as ((_ & Hwid & Heid & Hnr & Hca) & Hz & Hpos).
    assert (Hatt : WebhookDelivery.attempts d1 = Z.of_nat k).
    { destruct k as [| k'].
      - destruct (Hz eq_refl) as [-> _]. reflexivity.
      - rewrite Hpos by lia. lia. }
    assert (Hidd : WebhookDelivery.id d1 = uuid_source env (uuid_count w)).
    { destruct k as [| k'].
      - destruct (Hz eq_refl) as [-> _]. reflexivity.
      - destruct (deliver_loop_spec env webhook event
                    (Z.to_nat (Webhook.retry_count webhook)) 0 d0 w0)
          as (r' & w1' & k'' & Hrun' & _ & _ & _ & Hr').
        rewrite Hrun in Hrun'. inversion Hrun'; subst r' w1'.
        destruct Hr' as ((Hi & _) & _). exact Hi. }
    unfold bind, now, ret.
    destruct success.
    + eexists _, w1, k. split; [reflexivity |]. split; [exact Hk |].
      split; [exact Hout |].
      unfold delivery_for, WebhookDelivery.set_completed_at.
      cbn [WebhookDelivery.id WebhookDelivery.webhook_id
           WebhookDelivery.event_id WebhookDelivery.attempts
           WebhookDelivery.next_retry WebhookDelivery.completed_at].
      repeat split; try assumption; try lia.
      left. split; [discriminate | exact Hnr].
    + eexists _, w1, k. split; [reflexivity |]. split; [exact Hk |].
      split; [exact Hout |].
      unfold delivery_for, WebhookDelivery.set_next_retry.
      cbn [WebhookDelivery.id WebhookDelivery.webhook_id
           WebhookDelivery.event_id WebhookDelivery.attempts
           WebhookDelivery.next_retry WebhookDelivery.completed_at].
      repeat split; try assumption; try lia.
      right. split; [exact Hca | discriminate].
  - destruct Hr as (Hne & n & Hf).
    exists (Raised e), w1, k. split; [reflexivity |]. split; [exact Hk |].
    split; [exact Hout |]. split; [exact Hne |]. eauto.
Qed.

(** With an endpoint that raises only [Exception]s, the loop over the
    registry runs to its end and adds one record for each subscription
    that passes the two tests, in the order of the registry. *)
Lemma trigger_loop_spec (Hexn : only_Exceptions env) ws :
  forall stored acc w,
  exists ds w',
    WebhookManager.trigger_loop env event ws stored acc w
    = (Returned (stored ++ ds, acc ++ ds), w')
    /\ Forall2 (delivery_for event) ds (filter (matches event) ws).
Proof.
  induction ws as [| webhook rest IH]; intros stored acc w.
  - exists [], w. cbn. rewrite !app_nil_r. split; [reflexivity | constructor].
  - cbn [WebhookManager.trigger_loop filter]. unfold matches at 1.
    destruct (Webhook.active webhook); cbn [negb andb].
    2: { apply IH. }
    destruct (EventType_in (WebhookEvent.type event)
                           (Webhook.event_types webhook)); cbn [negb].
    2: { apply IH. }
    unfold bind at 1.
    destruct (deliver_one_spec webhook w) as (r & w1 & k & Hrun & _ & _ & Hr).
    rewrite Hrun.
    destruct r as [d | e].
    + destruct Hr as (Hfor & _).
      destruct (IH (stored ++ [d]) (acc ++ [d]) w1) as (ds & w2 & Hrest & Hall).
      exists (d :: ds), w2. split.
      * rewrite Hrest, <- !app_assoc. reflexivity.
      * constructor; assumption.
    + destruct Hr as (Hne & n & r0 & Hf).
      rewrite (Hexn _ _ _ Hf) in Hne. discriminate.
Qed.

End Trigger.

(** C1. For every event, [trigger_event] creates, stores and returns one
    delivery record for each registered subscription that is active and
    whose event kinds contain the kind of the event, in the order of the
    registry, and no record for any other subscription. *)
Theorem trigger_event_one_delivery_per_match env self event w :
  only_Exceptions env ->
  exists ds self' w',
    WebhookManager.trigger_event env self event w = (Returned (ds, self'), w')
    /\ Forall2
         (fun d webhook =>
            WebhookDelivery.webhook_id d = Webhook.id webhook
            /\ WebhookDelivery.event_id d = WebhookEvent.id event)
         ds
         (filter (matches event) (dict_values (WebhookManager.webhooks self)))
    /\ WebhookManager.deliveries self' = WebhookManager.deliveries self ++ ds
    /\ WebhookManager.webhooks self' = WebhookManager.webhooks self.
Proof.
  intros Hexn. unfold WebhookManager.trigger_event, bind.
  destruct (trigger_loop_spec env event Hexn
              (dict_values (WebhookManager.webhooks self))
              (WebhookManager.deliveries self) [] w) as (ds & w' & Hrun & Hall).
  rewrite Hrun. exists ds. eexists. exists w'. unfold ret. cbn.
  split; [reflexivity |]. split; [| split; reflexivity].
  clear Hrun. induction Hall as [| d wh ds whs Hd _ IH]; constructor.
  - destruct Hd as (H1 & H2 & _). split; assumption.
  - exact IH.
Qed.

Lemma trigger_event_one_delivery_per_match_witness :
  exists ds self' w',
    WebhookManager.trigger_event (env_always (Responds 200)) manager_abc
                                 task_done world0
    = (Returned (ds, self'), w')
    /\ Forall2
         (fun d webhook =>
            WebhookDelivery.webhook_id d = Webhook.id webhook
            /\ WebhookDelivery.event_id d = WebhookEvent.id task_done)
         ds
         (filter (matches task_done)
                 (dict_values (WebhookManager.webhooks manager_abc)))
    /\ WebhookManager.deliveries self'
       = WebhookManager.deliveries manager_abc ++ ds
    /\ WebhookManager.webhooks self' = WebhookManager.webhooks manager_abc.
Proof.
  apply (trigger_event_one_delivery_per_match
           (env_always (Responds 200)) manager_abc task_done world0).
  intros n r e H. simpl in H. discriminate H.
Defined.

(** C6. [trigger_event] raises nothing to the producer: whatever each
    call answers (a 2xx, a 4xx, a 5xx, an exception of the HTTP client),
    it returns the list of delivery records, and each record carries its
    outcome: completed, or not completed with [next_retry] stamped. *)
Theorem trigger_event_never_raises env self event w :
  only_Exceptions env ->
  exists ds self' w',
    WebhookManager.trigger_event env self event w = (Returned (ds, self'), w')
    /\ Forall
         (fun d =>
            (WebhookDelivery.completed_at d <> None
             /\ WebhookDelivery.next_retry d = None)
            \/ (WebhookDelivery.completed_at d = None
                /\ WebhookDelivery.next_retry d <> None))
         ds
    /\ WebhookManager.deliveries self' = WebhookManager.deliveries self ++ ds.
Proof.
  intros Hexn. unfold WebhookManager.trigger_event, bind.
  destruct (trigger_loop_spec env event Hexn
              (dict_values (WebhookManager.webhooks self))
              (WebhookManager.deliveries self) [] w) as (ds & w' & Hrun & Hall).
  rewrite Hrun. exists ds. eexists. exists w'. unfold ret. cbn.
  split; [reflexivity |]. split; [| reflexivity].
  clear Hrun. induction Hall as [| d wh ds whs Hd _ IH]; constructor.
  - destruct Hd as (_ & _ & _ & H). exact H.
  - exact IH.
Qed.

Lemma trigger_event_never_raises_witness :
  exists ds self' w',
    WebhookManager.trigger_event
      (env_script [Fails connection_refused; Responds 404] (Responds 503))
      manager_abc task_done world0
    = (Returned (ds, self'), w')
    /\ Forall
         (fun d =>
            (WebhookDelivery.completed_at d <> None
             /\ WebhookDelivery.next_retry d = None)
            \/ (WebhookDelivery.completed_at d = None
                /\ WebhookDelivery.next_retry d <> None))
         ds
    /\ WebhookManager.deliveries self'
       = WebhookManager.deliveries manager_abc ++ ds.
Proof.
  apply (trigger_event_never_raises
           (env_script [Fails connection_refused; Responds 404] (Responds 503))
           manager_abc task_done world0).
  intros n r e H. simpl in H.
  destruct n as [| [| [| n]]]; simpl in H; try discriminate H.
  inversion H. reflexivity.
Defined.

(** ** Outcomes of the attempt loop *)

Lemma backoff_delays_S first n :
  backoff_delays first (S n) = 2 ^ first :: backoff_delays (first + 1) n.
Proof.
  unfold backoff_delays. cbn [seq map]. rewrite Z.add_0_r. f_equal.
  rewrite <- seq_shift, map_map. apply map_ext. intros i.
  f_equal. lia.
Qed.

Lemma backoff_delays_increasing n : forall first,
  0 <= first -> StronglySorted Z.lt (backoff_delays first n).
Proof.
  induction n as [| n IH]; intros first Hf.
  - constructor.
  - rewrite backoff_delays_S. constructor.
    + apply IH. lia.
    + unfold backoff_delays. apply Forall_forall. intros x Hx.
      apply in_map_iff in Hx. destruct Hx as (i & <- & _).
      apply Z.pow_lt_mono_r; lia.
Qed.

Section Outcomes.
Variable env : Env.
Variable webhook : Webhook.t.
Variable event : WebhookEvent.t.

Let req := WebhookManager.delivery_request webhook event.
Let rc := Webhook.retry_count webhook.

(** Against an endpoint that answers every call with a status of 500 or
    more, the loop uses all its iterations, sleeping [2 ^ attempt]
    seconds between two of them, and ends with [False]. *)
Lemma deliver_loop_5xx
    (H5 : forall n r, exists c, endpoint env n r = Responds c /\ 500 <= c)
    todo : forall attempt d w,
  attempt + Z.of_nat (S todo) = rc ->
  exists d' w' c,
    WebhookManager.deliver_loop env webhook event (S todo) attempt d w
    = (Returned (false, d'), w')
    /\ 500 <= c
    /\ endpoint env (List.length (outbox w) + todo) req = Responds c
    /\ same_identity d d'
    /\ WebhookDelivery.attempts d' = rc
    /\ WebhookDelivery.status_code d' = Some c
    /\ WebhookDelivery.error d'
       = Some (String.append "HTTP " (str_of_int c))
    /\ outbox w' = outbox w ++ repeat req (S todo)
    /\ slept w' = slept w ++ backoff_delays attempt todo
    /\ uuid_count w' = uuid_count w.
Proof.
  induction todo as [| todo IH]; intros attempt d w Hrc;
    destruct (H5 (List.length (outbox w)) req) as (c & Hc & Hge);
    pose proof (attempt_body_status env webhook event attempt
                  (WebhookDelivery.set_attempts (attempt + 1) d) w c Hc)
      as Hbody;
    cbn zeta in Hbody;
    replace ((200 <=? c) && (c <? 300))%bool with false in Hbody
      by (symmetry; apply andb_false_iff; right; apply Z.ltb_ge; lia);
    replace (500 <=? c) with true in Hbody
      by (symmetry; apply Z.leb_le; lia);
    cbn [andb] in Hbody.
  - replace (attempt <? Webhook.retry_count webhook - 1) with false in Hbody
      by (symmetry; apply Z.ltb_ge; fold rc; lia).
    rewrite (deliver_loop_return env webhook event _ _ _ _ _ _ _ Hbody).
    eexists _, _, c. split; [reflexivity |]. cbn.
    rewrite Nat.add_0_r, app_nil_r.
    repeat split; try assumption; try reflexivity; try (fold rc; lia).
  - replace (attempt <? Webhook.retry_count webhook - 1) with true in Hbody
      by (symmetry; apply Z.ltb_lt; fold rc; lia).
    rewrite (deliver_loop_continue env webhook event _ _ _ _ _ _ Hbody).
    match goal with
    | |- context [WebhookManager.deliver_loop _ _ _ _ _ ?d1 ?w1] =>
        destruct (IH (attempt + 1) d1 w1)
          as (d' & w' & c' & Hrun & Hc' & Hlast & Hid & Hatt & Hsc & Herr
              & Hout & Hsl & Huu); [lia |]
    end.
    exists d', w', c'. cbn [outbox slept uuid_count clock after_sleep sent] in *.
    split; [exact Hrun |]. split; [exact Hc' |].
    split.
    { rewrite <- Hlast. f_equal. rewrite length_app. cbn. lia. }
    split.
    { eapply same_identity_trans; [| exact Hid]. repeat split. }
    split; [exact Hatt |]. split; [exact Hsc |]. split; [exact Herr |].
    split.
    { rewrite Hout, <- app_assoc. reflexivity. }
    split; [| exact Huu].
    rewrite Hsl, <- app_assoc, backoff_delays_S. reflexivity.
Qed.

(** A loop with an iteration to run always sends the first call. *)
Lemma deliver_loop_first_call todo attempt d w :
  exists r w' more,
    WebhookManager.deliver_loop env webhook event (S todo) attempt d w
    = (r, w')
    /\ outbox w' = outbox w ++ req :: more.
Proof.
  cbn [WebhookManager.deliver_loop]. unfold bind at 1.
  destruct (attempt_body_spec env webhook event attempt
              (WebhookDelivery.set_attempts (attempt + 1) d) w)
    as (r1 & w1 & Hrun & Hout & _ & _).
  rewrite Hrun. destruct r1 as [[[success |] d1] | e].
  - eexists _, _, []. split; [reflexivity | exact Hout].
  - destruct (deliver_loop_spec env webhook event todo (attempt + 1) d1 w1)
      as (r2 & w2 & k & Hrun2 & _ & Hout2 & _).
    exists r2, w2, (repeat req k). split; [exact Hrun2 |].
    rewrite Hout2, Hout, <- app_assoc. reflexivity.
  - eexists _, _, []. split; [reflexivity | exact Hout].
Qed.

(** When the loop of [_deliver_webhook] returns [False], [error] holds
    what the last call made gave: [HTTP <code>], or the text of the
    exception.  The last call is the one at the end of the outbox. *)
Lemma deliver_loop_failure todo : forall attempt d w d' w',
  attempt + Z.of_nat (S todo) = rc ->
  WebhookManager.deliver_loop env webhook event (S todo) attempt d w
  = (Returned (false, d'), w') ->
  exists k,
    outbox w' = outbox w ++ repeat req (S k)
    /\ match endpoint env (List.length (outbox w) + k) req with
       | Responds code =>
           WebhookDelivery.error d'
           = Some (String.append "HTTP " (str_of_int code))
       | Fails e => WebhookDelivery.error d' = Some (exn_str e)
       end.
Proof.
  assert (Hnext : forall w w1 d' w',
             outbox w1 = outbox w ++ [req] ->
             (exists k,
                 outbox w' = outbox w1 ++ repeat req (S k)
                 /\ match endpoint env (List.length (outbox w1) + k) req with
                    | Responds code =>
                        WebhookDelivery.error d'
                        = Some (String.append "HTTP " (str_of_int code))
                    | Fails e => WebhookDelivery.error d' = Some (exn_str e)
                    end) ->
             exists k,
               outbox w' = outbox w ++ repeat req (S k)
               /\ match endpoint env (List.length (outbox w) + k) req with
                  | Responds code =>
                      WebhookDelivery.error d'
                      = Some (String.append "HTTP " (str_of_int code))
                  | Fails e => WebhookDelivery.error d' = Some (exn_str e)
                  end).
  { intros w w1 d' w' Hout1 (k & Hout & Herr).
    exists (S k). split.
    - rewrite Hout, Hout1, <- app_assoc. reflexivity.
    - replace (List.length (outbox w) + S k)%nat
        with (List.length (outbox w1) + k)%nat
        by (rewrite Hout1, length_app; cbn; lia).
      exact Herr. }
  induction todo as [| todo IH]; intros attempt d w d' w' Hrc Hrun;
    cbn [WebhookManager.deliver_loop] in Hrun; unfold bind at 1 in Hrun;
    destruct (endpoint env (List.length (outbox w)) req) as [code | e] eqn:Ho.
  - rewrite (attempt_body_status env webhook event _ _ _ _ Ho) in Hrun.
    cbn zeta in Hrun. fold rc in Hrun.
    replace (attempt <? rc - 1) with false in Hrun
      by (symmetry; apply Z.ltb_ge; lia).
    rewrite andb_false_r in Hrun.
    destruct ((200 <=? code) && (code <? 300))%bool;
      inversion Hrun; subst d' w'.
    exists 0%nat. rewrite Nat.add_0_r, Ho. split; reflexivity.
  - rewrite (attempt_body_raise env webhook event _ _ _ _ Ho) in Hrun.
    cbn zeta in Hrun. fold rc in Hrun.
    replace (attempt <? rc - 1) with false in Hrun
      by (symmetry; apply Z.ltb_ge; lia).
    destruct (exn_is_Exception e); inversion Hrun; subst d' w'.
    exists 0%nat. rewrite Nat.add_0_r, Ho. split; reflexivity.
  - rewrite (attempt_body_status env webhook event _ _ _ _ Ho) in Hrun.
    cbn zeta in Hrun. fold rc in Hrun.
    replace (attempt <? rc - 1) with true in Hrun
      by (symmetry; apply Z.ltb_lt; lia).
    rewrite andb_true_r in Hrun.
    destruct ((200 <=? code) && (code <? 300))%bool;
      [inversion Hrun |].
    destruct (500 <=? code).
    + eapply Hnext; [| eapply IH; [| exact Hrun]; lia]. reflexivity.
    + inversion Hrun; subst d' w'.
      exists 0%nat. rewrite Nat.add_0_r, Ho. split; reflexivity.
  - rewrite (attempt_body_raise env webhook event _ _ _ _ Ho) in Hrun.
    cbn zeta in Hrun. fold rc in Hrun.
    replace (attempt <? rc - 1) with true in Hrun
      by (symmetry; apply Z.ltb_lt; lia).
    destruct (exn_is_Exception e); [| inversion Hrun].
    eapply Hnext; [| eapply IH; [| exact Hrun]; lia]. reflexivity.
Qed.

End Outcomes.

(** Against an endpoint that answers 4xx the loop makes exactly one
    attempt: one call, no sleep, [attempts = 1], the status code recorded
    and put in [error] as [HTTP <code>]; it returns [False]. *)
Lemma deliver_webhook_4xx env webhook event d w code :
  1 <= Webhook.retry_count webhook ->
  endpoint env (List.length (outbox w))
           (WebhookManager.delivery_request webhook event)
  = Responds code ->
  400 <= code < 500 ->
  exists d' w',
    WebhookManager._deliver_webhook env webhook event d w
    = (Returned (false, d'), w')
    /\ WebhookDelivery.attempts d' = 1
    /\ WebhookDelivery.status_code d' = Some code
    /\ WebhookDelivery.error d' = Some (String.append "HTTP " (str_of_int code))
    /\ WebhookDelivery.completed_at d' = WebhookDelivery.completed_at d
    /\ outbox w' = outbox w ++ [WebhookManager.delivery_request webhook event]
    /\ slept w' = slept w.
Proof.
  intros Hrc Ho Hcode. unfold WebhookManager._deliver_webhook.
  destruct (Z.to_nat (Webhook.retry_count webhook)) as [| todo] eqn:Htodo;
    [lia |].
  pose proof (attempt_body_status env webhook event 0
                (WebhookDelivery.set_attempts (0 + 1) d) w code Ho) as Hbody.
  cbn zeta in Hbody.
  replace ((200 <=? code) && (code <? 300))%bool with false in Hbody
    by (symmetry; apply andb_false_iff; right; apply Z.ltb_ge; lia).
  replace (500 <=? code) with false in Hbody
    by (symmetry; apply Z.leb_gt; lia).
  cbn [andb] in Hbody.
  rewrite (deliver_loop_return env webhook event _ _ _ _ _ _ _ Hbody).
  eexists _, _. split; [reflexivity |]. cbn. repeat split.
Qed.

(** C4, as stated, fails: the record of a delivery answered 404 is not
    marked as failed for good; [trigger_event] stamps a retry time on it
    and the status report counts it as pending. *)
Lemma delivery_4xx_stamped_for_retry :
  exists d self' w',
    WebhookManager.trigger_event (env_always (Responds 404))
      (WebhookManager.mk [("hook-a", hook_a)] []) task_done world0
    = (Returned ([d], self'), w')
    /\ WebhookDelivery.error d = Some "HTTP 404"
    /\ WebhookDelivery.attempts d = 1
    /\ WebhookDelivery.next_retry d = Some (IsoFormat 300000000)
    /\ WebhookManager.pending
         (WebhookManager.get_delivery_status self' "hook-a") = 1%nat.
Proof.
  eexists _, _, _. split; [vm_compute; reflexivity |].
  repeat split.
Qed.

(** C4, amended. Against an endpoint that answers 4xx the delivery makes
    exactly one attempt: one call, no sleep, [attempts = 1], the status
    code recorded and put in [error] as [HTTP <code>], and the loop
    returns [False], so the record is never completed.  The record is not
    marked as failed for good: [trigger_event] stamps [next_retry] five
    minutes ahead on it, as on every failed delivery, and the status
    report counts it as failed and as pending. *)
Theorem delivery_4xx_single_attempt env key webhook event w code :
  matches event webhook = true ->
  1 <= Webhook.retry_count webhook ->
  endpoint env (List.length (outbox w))
           (WebhookManager.delivery_request webhook event)
  = Responds code ->
  400 <= code < 500 ->
  (forall d0, exists d' w',
      WebhookManager._deliver_webhook env webhook event d0 w
      = (Returned (false, d'), w')
      /\ WebhookDelivery.attempts d' = 1
      /\ WebhookDelivery.status_code d' = Some code
      /\ WebhookDelivery.error d'
         = Some (String.append "HTTP " (str_of_int code))
      /\ WebhookDelivery.completed_at d' = WebhookDelivery.completed_at d0
      /\ outbox w' = outbox w ++ [WebhookManager.delivery_request webhook event]
      /\ slept w' = slept w)
  /\ exists d self' w',
       WebhookManager.trigger_event env
         (WebhookManager.mk [(key, webhook)] []) event w
       = (Returned ([d], self'), w')
       /\ WebhookDelivery.attempts d = 1
       /\ WebhookDelivery.status_code d = Some code
       /\ WebhookDelivery.error d
          = Some (String.append "HTTP " (str_of_int code))
       /\ WebhookDelivery.completed_at d = None
       /\ WebhookDelivery.next_retry d
          = Some (IsoFormat (clock w + 5 * 60 * micros_per_second))
       /\ outbox w' = outbox w ++ [WebhookManager.delivery_request webhook event]
       /\ slept w' = slept w
       /\ let st :=
            WebhookManager.get_delivery_status self' (Webhook.id webhook) in
          WebhookManager.total_deliveries st = 1%nat
          /\ WebhookManager.successful st = 0%nat
          /\ WebhookManager.failed st = 1%nat
          /\ WebhookManager.pending st = 1%nat.
Proof.
  intros Hm Hrc Ho Hcode. split.
  { intros d0. apply deliver_webhook_4xx; assumption. }
  unfold matches in Hm. apply andb_true_iff in Hm. destruct Hm as [Hact Hin].
  unfold WebhookManager.trigger_event, dict_values.
  cbn [WebhookManager.webhooks WebhookManager.deliveries map snd
       WebhookManager.trigger_loop].
  rewrite Hact, Hin. cbn [negb].
  unfold bind at 1. unfold bind at 1.
  unfold WebhookManager.deliver_one, WebhookManager._deliver_webhook.
  unfold bind at 1. unfold uuid4 at 1.
  set (w0 := mkWorld (clock w) (S (uuid_count w)) (outbox w) (slept w)).
  set (d0 := fresh_delivery _ webhook event).
  destruct (Z.to_nat (Webhook.retry_count webhook)) as [| todo] eqn:Htodo;
    [lia |].
  pose proof (attempt_body_status env webhook event 0
                (WebhookDelivery.set_attempts (0 + 1) d0) w0 code Ho) as Hbody.
  cbn zeta in Hbody.
  replace ((200 <=? code) && (code <? 300))%bool with false in Hbody
    by (symmetry; apply andb_false_iff; right; apply Z.ltb_ge; lia).
  replace (500 <=? code) with false in Hbody
    by (symmetry; apply Z.leb_gt; lia).
  cbn [andb] in Hbody.
  unfold bind at 1.
  rewrite (deliver_loop_return env webhook event _ _ _ _ _ _ _ Hbody).
  unfold bind, now, ret.
  cbn [WebhookManager.trigger_loop fst snd app].
  eexists _, _, _. split; [reflexivity |].
  unfold WebhookManager.get_delivery_status, WebhookDelivery.set_next_retry,
    WebhookDelivery.set_status_code, WebhookDelivery.set_attempts,
    WebhookDelivery.set_error.
  subst d0. unfold fresh_delivery.
  cbn [WebhookManager.deliveries filter
       WebhookDelivery.id WebhookDelivery.webhook_id WebhookDelivery.event_id
       WebhookDelivery.status_code WebhookDelivery.error
       WebhookDelivery.attempts WebhookDelivery.next_retry
       WebhookDelivery.completed_at].
  rewrite String.eqb_refl.
  cbn [filter WebhookDelivery.error WebhookDelivery.completed_at
       WebhookDelivery.next_retry truthy_iso truthy_str String.append
       List.length WebhookManager.total_deliveries WebhookManager.successful
       WebhookManager.failed WebhookManager.pending
       sent w0 clock outbox slept].
  repeat split.
Qed.

Lemma delivery_4xx_single_attempt_witness :
  (forall d0, exists d' w',
      WebhookManager._deliver_webhook (env_always (Responds 404)) hook_a
        task_done d0 world0
      = (Returned (false, d'), w')
      /\ WebhookDelivery.attempts d' = 1
      /\ WebhookDelivery.status_code d' = Some 404
      /\ WebhookDelivery.error d'
         = Some (String.append "HTTP " (str_of_int 404))
      /\ WebhookDelivery.completed_at d' = WebhookDelivery.completed_at d0
      /\ outbox w'
         = outbox world0 ++ [WebhookManager.delivery_request hook_a task_done]
      /\ slept w' = slept world0)
  /\ exists d self' w',
       WebhookManager.trigger_event (env_always (Responds 404))
         (WebhookManager.mk [("hook-a", hook_a)] []) task_done world0
       = (Returned ([d], self'), w')
       /\ WebhookDelivery.attempts d = 1
       /\ WebhookDelivery.status_code d = Some 404
       /\ WebhookDelivery.error d
          = Some (String.append "HTTP " (str_of_int 404))
       /\ WebhookDelivery.completed_at d = None
       /\ WebhookDelivery.next_retry d
          = Some (IsoFormat (clock world0 + 5 * 60 * micros_per_second))
       /\ outbox w'
          = outbox world0 ++ [WebhookManager.delivery_request hook_a task_done]
       /\ slept w' = slept world0
       /\ let st :=
            WebhookManager.get_delivery_status self' (Webhook.id hook_a) in
          WebhookManager.total_deliveries st = 1%nat
          /\ WebhookManager.successful st = 0%nat
          /\ WebhookManager.failed st = 1%nat
          /\ WebhookManager.pending st = 1%nat.
Proof.
  apply (delivery_4xx_single_attempt (env_always (Responds 404)) "hook-a"
           hook_a task_done world0 404).
  - reflexivity.
  - simpl. lia.
  - reflexivity.
  - lia.
Defined.

(** C5. Against an endpoint that always answers 5xx the loop makes exactly
    [retry_count] attempts, sleeping 1, 2, 4, ... seconds between them (a
    strictly increasing sequence), then returns [False] with the last
    status in [error] and [completed_at] unset; and whatever the endpoint
    answers, [attempts] ends between 0 and [retry_count]. *)
Theorem deliver_5xx_exhausts_attempts env webhook event id w :
  1 <= Webhook.retry_count webhook ->
  (forall n r, exists c, endpoint env n r = Responds c /\ 500 <= c < 600) ->
  exists d' w' c,
    WebhookManager._deliver_webhook env webhook event
      (fresh_delivery id webhook event) w
    = (Returned (false, d'), w')
    /\ 500 <= c < 600
    /\ WebhookDelivery.attempts d' = Webhook.retry_count webhook
    /\ WebhookDelivery.error d' = Some (String.append "HTTP " (str_of_int c))
    /\ WebhookDelivery.completed_at d' = None
    /\ outbox w'
       = outbox w
         ++ repeat (WebhookManager.delivery_request webhook event)
                   (Z.to_nat (Webhook.retry_count webhook))
    /\ slept w'
       = slept w
         ++ backoff_delays 0 (Z.to_nat (Webhook.retry_count webhook) - 1)
    /\ StronglySorted Z.lt
         (backoff_delays 0 (Z.to_nat (Webhook.retry_count webhook) - 1))
    /\ (forall env0 w0 success d1 w1,
          WebhookManager._deliver_webhook env0 webhook event
            (fresh_delivery id webhook event) w0
          = (Returned (success, d1), w1) ->
          0 <= WebhookDelivery.attempts d1 <= Webhook.retry_count webhook).
Proof.
  intros Hrc H5. unfold WebhookManager._deliver_webhook.
  destruct (Z.to_nat (Webhook.retry_count webhook)) as [| todo] eqn:Htodo;
    [lia |].
  assert (H5' : forall n r, exists c, endpoint env n r = Responds c /\ 500 <= c).
  { intros n r. destruct (H5 n r) as (c & Hc & Hb). exists c. split; [exact Hc | lia]. }
  destruct (deliver_loop_5xx env webhook event H5' todo 0
              (fresh_delivery id webhook event) w)
    as (d' & w' & c & Hrun & _ & Hlast & Hid & Hatt & _ & Herr & Hout & Hsl & _);
    [lia |].
  exists d', w', c. split; [exact Hrun |].
  split.
  { destruct (H5 (List.length (outbox w) + todo)%nat
                 (WebhookManager.delivery_request webhook event))
      as (c0 & Hc0 & Hb).
    rewrite Hlast in Hc0. inversion Hc0. subst c0. exact Hb. }
  split; [exact Hatt |]. split; [exact Herr |].
  split.
  { destruct Hid as (_ & _ & _ & _ & Hca). rewrite Hca. reflexivity. }
  split; [exact Hout |].
  replace (S todo - 1)%nat with todo by lia.
  split; [exact Hsl |].
  split; [apply backoff_delays_increasing; lia |].
  intros env0 w0 success d1 w1 Hrun0.
  destruct (deliver_loop_spec env0 webhook event (S todo) 0
              (fresh_delivery id webhook event) w0)
    as (r & w2 & k & Hrun2 & Hk & _ & _ & Hr).
  rewrite Hrun0 in Hrun2. inversion Hrun2; subst r w2.
  destruct Hr as (_ & Hz & Hpos).
  destruct k as [| k'].
  - destruct (Hz eq_refl) as [-> _]. unfold fresh_delivery.
    cbn [WebhookDelivery.attempts]. lia.
  - rewrite Hpos by lia. lia.
Qed.

Lemma deliver_5xx_exhausts_attempts_witness :
  exists d' w' c,
    WebhookManager._deliver_webhook (env_always (Responds 503)) hook_a
      task_done (fresh_delivery "delivery-1" hook_a task_done) world0
    = (Returned (false, d'), w')
    /\ 500 <= c < 600
    /\ WebhookDelivery.attempts d' = Webhook.retry_count hook_a
    /\ WebhookDelivery.error d' = Some (String.append "HTTP " (str_of_int c))
    /\ WebhookDelivery.completed_at d' = None
    /\ outbox w'
       = outbox world0
         ++ repeat (WebhookManager.delivery_request hook_a task_done)
                   (Z.to_nat (Webhook.retry_count hook_a))
    /\ slept w'
       = slept world0
         ++ backoff_delays 0 (Z.to_nat (Webhook.retry_count hook_a) - 1)
    /\ StronglySorted Z.lt
         (backoff_delays 0 (Z.to_nat (Webhook.retry_count hook_a) - 1))
    /\ (forall env0 w0 success d1 w1,
          WebhookManager._deliver_webhook env0 hook_a task_done
            (fresh_delivery "delivery-1" hook_a task_done) w0
          = (Returned (success, d1), w1) ->
          0 <= WebhookDelivery.attempts d1 <= Webhook.retry_count hook_a).
Proof.
  apply (deliver_5xx_exhausts_attempts (env_always (Responds 503)) hook_a
           task_done "delivery-1" world0).
  - simpl. lia.
  - intros n r. exists 503. simpl. split; [reflexivity | lia].
Defined.

(** C2, as stated, fails: with the breaker of the endpoint OPEN and
    refusing calls, the attempt loop still calls the endpoint three times
    and records the last status, not a breaker denial. *)
Lemma deliver_webhook_calls_while_breaker_open :
  CircuitBreaker.name opened_breaker = Webhook.url hook_a
  /\ CircuitBreaker.state opened_breaker = "open"
  /\ CircuitBreaker.entry opened_breaker world0 = None
  /\ exists d w',
       WebhookManager._deliver_webhook (env_always (Responds 503)) hook_a
         task_done (fresh_delivery "delivery-1" hook_a task_done) world0
       = (Returned (false, d), w')
       /\ outbox w'
          = repeat (WebhookManager.delivery_request hook_a task_done) 3
       /\ WebhookDelivery.error d = Some "HTTP 503"
       /\ WebhookDelivery.error d <> Some "circuit open".
Proof.
  split; [reflexivity |]. split; [reflexivity |]. split; [reflexivity |].
  eexists _, _. split; [vm_compute; reflexivity |].
  split; [reflexivity |]. split; [reflexivity | discriminate].
Qed.

(** C2, amended. The attempt loop consults no circuit breaker: with
    [retry_count >= 1] it sends the call of its first attempt also while a
    breaker is OPEN and refusing calls, and every call it sends is the
    delivery call; when it returns [False] it has left [completed_at] as
    it was and [error] holds what the last call it made gave,
    [HTTP <code>] of the last response or the text of the last
    exception. *)
Theorem deliver_webhook_consults_no_breaker env webhook event d w
    (breaker : CircuitBreaker.t) :
  1 <= Webhook.retry_count webhook ->
  CircuitBreaker.entry breaker w = None ->
  exists r w' k,
    WebhookManager._deliver_webhook env webhook event d w = (r, w')
    /\ outbox w'
       = outbox w
         ++ repeat (WebhookManager.delivery_request webhook event) (S k)
    /\ match r with
       | Returned (false, d') =>
           WebhookDelivery.completed_at d' = WebhookDelivery.completed_at d
           /\ match endpoint env (List.length (outbox w) + k)
                        (WebhookManager.delivery_request webhook event) with
              | Responds code =>
                  WebhookDelivery.error d'
                  = Some (String.append "HTTP " (str_of_int code))
              | Fails e => WebhookDelivery.error d' = Some (exn_str e)
              end
       | _ => True
       end.
Proof.
  intros Hrc _. unfold WebhookManager._deliver_webhook.
  destruct (Z.to_nat (Webhook.retry_count webhook)) as [| todo] eqn:Htodo;
    [lia |].
  destruct (deliver_loop_first_call env webhook event todo 0 d w)
    as (r & w' & more & Hrun & Hfirst).
  destruct (deliver_loop_spec env webhook event (S todo) 0 d w)
    as (r2 & w2 & k0 & Hrun2 & _ & Hout & _ & Hr).
  rewrite Hrun in Hrun2. inversion Hrun2; subst r2 w2.
  destruct k0 as [| k].
  { exfalso. rewrite Hfirst in Hout. cbn in Hout.
    apply (f_equal (@List.length Request)) in Hout.
    rewrite app_nil_r, length_app in Hout. cbn in Hout. lia. }
  exists r, w', k. split; [exact Hrun |]. split; [exact Hout |].
  destruct r as [[[|] d'] | e]; try exact I.
  split.
  - destruct Hr as ((_ & _ & _ & _ & Hca) & _). exact Hca.
  - destruct (deliver_loop_failure env webhook event todo 0 d w d' w')
      as (k1 & Hout1 & Herr); [lia | exact Hrun |].
    assert (Hk : k1 = k).
    { rewrite Hout in Hout1. apply app_inv_head in Hout1.
      apply (f_equal (@List.length Request)) in Hout1.
      rewrite !repeat_length in Hout1. lia. }
    subst k1. exact Herr.
Qed.

Lemma deliver_webhook_consults_no_breaker_witness :
  exists r w' k,
    WebhookManager._deliver_webhook
      (env_script [Responds 500; Responds 502; Responds 503] (Responds 504))
      hook_a task_done (fresh_delivery "delivery-1" hook_a task_done) world0
    = (r, w')
    /\ outbox w'
       = outbox world0
         ++ repeat (WebhookManager.delivery_request hook_a task_done) (S k)
    /\ match r with
       | Returned (false, d') =>
           WebhookDelivery.completed_at d'
           = WebhookDelivery.completed_at
               (fresh_delivery "delivery-1" hook_a task_done)
           /\ match endpoint
                      (env_script [Responds 500; Responds 502; Responds 503]
                                  (Responds 504))
                      (List.length (outbox world0) + k)
                      (WebhookManager.delivery_request hook_a task_done) with
              | Responds code =>
                  WebhookDelivery.error d'
                  = Some (String.append "HTTP " (str_of_int code))
              | Fails e => WebhookDelivery.error d' = Some (exn_str e)
              end
       | _ => True
       end.
Proof.
  apply (deliver_webhook_consults_no_breaker
           (env_script [Responds 500; Responds 502; Responds 503] (Responds 504))
           hook_a task_done (fresh_delivery "delivery-1" hook_a task_done)
           world0 opened_breaker).
  - simpl. lia.
  - reflexivity.
Defined.

(** ** The registry *)

Lemma dict_get_set {V} (k : string) (v : V) (d : dict V) :
  dict_get k (dict_set k v d) = Some v.
Proof.
  unfold dict_get. induction d as [| [k' v'] rest IH]; cbn.
  - rewrite String.eqb_refl. reflexivity.
  - destruct (String.eqb k' k) eqn:E; cbn.
    + rewrite String.eqb_refl. reflexivity.
    + rewrite E. exact IH.
Qed.

(** C3, as stated, fails: a target that is no absolute URL is registered
    like any other; nothing is raised. *)
Lemma register_webhook_accepts_malformed_url :
  spec_absolute_url "https://a.example/hook" = true
  /\ spec_absolute_url "not a url" = false
  /\ exists webhook self' w',
       WebhookManager.register_webhook (env_always (Responds 200))
         WebhookManager.__init__ "not a url" [TASK_COMPLETED] None world0
       = (Returned (webhook, self'), w')
       /\ Webhook.url webhook = "not a url"
       /\ Webhook.active webhook = true
       /\ WebhookManager.webhooks self' = [(Webhook.id webhook, webhook)].
Proof.
  split; [reflexivity |]. split; [reflexivity |].
  eexists _, _, _. split; [vm_compute; reflexivity |].
  repeat split.
Qed.

(** C3, amended. [register_webhook] never fails: for every target, well
    formed or not, it creates an active subscription for the given URL and
    event kinds and stores it under its identifier. *)
Theorem register_webhook_accepts_every_url env self url event_types secret w :
  exists webhook self' w',
    WebhookManager.register_webhook env self url event_types secret w
    = (Returned (webhook, self'), w')
    /\ Webhook.url webhook = url
    /\ Webhook.event_types webhook = event_types
    /\ Webhook.active webhook = true
    /\ dict_get (Webhook.id webhook) (WebhookManager.webhooks self')
       = Some webhook
    /\ WebhookManager.deliveries self' = WebhookManager.deliveries self.
Proof.
  unfold WebhookManager.register_webhook, WebhookManager.secret_or_uuid.
  destruct (truthy_str secret);
    unfold bind, ret, uuid4, now; cbn;
    eexists _, _, _; (split; [reflexivity |]); cbn;
    repeat split; apply dict_get_set.
Qed.

(** ** The outbound call *)

(** C9, as stated, fails: the call carries no [X-Signature] header; the
    shared secret itself travels in [X-Secret]. *)
Lemma delivery_request_carries_no_signature :
  exists r,
    outbox (snd (WebhookManager._deliver_webhook (env_always (Responds 200))
                   hook_a task_done
                   (fresh_delivery "delivery-1" hook_a task_done) world0))
    = [r]
    /\ header_get "X-Signature" (req_headers r) = None
    /\ header_get "X-Secret" (req_headers r) = Some (Webhook.secret hook_a).
Proof.
  eexists. split; [vm_compute; reflexivity |].
  split; reflexivity.
Qed.

(** C9, amended. Every call of the attempt loop is a POST of the
    serialized event to the URL of the subscription, with the timeout of
    the subscription and four headers: the subscription id, the event id,
    the event kind, and [X-Secret] holding the shared secret itself; there
    is no [X-Signature] header. *)
Theorem delivery_attempts_post_event_with_secret env webhook event d w :
  exists k r,
    outbox (snd (WebhookManager._deliver_webhook env webhook event d w))
    = outbox w ++ repeat r k
    /\ req_method r = "POST"
    /\ req_url r = Webhook.url webhook
    /\ req_json r = WebhookEvent.to_dict event
    /\ req_timeout r = Webhook.timeout_seconds webhook
    /\ map fst (req_headers r)
       = ["X-Webhook-ID"; "X-Event-ID"; "X-Event-Type"; "X-Secret"]
    /\ header_get "X-Webhook-Id" (req_headers r) = Some (Webhook.id webhook)
    /\ header_get "X-Event-Id" (req_headers r) = Some (WebhookEvent.id event)
    /\ header_get "X-Event-Type" (req_headers r)
       = Some (EventType_value (WebhookEvent.type event))
    /\ header_get "X-Secret" (req_headers r) = Some (Webhook.secret webhook)
    /\ header_get "X-Signature" (req_headers r) = None.
Proof.
  unfold WebhookManager._deliver_webhook.
  destruct (deliver_loop_spec env webhook event
              (Z.to_nat (Webhook.retry_count webhook)) 0 d w)
    as (r & w' & k & Hrun & _ & Hout & _).
  exists k, (WebhookManager.delivery_request webhook event).
  rewrite Hrun. cbn [snd]. split; [exact Hout |].
  repeat split.
Qed.

(** ** Delivery status *)

(** C10. The counts of [get_delivery_status] overlap: when the first
    attempt raises (with a text) and the second is answered 2xx, the
    record ends with both [error] and [completed_at] set, is counted as
    successful and as failed, and the three counts add up to more than
    [total_deliveries]. *)
Theorem delivery_counted_successful_and_failed
    env key webhook event w e code :
  matches event webhook = true ->
  2 <= Webhook.retry_count webhook ->
  endpoint env (List.length (outbox w))
           (WebhookManager.delivery_request webhook event) = Fails e ->
  exn_is_Exception e = true ->
  exn_str e <> "" ->
  endpoint env (S (List.length (outbox w)))
           (WebhookManager.delivery_request webhook event) = Responds code ->
  200 <= code < 300 ->
  exists d self' w',
    WebhookManager.trigger_event env (WebhookManager.mk [(key, webhook)] [])
                                 event w
    = (Returned ([d], self'), w')
    /\ WebhookDelivery.error d = Some (exn_str e)
    /\ WebhookDelivery.completed_at d <> None
    /\ WebhookDelivery.attempts d = 2
    /\ let st := WebhookManager.get_delivery_status self' (Webhook.id webhook) in
       WebhookManager.total_deliveries st = 1%nat
       /\ WebhookManager.successful st = 1%nat
       /\ WebhookManager.failed st = 1%nat
       /\ WebhookManager.pending st = 0%nat
       /\ (WebhookManager.total_deliveries st
           < WebhookManager.successful st + WebhookManager.failed st
             + WebhookManager.pending st)%nat.
Proof.
  intros Hm Hrc Ho1 Hexn Hstr Ho2 Hcode.
  unfold matches in Hm. apply andb_true_iff in Hm. destruct Hm as [Hact Hin].
  unfold WebhookManager.trigger_event, dict_values.
  cbn [WebhookManager.webhooks WebhookManager.deliveries map snd
       WebhookManager.trigger_loop].
  rewrite Hact, Hin. cbn [negb].
  unfold bind at 1. unfold bind at 1.
  unfold WebhookManager.deliver_one, WebhookManager._deliver_webhook.
  unfold bind at 1. unfold uuid4 at 1.
  set (w0 := mkWorld (clock w) (S (uuid_count w)) (outbox w) (slept w)).
  set (d0 := fresh_delivery _ webhook event).
  destruct (Z.to_nat (Webhook.retry_count webhook)) as [| [| todo]] eqn:Htodo;
    [lia | lia |].
  (* first attempt: the exception is recorded, the loop goes on *)
  pose proof (attempt_body_raise env webhook event 0
                (WebhookDelivery.set_attempts (0 + 1) d0) w0 e Ho1) as Hb1.
  rewrite Hexn in Hb1. cbn zeta in Hb1.
  replace (0 <? Webhook.retry_count webhook - 1) with true in Hb1
    by (symmetry; apply Z.ltb_lt; lia).
  (* second attempt: answered 2xx, the error stays *)
  match type of Hb1 with
  | _ = (Returned (_, ?d1), ?w1) =>
      pose proof (attempt_body_status env webhook event (0 + 1)
                    (WebhookDelivery.set_attempts (0 + 1 + 1) d1) w1 code)
        as Hb2
  end.
  cbn zeta in Hb2.
  replace ((200 <=? code) && (code <? 300))%bool with true in Hb2
    by (symmetry; apply andb_true_iff; split;
        [apply Z.leb_le | apply Z.ltb_lt]; lia).
  specialize (Hb2 ltac:(cbn [outbox after_sleep sent w0];
                        rewrite length_app, Nat.add_comm; exact Ho2)).
  unfold bind at 1.
  rewrite (deliver_loop_continue env webhook event _ _ _ _ _ _ Hb1).
  rewrite (deliver_loop_return env webhook event _ _ _ _ _ _ _ Hb2).
  unfold bind, now, ret.
  cbn [WebhookManager.trigger_loop fst snd app].
  eexists _, _, _. split; [reflexivity |].
  assert (Ht : truthy_str (Some (exn_str e)) = true).
  { cbn. destruct (exn_str e); [congruence | reflexivity]. }
  unfold WebhookManager.get_delivery_status, WebhookDelivery.set_completed_at,
    WebhookDelivery.set_status_code, WebhookDelivery.set_attempts,
    WebhookDelivery.set_error.
  subst d0. unfold fresh_delivery.
  cbn [WebhookManager.deliveries filter
       WebhookDelivery.id WebhookDelivery.webhook_id WebhookDelivery.event_id
       WebhookDelivery.status_code WebhookDelivery.error
       WebhookDelivery.attempts WebhookDelivery.next_retry
       WebhookDelivery.completed_at].
  rewrite String.eqb_refl.
  cbn [filter WebhookDelivery.error WebhookDelivery.completed_at
       WebhookDelivery.next_retry truthy_iso].
  rewrite Ht.
  cbn [List.length WebhookManager.total_deliveries WebhookManager.successful
       WebhookManager.failed WebhookManager.pending].
  repeat split; try reflexivity; try discriminate; try lia.
Qed.

Lemma delivery_counted_successful_and_failed_witness :
  exists d self' w',
    WebhookManager.trigger_event
      (env_script [Fails connection_refused; Responds 200] (Responds 200))
      (WebhookManager.mk [("hook-a", hook_a)] []) task_done world0
    = (Returned ([d], self'), w')
    /\ WebhookDelivery.error d = Some (exn_str connection_refused)
    /\ WebhookDelivery.completed_at d <> None
    /\ WebhookDelivery.attempts d = 2
    /\ let st := WebhookManager.get_delivery_status self' (Webhook.id hook_a) in
       WebhookManager.total_deliveries st = 1%nat
       /\ WebhookManager.successful st = 1%nat
       /\ WebhookManager.failed st = 1%nat
       /\ WebhookManager.pending st = 0%nat
       /\ (WebhookManager.total_deliveries st
           < WebhookManager.successful st + WebhookManager.failed st
             + WebhookManager.pending st)%nat.
Proof.
  apply (delivery_counted_successful_and_failed
           (env_script [Fails connection_refused; Responds 200] (Responds 200))
           "hook-a" hook_a task_done world0 connection_refused 200).
  - reflexivity.
  - simpl. lia.
  - reflexivity.
  - reflexivity.
  - simpl. discriminate.
  - reflexivity.
  - lia.
Defined.

(** ** Circuit breaker *)

Lemma Qle_bool_total_seconds (timeout micros : Z) :
  Qle_bool (inject_Z timeout) (total_seconds micros)
  = (timeout * micros_per_second <=? micros).
Proof.
  unfold total_seconds, micros_per_second.
  apply eq_true_iff_eq. rewrite Qle_bool_iff, Z.leb_le.
  unfold Qle, Qdiv, Qmult, Qinv, inject_Z. cbn. lia.
Qed.

Section Breaker.
Context {A : Type}.


(** Once the cool-down has passed, the next call is let through with
    the breaker half-open. *)
Lemma open_breaker_lets_probe_in b t_open w :
  CircuitBreaker.state b = "open" ->
  CircuitBreaker.last_failure_time b = Some t_open ->
  t_open + CircuitBreaker.recovery_timeout b * micros_per_second <= clock w ->
  CircuitBreaker.entry b w = Some (CircuitBreaker.set_state "half-open" b).
Proof.
  intros Hs Ht Hclock.
  unfold CircuitBreaker.entry, CircuitBreaker._should_attempt_reset.
  rewrite Hs, Ht. rewrite String.eqb_refl.
  rewrite Qle_bool_total_seconds.
  replace (_ <=? _) with true by (symmetry; apply Z.leb_le; lia).
  reflexivity.
Qed.


End Breaker.




(** ** Token bucket *)

Section Bucket.
Import RateLimiter.

Lemma inject_Z_nonneg z : 0 <= z -> (0 <= inject_Z z)%Q.
Proof. intros H. unfold Qle. cbn. lia. Qed.

Lemma total_seconds_nonneg micros :
  0 <= micros -> (0 <= total_seconds micros)%Q.
Proof.
  intros H. unfold total_seconds, Qdiv.
  apply Qmult_le_0_compat.
  - apply inject_Z_nonneg. exact H.
  - apply Qinv_le_0_compat. apply inject_Z_nonneg.
    unfold micros_per_second. lia.
Qed.

Lemma total_seconds_whole seconds :
  (total_seconds (seconds * micros_per_second) == inject_Z seconds)%Q.
Proof.
  unfold total_seconds, micros_per_second.
  rewrite inject_Z_mult. apply Qdiv_mult_l. discriminate.
Qed.

(** The amount [_refill] adds for a non-negative elapsed time. *)
Lemma tokens_to_add_nonneg s now :
  0 <= rate s -> 0 < period s -> last_update s <= now ->
  (0 <= total_seconds (now - last_update s) / inject_Z (period s)
        * inject_Z (rate s))%Q.
Proof.
  intros Hr Hp Ht.
  apply Qmult_le_0_compat.
  - unfold Qdiv. apply Qmult_le_0_compat.
    + apply total_seconds_nonneg. lia.
    + apply Qinv_le_0_compat. apply inject_Z_nonneg. lia.
  - apply inject_Z_nonneg. exact Hr.
Qed.

Lemma py_min_bounds (a b : Q) :
  (0 <= a)%Q -> (0 <= b)%Q -> (0 <= py_min a b <= a)%Q.
Proof.
  intros Ha Hb. unfold py_min. destruct (Qle_bool a b) eqn:E.
  - split; [exact Ha | apply Qle_refl].
  - split; [exact Hb |].
    apply Qlt_le_weak, Qnot_le_lt. intros H.
    apply Qle_bool_iff in H. congruence.
Qed.

(** Every call keeps the token count between 0 and the capacity, as
    long as the clock does not go back. *)
Lemma is_allowed_keeps_bounds s now :
  0 <= rate s -> 0 < period s ->
  (0 <= tokens s <= inject_Z (rate s))%Q ->
  last_update s <= now ->
  exists b s',
    is_allowed s now = Returned (b, s')
    /\ (0 <= tokens s' <= inject_Z (rate s'))%Q
    /\ same_settings s s'
    /\ last_update s' = now.
Proof.
  intros Hr Hp [Hlo Hhi] Ht.
  unfold is_allowed, _refill.
  replace (period s =? 0) with false by (symmetry; apply Z.eqb_neq; lia).
  set (x := (tokens s + _)%Q).
  assert (Hx : (0 <= x)%Q).
  { unfold x. rewrite <- (Qplus_0_r 0).
    apply Qplus_le_compat; [exact Hlo |].
    apply tokens_to_add_nonneg; assumption. }
  assert (Hrate : (0 <= inject_Z (rate s))%Q)
    by (apply inject_Z_nonneg; exact Hr).
  destruct (py_min_bounds (inject_Z (rate s)) x Hrate Hx) as [Hm0 Hm1].
  cbn [tokens rate period last_update].
  destruct (Qle_bool 1 (py_min (inject_Z (rate s)) x)) eqn:E.
  - eexists _, _. split; [reflexivity |].
    cbn [tokens rate period last_update]. unfold same_settings. cbn.
    repeat split.
    + apply Qle_bool_iff in E.
      rewrite <- (Qplus_opp_r 1). unfold Qminus.
      apply Qplus_le_compat; [exact E | apply Qle_refl].
    + apply Qle_trans with (py_min (inject_Z (rate s)) x); [| exact Hm1].
      rewrite <- (Qplus_0_r (py_min (inject_Z (rate s)) x)) at 2.
      unfold Qminus. apply Qplus_le_compat; [apply Qle_refl | discriminate].
  - eexists _, _. split; [reflexivity |].
    cbn [tokens rate period last_update]. unfold same_settings. cbn.
    repeat split; assumption.
Qed.

(** With no time elapsed the refill adds nothing. *)
Lemma refill_same_instant s :
  period s <> 0 ->
  (tokens s <= inject_Z (rate s))%Q ->
  exists s',
    _refill s (last_update s) = Returned s'
    /\ (tokens s' == tokens s)%Q
    /\ same_settings s s'
    /\ last_update s' = last_update s.
Proof.
  intros Hp Hhi. unfold _refill.
  replace (period s =? 0) with false by (symmetry; apply Z.eqb_neq; lia).
  eexists. split; [reflexivity |].
  cbn [tokens rate period last_update]. unfold same_settings. cbn.
  split; [| repeat split].
  rewrite Z.sub_diag.
  set (x := (tokens s + _)%Q).
  assert (Hx : (x == tokens s)%Q).
  { unfold x.
    assert (Hz : (total_seconds 0 == 0)%Q) by reflexivity.
    rewrite Hz. unfold Qdiv. rewrite !Qmult_0_l, Qplus_0_r. reflexivity. }
  unfold py_min. destruct (Qle_bool (inject_Z (rate s)) x) eqn:E.
  - apply Qle_bool_iff in E. rewrite Hx in E.
    apply Qle_antisym; assumption.
  - exact Hx.
Qed.

(** After exactly one period the bucket is full again. *)
Lemma refill_full_period s :
  0 < period s ->
  (0 <= tokens s)%Q ->
  exists s',
    _refill s (last_update s + period s * micros_per_second) = Returned s'
    /\ (tokens s' == inject_Z (rate s))%Q
    /\ same_settings s s'
    /\ last_update s' = last_update s + period s * micros_per_second.
Proof.
  intros Hp Hlo. unfold _refill.
  replace (period s =? 0) with false by (symmetry; apply Z.eqb_neq; lia).
  eexists. split; [reflexivity |].
  cbn [tokens rate period last_update]. unfold same_settings. cbn.
  split; [| repeat split].
  replace (last_update s + period s * micros_per_second - last_update s)
    with (period s * micros_per_second) by lia.
  set (x := (tokens s + _)%Q).
  assert (Hx : (x == tokens s + inject_Z (rate s))%Q).
  { unfold x. rewrite total_seconds_whole.
    assert (Hone : (inject_Z (period s) / inject_Z (period s) == 1)%Q).
    { apply Qmult_inv_r. intros H. unfold Qeq in H. cbn in H. lia. }
    rewrite Hone, Qmult_1_l. reflexivity. }
  unfold py_min.
  destruct (Qle_bool (inject_Z (rate s)) x) eqn:E; [reflexivity |].
  exfalso.
  assert (H : (inject_Z (rate s) <= x)%Q).
  { rewrite Hx. rewrite <- (Qplus_0_l (inject_Z (rate s))) at 1.
    apply Qplus_le_compat; [exact Hlo | apply Qle_refl]. }
  apply Qle_bool_iff in H. congruence.
Qed.

(** After the refill: one token is taken if there is one. *)
Lemma is_allowed_after_refill s now s1 :
  _refill s now = Returned s1 ->
  is_allowed s now
  = if Qle_bool 1 (tokens s1)
    then Returned (true,
                   mk (rate s1) (period s1) (tokens s1 - 1)%Q (last_update s1))
    else Returned (false, s1).
Proof. intros H. unfold is_allowed. rewrite H. reflexivity. Qed.

(** [n] calls in a row at the instant of the last update, with at least
    [n] tokens in the bucket, are all granted. *)
Lemma run_drain n : forall s m,
  period s <> 0 ->
  (tokens s == inject_Z m)%Q ->
  Z.of_nat n <= m <= rate s ->
  exists s',
    run s (repeat (last_update s) n) = Some (repeat true n, s')
    /\ (tokens s' == inject_Z (m - Z.of_nat n))%Q
    /\ same_settings s s'
    /\ last_update s' = last_update s.
Proof.
  induction n as [| n IH]; intros s m Hp Htok Hm.
  - exists s. cbn. rewrite Z.sub_0_r.
    repeat split; try reflexivity. exact Htok.
  - assert (Hhi : (tokens s <= inject_Z (rate s))%Q).
    { rewrite Htok. rewrite <- Zle_Qle. lia. }
    destruct (refill_same_instant s Hp Hhi) as (s1 & Hre & Ht1 & [Hr1 Hp1] & Hu1).
    cbn [repeat run]. rewrite (is_allowed_after_refill s _ s1 Hre).
    assert (Hone : Qle_bool 1 (tokens s1) = true).
    { apply Qle_bool_iff. rewrite Ht1, Htok.
      change 1%Q with (inject_Z 1). rewrite <- Zle_Qle. lia. }
    rewrite Hone.
    set (s2 := mk (rate s1) (period s1) (tokens s1 - 1)%Q (last_update s1)).
    destruct (IH s2 (m - 1)) as (s' & Hrun & Ht' & [Hr' Hp'] & Hu').
    + cbn. lia.
    + cbn [s2 tokens]. rewrite Ht1, Htok.
      unfold Zminus. rewrite inject_Z_plus. reflexivity.
    + cbn [s2 rate]. lia.
    + cbn [s2 last_update] in Hrun, Hu'. rewrite Hu1 in Hrun. rewrite Hrun.
      exists s'. split; [reflexivity |].
      split.
      { rewrite Ht'. apply inject_Z_injective. lia. }
      cbn [s2 rate period] in Hr', Hp'.
      split; [split; congruence | congruence].
Qed.

Lemma is_allowed_empty s now s1 :
  _refill s now = Returned s1 ->
  (tokens s1 == 0)%Q ->
  is_allowed s now = Returned (false, s1).
Proof.
  intros Hre Hz. rewrite (is_allowed_after_refill s now s1 Hre).
  destruct (Qle_bool 1 (tokens s1)) eqn:E; [| reflexivity].
  apply Qle_bool_iff in E. rewrite Hz in E.
  unfold Qle in E. cbn in E. lia.
Qed.

End Bucket.

(** C7. A fresh bucket of capacity [N] grants the first [N] calls made
    with no time elapsed and refuses the next one; one full period later,
    with no call in between, it grants [N] calls again and refuses the
    next; and every call, at whatever later time, leaves the token count
    between 0 and the capacity.  (Capacities up to 2 ^ 53, where the
    floats of the code hold these counts exactly.) *)
Theorem token_bucket_capacity (rate period t0 : Z) :
  0 <= rate <= float_exact_int -> 0 < period ->
  let n := Z.to_nat rate in
  let t1 := t0 + period * micros_per_second in
  exists s1 s2 s3 s4,
    RateLimiter.run (RateLimiter.__init__ rate period t0) (repeat t0 n)
    = Some (repeat true n, s1)
    /\ RateLimiter.is_allowed s1 t0 = Returned (false, s2)
    /\ RateLimiter.run s2 (repeat t1 n) = Some (repeat true n, s3)
    /\ RateLimiter.is_allowed s3 t1 = Returned (false, s4)
    /\ (0 <= RateLimiter.tokens (RateLimiter.__init__ rate period t0)
         <= inject_Z rate)%Q
    /\ (forall s now,
          same_settings (RateLimiter.__init__ rate period t0) s ->
          (0 <= RateLimiter.tokens s <= inject_Z rate)%Q ->
          RateLimiter.last_update s <= now ->
          exists b s',
            RateLimiter.is_allowed s now = Returned (b, s')
            /\ (0 <= RateLimiter.tokens s' <= inject_Z rate)%Q
            /\ same_settings (RateLimiter.__init__ rate period t0) s'
            /\ RateLimiter.last_update s' = now).
Proof.
  intros [Hr _] Hp n t1.
  set (s0 := RateLimiter.__init__ rate period t0).
  (* the first n calls *)
  destruct (run_drain n s0 rate) as (s1 & Hrun1 & Ht1 & [Hr1 Hp1] & Hu1);
    [cbn; lia | reflexivity | cbn; lia |].
  cbn [s0 RateLimiter.__init__ RateLimiter.last_update RateLimiter.rate
       RateLimiter.period] in Hrun1, Hr1, Hp1, Hu1.
  replace (rate - Z.of_nat n) with 0 in Ht1 by lia.
  (* the call after them *)
  destruct (refill_same_instant s1) as (s2 & Hre2 & Ht2 & [Hr2 Hp2] & Hu2).
  { lia. }
  { rewrite Ht1. apply inject_Z_nonneg. lia. }
  rewrite Hu1 in Hre2.
  assert (Hz2 : (RateLimiter.tokens s2 == 0)%Q) by (rewrite Ht2; exact Ht1).
  pose proof (is_allowed_empty s1 t0 s2 Hre2 Hz2) as Hdeny1.
  (* one period later *)
  destruct (refill_full_period s2) as (s2r & Hre3 & Ht3 & [Hr3 Hp3] & Hu3).
  { lia. }
  { rewrite Hz2. apply Qle_refl. }
  replace (RateLimiter.last_update s2
           + RateLimiter.period s2 * micros_per_second) with t1
    in Hre3, Hu3 by (unfold t1; congruence).
  assert (Hbounds0 : (0 <= RateLimiter.tokens s0 <= inject_Z rate)%Q).
  { cbn. split; [apply inject_Z_nonneg; exact Hr | apply Qle_refl]. }
  assert (Hinv : forall s now,
             same_settings s0 s ->
             (0 <= RateLimiter.tokens s <= inject_Z rate)%Q ->
             RateLimiter.last_update s <= now ->
             exists b s',
               RateLimiter.is_allowed s now = Returned (b, s')
               /\ (0 <= RateLimiter.tokens s' <= inject_Z rate)%Q
               /\ same_settings s0 s'
               /\ RateLimiter.last_update s' = now).
  { intros s now [Hsr Hsp] Hb Hnow. cbn in Hsr, Hsp.
    destruct (is_allowed_keeps_bounds s now) as (b & s' & Hrun & Hb' & [Hr' Hp'] & Hu');
      try lia.
    { rewrite Hsr. exact Hb. }
    exists b, s'. split; [exact Hrun |].
    split; [rewrite <- Hsr, <- Hr'; exact Hb' |].
    split; [split; cbn; congruence | exact Hu']. }
  destruct n as [| n'] eqn:En.
  - (* capacity 0 *)
    assert (Hrate0 : rate = 0) by lia.
    exists s1, s2, s2, s2r. cbn [repeat RateLimiter.run].
    cbn [repeat RateLimiter.run] in Hrun1.
    split; [exact Hrun1 |]. split; [exact Hdeny1 |]. split; [reflexivity |].
    split.
    { apply is_allowed_empty; [exact Hre3 |]. rewrite Ht3, Hr2, Hr1, Hrate0.
      reflexivity. }
    split; [exact Hbounds0 | exact Hinv].
  - (* first call of the new period, then the rest at the same instant *)
    pose proof (is_allowed_after_refill s2 t1 s2r Hre3) as Hgrant.
    assert (Hone : Qle_bool 1 (RateLimiter.tokens s2r) = true).
    { apply Qle_bool_iff. rewrite Ht3, Hr2, Hr1.
      change 1%Q with (inject_Z 1). rewrite <- Zle_Qle. lia. }
    rewrite Hone in Hgrant.
    set (s2g := RateLimiter.mk (RateLimiter.rate s2r) (RateLimiter.period s2r)
                  (RateLimiter.tokens s2r - 1)%Q (RateLimiter.last_update s2r))
      in Hgrant.
    destruct (run_drain n' s2g (rate - 1)) as (s3 & Hrun3 & Ht4 & [Hr4 Hp4] & Hu4).
    { cbn. lia. }
    { cbn [s2g RateLimiter.tokens]. rewrite Ht3, Hr2, Hr1.
      unfold Zminus. rewrite inject_Z_plus. reflexivity. }
    { cbn [s2g RateLimiter.rate]. lia. }
    cbn [s2g RateLimiter.last_update RateLimiter.rate RateLimiter.period]
      in Hrun3, Hr4, Hp4, Hu4.
    rewrite Hu3 in Hrun3, Hu4.
    replace (rate - 1 - Z.of_nat n') with 0 in Ht4 by lia.
    destruct (refill_same_instant s3) as (s4 & Hre5 & Ht5 & _ & _).
    { lia. }
    { rewrite Ht4. apply inject_Z_nonneg. lia. }
    rewrite Hu4 in Hre5.
    exists s1, s2, s3, s4.
    split; [exact Hrun1 |]. split; [exact Hdeny1 |].
    split.
    { cbn [repeat RateLimiter.run]. rewrite Hgrant, Hrun3. reflexivity. }
    split.
    { apply is_allowed_empty; [exact Hre5 |]. rewrite Ht5. exact Ht4. }
    split; [exact Hbounds0 | exact Hinv].
Qed.

Lemma token_bucket_capacity_witness :
  let n := Z.to_nat 3 in
  let t1 := 5000000 + 60 * micros_per_second in
  exists s1 s2 s3 s4,
    RateLimiter.run (RateLimiter.__init__ 3 60 5000000) (repeat 5000000 n)
    = Some (repeat true n, s1)
    /\ RateLimiter.is_allowed s1 5000000 = Returned (false, s2)
    /\ RateLimiter.run s2 (repeat t1 n) = Some (repeat true n, s3)
    /\ RateLimiter.is_allowed s3 t1 = Returned (false, s4)
    /\ (0 <= RateLimiter.tokens (RateLimiter.__init__ 3 60 5000000)
         <= inject_Z 3)%Q
    /\ (forall s now,
          same_settings (RateLimiter.__init__ 3 60 5000000) s ->
          (0 <= RateLimiter.tokens s <= inject_Z 3)%Q ->
          RateLimiter.last_update s <= now ->
          exists b s',
            RateLimiter.is_allowed s now = Returned (b, s')
            /\ (0 <= RateLimiter.tokens s' <= inject_Z 3)%Q
            /\ same_settings (RateLimiter.__init__ 3 60 5000000) s'
            /\ RateLimiter.last_update s' = now).
Proof.
  apply (token_bucket_capacity 3 60 5000000).
  - unfold float_exact_int. lia.
  - lia.
Defined.

(** * Further properties of the code *)

(** ** Dictionaries *)

Section DictFacts.
Context {V : Type}.
Implicit Types (d : dict V) (k : string) (v : V).

Lemma dict_contains_In k d :
  dict_contains k d = true <-> In k (dict_keys d).
Proof.
  unfold dict_contains, dict_keys. rewrite existsb_exists, in_map_iff.
  split.
  - intros (kv & Hin & Heq). apply String.eqb_eq in Heq. exists kv. auto.
  - intros (kv & Heq & Hin). exists kv. split; [exact Hin |].
    apply String.eqb_eq. exact Heq.
Qed.

Lemma dict_contains_false k d :
  dict_contains k d = false <-> ~ In k (dict_keys d).
Proof.
  rewrite <- dict_contains_In. destruct (dict_contains k d); split;
    intros H; try congruence; try reflexivity;
    try (exfalso; apply H; reflexivity).
Qed.

Lemma dict_get_None k d : dict_get k d = None <-> ~ In k (dict_keys d).
Proof.
  unfold dict_get, dict_keys. induction d as [| [k' v'] rest IH]; cbn.
  - split; [intros _ H; exact H | reflexivity].
  - destruct (String.eqb k' k) eqn:E.
    + apply String.eqb_eq in E. split; [discriminate |].
      intros H. exfalso. apply H. left. exact E.
    + apply String.eqb_neq in E. rewrite IH. split.
      * intros H [H1 | H1]; [exact (E H1) | exact (H H1)].
      * intros H H1. apply H. right. exact H1.
Qed.

Lemma dict_set_new k v d :
  dict_contains k d = false -> dict_set k v d = d ++ [(k, v)].
Proof.
  unfold dict_contains. induction d as [| [k' v'] rest IH]; cbn; intros H;
    [reflexivity |].
  apply orb_false_iff in H. destruct H as [H1 H2].
  rewrite H1, (IH H2). reflexivity.
Qed.

Lemma dict_keys_set k v d :
  dict_keys (dict_set k v d)
  = if dict_contains k d then dict_keys d else dict_keys d ++ [k].
Proof.
  unfold dict_contains, dict_keys. induction d as [| [k' v'] rest IH]; cbn;
    [reflexivity |].
  destruct (String.eqb k' k) eqn:E; cbn.
  - apply String.eqb_eq in E. subst k'. reflexivity.
  - rewrite IH. destruct (existsb _ rest); reflexivity.
Qed.

Lemma dict_get_set_other k k' v d :
  k' <> k -> dict_get k' (dict_set k v d) = dict_get k' d.
Proof.
  intros Hne. unfold dict_get. induction d as [| [k0 v0] rest IH]; cbn.
  - replace (String.eqb k k') with false
      by (symmetry; apply String.eqb_neq; congruence).
    reflexivity.
  - destruct (String.eqb k0 k) eqn:E; cbn.
    + apply String.eqb_eq in E. subst k0.
      replace (String.eqb k k') with false
        by (symmetry; apply String.eqb_neq; congruence).
      reflexivity.
    + destruct (String.eqb k0 k'); [reflexivity | exact IH].
Qed.

Lemma dict_del_keys k d :
  dict_keys (dict_del k d)
  = filter (fun k' => negb (String.eqb k' k)) (dict_keys d).
Proof.
  unfold dict_del, dict_keys. induction d as [| [k' v'] rest IH]; cbn;
    [reflexivity |].
  destruct (String.eqb k' k); cbn; rewrite IH; reflexivity.
Qed.

Lemma dict_get_del k d : dict_get k (dict_del k d) = None.
Proof.
  apply dict_get_None. rewrite dict_del_keys. intros H.
  apply filter_In in H. destruct H as [_ H].
  rewrite String.eqb_refl in H. discriminate H.
Qed.

Lemma dict_get_del_other k k' d :
  k' <> k -> dict_get k' (dict_del k d) = dict_get k' d.
Proof.
  intros Hne. unfold dict_get, dict_del.
  induction d as [| [k0 v0] rest IH]; cbn; [reflexivity |].
  destruct (String.eqb k0 k) eqn:E; cbn.
  - apply String.eqb_eq in E. subst k0.
    replace (String.eqb k k') with false
      by (symmetry; apply String.eqb_neq; congruence).
    exact IH.
  - destruct (String.eqb k0 k'); [reflexivity | exact IH].
Qed.

Lemma dict_del_absent k d : dict_contains k d = false -> dict_del k d = d.
Proof.
  unfold dict_contains, dict_del. induction d as [| [k' v'] rest IH]; cbn;
    intros H; [reflexivity |].
  apply orb_false_iff in H. destruct H as [H1 H2].
  rewrite H1. cbn. rewrite (IH H2). reflexivity.
Qed.

Lemma dict_del_set_new k v d :
  dict_contains k d = false -> dict_del k (dict_set k v d) = d.
Proof.
  intros H. rewrite (dict_set_new k v d H). unfold dict_del.
  rewrite filter_app. cbn. rewrite String.eqb_refl. cbn.
  rewrite app_nil_r. apply (dict_del_absent k d H).
Qed.

End DictFacts.

(** ** The registry of subscriptions *)

(** X1. [unregister_webhook] answers whether the identifier was
    registered; afterwards the identifier is not registered, every other
    subscription is found as before, the delivery records are untouched,
    a second call answers [False], and a call for an identifier that was
    not registered changes nothing. *)
Theorem unregister_webhook_removes_one self id :
  let found := fst (WebhookManager.unregister_webhook self id) in
  let self' := snd (WebhookManager.unregister_webhook self id) in
  (found = true <-> In id (dict_keys (WebhookManager.webhooks self)))
  /\ dict_get id (WebhookManager.webhooks self') = None
  /\ (forall id', id' <> id ->
        dict_get id' (WebhookManager.webhooks self')
        = dict_get id' (WebhookManager.webhooks self))
  /\ WebhookManager.deliveries self' = WebhookManager.deliveries self
  /\ fst (WebhookManager.unregister_webhook self' id) = false
  /\ (found = false -> self' = self).
Proof.
  unfold WebhookManager.unregister_webhook.
  destruct (dict_contains id (WebhookManager.webhooks self)) eqn:E;
    cbn [fst snd WebhookManager.webhooks WebhookManager.deliveries].
  - split; [split; [intros _; apply dict_contains_In; exact E | reflexivity] |].
    split; [apply dict_get_del |].
    split; [intros id' Hne; apply dict_get_del_other; exact Hne |].
    split; [reflexivity |].
    split; [| discriminate].
    replace (dict_contains id (dict_del id (WebhookManager.webhooks self)))
      with false; [reflexivity |].
    symmetry. apply dict_contains_false. apply dict_get_None.
    apply dict_get_del.
  - assert (Hno : ~ In id (dict_keys (WebhookManager.webhooks self)))
      by (apply dict_contains_false; exact E).
    split; [split; [discriminate | intros H; contradiction] |].
    split; [apply dict_get_None; exact Hno |].
    split; [reflexivity |]. split; [reflexivity |].
    rewrite E. split; reflexivity.
Qed.

(** X2. A subscription registered under an identifier not yet in use goes
    to the end of the registry: it is the last of [list_webhooks], active
    or all, after the subscriptions that were there, with three attempts
    and a timeout of thirty seconds. *)
Theorem register_webhook_appends env self url event_types secret w
    webhook self' w' :
  WebhookManager.register_webhook env self url event_types secret w
  = (Returned (webhook, self'), w') ->
  dict_contains (Webhook.id webhook) (WebhookManager.webhooks self) = false ->
  WebhookManager.webhooks self'
  = WebhookManager.webhooks self ++ [(Webhook.id webhook, webhook)]
  /\ WebhookManager.list_webhooks self' true
     = WebhookManager.list_webhooks self true ++ [webhook]
  /\ WebhookManager.list_webhooks self' false
     = WebhookManager.list_webhooks self false ++ [webhook]
  /\ Webhook.retry_count webhook = 3
  /\ Webhook.timeout_seconds webhook = 30.
Proof.
  unfold WebhookManager.register_webhook, WebhookManager.secret_or_uuid.
  intros Hrun Hfresh.
  assert (Hshape :
            WebhookManager.webhooks self'
            = dict_set (Webhook.id webhook) webhook (WebhookManager.webhooks self)
            /\ Webhook.active webhook = true
            /\ Webhook.retry_count webhook = 3
            /\ Webhook.timeout_seconds webhook = 30).
  { destruct (truthy_str secret);
      unfold bind, ret, uuid4, now in Hrun; cbn in Hrun;
      inversion Hrun; subst; cbn; repeat split. }
  destruct Hshape as (Hws & Hact & Hrc & Hto).
  rewrite (dict_set_new _ _ _ Hfresh) in Hws.
  split; [exact Hws |].
  unfold WebhookManager.list_webhooks, dict_values. rewrite Hws.
  rewrite map_app, filter_app. cbn [map filter snd]. rewrite Hact.
  repeat split; assumption.
Qed.

Lemma register_webhook_appends_witness :
  let r := WebhookManager.register_webhook (env_always (Responds 200))
             manager_abc "https://d.example/hook" [PLAN_FAILED] None world0 in
  exists webhook self',
    fst r = Returned (webhook, self')
    /\ WebhookManager.webhooks self'
       = WebhookManager.webhooks manager_abc ++ [(Webhook.id webhook, webhook)]
    /\ WebhookManager.list_webhooks self' true
       = WebhookManager.list_webhooks manager_abc true ++ [webhook]
    /\ WebhookManager.list_webhooks self' false
       = WebhookManager.list_webhooks manager_abc false ++ [webhook]
    /\ Webhook.retry_count webhook = 3
    /\ Webhook.timeout_seconds webhook = 30.
Proof.
  cbn zeta. eexists _, _. split; [vm_compute; reflexivity |].
  eapply (register_webhook_appends (env_always (Responds 200)) manager_abc
            "https://d.example/hook" [PLAN_FAILED] None world0).
  - vm_compute. reflexivity.
  - vm_compute. reflexivity.
Defined.

(** X3. Registering under an unused identifier and then unregistering
    that identifier gives back the manager as it was. *)
Theorem register_then_unregister env self url event_types secret w
    webhook self' w' :
  WebhookManager.register_webhook env self url event_types secret w
  = (Returned (webhook, self'), w') ->
  dict_contains (Webhook.id webhook) (WebhookManager.webhooks self) = false ->
  WebhookManager.unregister_webhook self' (Webhook.id webhook) = (true, self).
Proof.
  unfold WebhookManager.register_webhook, WebhookManager.secret_or_uuid.
  intros Hrun Hfresh.
  assert (Hshape :
            self' = WebhookManager.mk
                      (dict_set (Webhook.id webhook) webhook
                                (WebhookManager.webhooks self))
                      (WebhookManager.deliveries self)).
  { destruct (truthy_str secret);
      unfold bind, ret, uuid4, now in Hrun; cbn in Hrun;
      inversion Hrun; subst; reflexivity. }
  subst self'. unfold WebhookManager.unregister_webhook.
  cbn [WebhookManager.webhooks WebhookManager.deliveries].
  replace (dict_contains (Webhook.id webhook)
             (dict_set (Webhook.id webhook) webhook
                       (WebhookManager.webhooks self))) with true.
  - rewrite (dict_del_set_new _ _ _ Hfresh). destruct self. reflexivity.
  - symmetry. apply dict_contains_In. rewrite dict_keys_set, Hfresh.
    apply in_or_app. right. left. reflexivity.
Qed.

Lemma register_then_unregister_witness :
  exists webhook self' w',
    WebhookManager.register_webhook (env_always (Responds 200))
      manager_abc "https://d.example/hook" [PLAN_FAILED] None world0
    = (Returned (webhook, self'), w')
    /\ WebhookManager.unregister_webhook self' (Webhook.id webhook)
       = (true, manager_abc).
Proof.
  eexists _, _, _. split; [vm_compute; reflexivity |].
  eapply (register_then_unregister (env_always (Responds 200)) manager_abc
            "https://d.example/hook" [PLAN_FAILED] None world0).
  - vm_compute. reflexivity.
  - vm_compute. reflexivity.
Defined.

Lemma dict_set_Forall {V} (P : string * V -> Prop) k v (d : dict V) :
  Forall P d -> P (k, v) -> Forall P (dict_set k v d).
Proof.
  intros Hd Hkv. induction d as [| [k' v'] rest IH]; cbn.
  - constructor; [exact Hkv | constructor].
  - inversion Hd as [| ? ? Hhead Hrest]; subst.
    destruct (String.eqb k' k); constructor; auto.
Qed.

Lemma NoDup_filter_keys (p : string -> bool) (l : list string) :
  NoDup l -> NoDup (filter p l).
Proof.
  induction 1 as [| x l Hx Hnd IH]; cbn; [constructor |].
  destruct (p x); [| exact IH].
  constructor; [| exact IH]. intros H. apply filter_In in H. tauto.
Qed.

Lemma registry_ids_are_keys (ws : dict Webhook.t) :
  registry_wf ws -> map Webhook.id (dict_values ws) = dict_keys ws.
Proof.
  intros [_ Hall]. unfold dict_values, dict_keys.
  induction Hall as [| [k wh] rest Hk _ IH]; cbn; [reflexivity |].
  cbn in Hk. rewrite IH, Hk. reflexivity.
Qed.

Lemma matching_ids_distinct event (ws : list Webhook.t) :
  NoDup (map Webhook.id ws) ->
  NoDup (map Webhook.id (filter (matches event) ws)).
Proof.
  intros Hnd. induction ws as [| wh rest IH]; cbn in *; [constructor |].
  apply NoDup_cons_iff in Hnd. destruct Hnd as [Hfresh Hrest].
  destruct (matches event wh); [| exact (IH Hrest)].
  cbn. apply NoDup_cons; [| exact (IH Hrest)].
  intros Hin. apply Hfresh. apply in_map_iff in Hin.
  destruct Hin as (other & Hid & Hother). apply filter_In in Hother.
  apply in_map_iff. exists other. tauto.
Qed.

Lemma unregister_keeps_wf self id :
  registry_wf (WebhookManager.webhooks self) ->
  registry_wf
    (WebhookManager.webhooks (snd (WebhookManager.unregister_webhook self id))).
Proof.
  intros [Hnd Hall]. unfold WebhookManager.unregister_webhook.
  destruct (dict_contains id (WebhookManager.webhooks self));
    cbn [snd WebhookManager.webhooks]; [| split; assumption].
  split.
  - rewrite dict_del_keys. apply NoDup_filter_keys. exact Hnd.
  - unfold dict_del. apply Forall_forall. intros kv Hkv.
    apply filter_In in Hkv. destruct Hkv as [Hkv _].
    revert kv Hkv. apply Forall_forall. exact Hall.
Qed.

(** X4. The registry stays well formed: if every subscription is stored
    under its own identifier and no identifier occurs twice, the same
    holds after [register_webhook] and after [unregister_webhook]. *)
Theorem registry_wf_preserved env self url event_types secret w id :
  registry_wf (WebhookManager.webhooks self) ->
  (forall webhook self' w',
      WebhookManager.register_webhook env self url event_types secret w
      = (Returned (webhook, self'), w') ->
      registry_wf (WebhookManager.webhooks self'))
  /\ registry_wf
       (WebhookManager.webhooks (snd (WebhookManager.unregister_webhook self id))).
Proof.
  intros [Hnd Hall]. split.
  - intros webhook self' w' Hrun.
    unfold WebhookManager.register_webhook, WebhookManager.secret_or_uuid in Hrun.
    assert (Hws :
              WebhookManager.webhooks self'
              = dict_set (Webhook.id webhook) webhook
                         (WebhookManager.webhooks self)).
    { destruct (truthy_str secret);
        unfold bind, ret, uuid4, now in Hrun; cbn in Hrun;
        inversion Hrun; subst; reflexivity. }
    rewrite Hws. split.
    + rewrite dict_keys_set.
      destruct (dict_contains (Webhook.id webhook)
                              (WebhookManager.webhooks self)) eqn:E;
        [exact Hnd |].
      apply NoDup_app; [exact Hnd | repeat constructor; intros [] |].
      intros x Hx [Hy | []]. subst x.
      apply dict_contains_false in E. exact (E Hx).
    + apply dict_set_Forall; [exact Hall | reflexivity].
  - apply unregister_keeps_wf. split; assumption.
Qed.

Lemma registry_wf_preserved_witness :
  (forall webhook self' w',
      WebhookManager.register_webhook (env_always (Responds 200)) manager_abc
        "https://d.example/hook" [PLAN_FAILED] None world0
      = (Returned (webhook, self'), w') ->
      registry_wf (WebhookManager.webhooks self'))
  /\ registry_wf
       (WebhookManager.webhooks
          (snd (WebhookManager.unregister_webhook manager_abc "hook-b"))).
Proof.
  apply (registry_wf_preserved (env_always (Responds 200)) manager_abc
           "https://d.example/hook" [PLAN_FAILED] None world0 "hook-b").
  split.
  - simpl. repeat constructor; simpl; intuition discriminate.
  - simpl. repeat constructor.
Defined.

Lemma delivery_for_ids event ds whs :
  Forall2 (delivery_for event) ds whs ->
  map WebhookDelivery.webhook_id ds = map Webhook.id whs.
Proof.
  induction 1 as [| d wh ds whs Hd _ IH]; cbn; [reflexivity |].
  destruct Hd as (H1 & _). rewrite H1, IH. reflexivity.
Qed.

Lemma unregistered_key_absent self id :
  ~ In id (dict_keys
             (WebhookManager.webhooks
                (snd (WebhookManager.unregister_webhook self id)))).
Proof.
  unfold WebhookManager.unregister_webhook.
  destruct (dict_contains id (WebhookManager.webhooks self)) eqn:E;
    cbn [snd WebhookManager.webhooks].
  - apply dict_get_None. apply dict_get_del.
  - apply dict_contains_false. exact E.
Qed.

(** X5. On a well-formed registry one [trigger_event] never makes two
    records for the same subscription: the subscription identifiers of the
    records it returns are pairwise distinct. *)
Theorem trigger_event_distinct_subscriptions env self event w :
  only_Exceptions env ->
  registry_wf (WebhookManager.webhooks self) ->
  exists ds self' w',
    WebhookManager.trigger_event env self event w = (Returned (ds, self'), w')
    /\ NoDup (map WebhookDelivery.webhook_id ds).
Proof.
  intros Hexn Hwf. unfold WebhookManager.trigger_event, bind.
  destruct (trigger_loop_spec env event Hexn
              (dict_values (WebhookManager.webhooks self))
              (WebhookManager.deliveries self) [] w) as (ds & w' & Hrun & Hall).
  rewrite Hrun. exists ds. eexists. exists w'. unfold ret. cbn.
  split; [reflexivity |].
  pose proof (delivery_for_ids _ _ _ Hall) as Hmap.
  rewrite Hmap. apply matching_ids_distinct.
  rewrite (registry_ids_are_keys _ Hwf). exact (proj1 Hwf).
Qed.

Lemma trigger_event_distinct_subscriptions_witness :
  exists ds self' w',
    WebhookManager.trigger_event (env_always (Responds 200)) manager_abc
                                 task_done world0
    = (Returned (ds, self'), w')
    /\ NoDup (map WebhookDelivery.webhook_id ds).
Proof.
  apply (trigger_event_distinct_subscriptions (env_always (Responds 200))
           manager_abc task_done world0).
  - intros n r e H. simpl in H. discriminate H.
  - split.
    + simpl. repeat constructor; simpl; intuition discriminate.
    + simpl. repeat constructor.
Defined.

(** X6. Unregistering stops deliveries: on a well-formed registry, after
    [unregister_webhook id] a [trigger_event] makes no record for [id]. *)
Theorem unregistered_webhook_gets_no_delivery env self event w id :
  only_Exceptions env ->
  registry_wf (WebhookManager.webhooks self) ->
  exists ds self' w',
    WebhookManager.trigger_event env
      (snd (WebhookManager.unregister_webhook self id)) event w
    = (Returned (ds, self'), w')
    /\ ~ In id (map WebhookDelivery.webhook_id ds).
Proof.
  intros Hexn Hwf.
  pose proof (unregister_keeps_wf self id Hwf) as Hwf'.
  set (self1 := snd (WebhookManager.unregister_webhook self id)) in *.
  unfold WebhookManager.trigger_event, bind.
  destruct (trigger_loop_spec env event Hexn
              (dict_values (WebhookManager.webhooks self1))
              (WebhookManager.deliveries self1) [] w)
    as (ds & w' & Hrun & Hall).
  rewrite Hrun. exists ds. eexists. exists w'. unfold ret. cbn.
  split; [reflexivity |].
  rewrite (delivery_for_ids _ _ _ Hall). intros Hin.
  apply (unregistered_key_absent self id). fold self1.
  rewrite <- (registry_ids_are_keys _ Hwf').
  apply in_map_iff in Hin. destruct Hin as (wh & Hid & Hwh).
  apply filter_In in Hwh. apply in_map_iff. exists wh. tauto.
Qed.

Lemma unregistered_webhook_gets_no_delivery_witness :
  exists ds self' w',
    WebhookManager.trigger_event (env_always (Responds 200))
      (snd (WebhookManager.unregister_webhook manager_abc "hook-a"))
      task_done world0
    = (Returned (ds, self'), w')
    /\ ~ In "hook-a" (map WebhookDelivery.webhook_id ds).
Proof.
  apply (unregistered_webhook_gets_no_delivery (env_always (Responds 200))
           manager_abc task_done world0 "hook-a").
  - intros n r e H. simpl in H. discriminate H.
  - split.
    + simpl. repeat constructor; simpl; intuition discriminate.
    + simpl. repeat constructor.
Defined.

(** ** More on [trigger_event] *)

Lemma trigger_loop_no_match env event ws : forall stored acc w,
  forallb (fun wh => negb (matches event wh)) ws = true ->
  WebhookManager.trigger_loop env event ws stored acc w
  = (Returned (stored, acc), w).
Proof.
  induction ws as [| wh rest IH]; intros stored acc w H; [reflexivity |].
  cbn [forallb] in H. apply andb_true_iff in H. destruct H as [Hwh Hrest].
  cbn [WebhookManager.trigger_loop]. unfold matches in Hwh.
  destruct (Webhook.active wh); cbn [negb andb] in *; [| apply IH; exact Hrest].
  rewrite Hwh. apply IH. exact Hrest.
Qed.

(** X7. When no registered subscription is both active and interested in
    the kind of the event (in particular when the registry is empty),
    [trigger_event] returns no record, sends nothing, draws no identifier
    and leaves the manager as it was. *)
Theorem trigger_event_without_match env self event w :
  forallb (fun wh => negb (matches event wh))
          (dict_values (WebhookManager.webhooks self)) = true ->
  WebhookManager.trigger_event env self event w = (Returned ([], self), w).
Proof.
  intros H. unfold WebhookManager.trigger_event, bind.
  rewrite (trigger_loop_no_match env event _ _ _ _ H).
  unfold ret. destruct self. reflexivity.
Qed.

Lemma trigger_event_without_match_witness :
  WebhookManager.trigger_event (env_always (Responds 200)) manager_abc
    (WebhookEvent.mk "event-2" PLAN_STARTED "2024-01-01T00:00:00" [] [])
    world0
  = (Returned ([], manager_abc), world0).
Proof.
  apply (trigger_event_without_match (env_always (Responds 200)) manager_abc
           (WebhookEvent.mk "event-2" PLAN_STARTED "2024-01-01T00:00:00" [] [])
           world0).
  reflexivity.
Defined.

Lemma trigger_loop_outbox env event ws : forall stored acc w,
  exists reqs,
    outbox (snd (WebhookManager.trigger_loop env event ws stored acc w))
    = outbox w ++ reqs
    /\ Forall
         (fun r =>
            exists wh,
              In wh (filter (matches event) ws)
              /\ r = WebhookManager.delivery_request wh event)
         reqs.
Proof.
  induction ws as [| webhook rest IH]; intros stored acc w.
  - exists []. cbn. rewrite app_nil_r. split; [reflexivity | constructor].
  - cbn [WebhookManager.trigger_loop filter].
    assert (Hm : matches event webhook
                 = (Webhook.active webhook
                    && EventType_in (WebhookEvent.type event)
                                    (Webhook.event_types webhook))%bool)
      by reflexivity.
    rewrite Hm.
    destruct (Webhook.active webhook); cbn [negb andb].
    2: { apply IH. }
    destruct (EventType_in (WebhookEvent.type event)
                           (Webhook.event_types webhook)); cbn [negb].
    2: { apply IH. }
    unfold bind at 1.
    destruct (deliver_one_spec env event webhook w)
      as (r & w1 & k & Hrun & _ & Hout & _).
    rewrite Hrun.
    assert (Hmine :
              Forall
                (fun r0 =>
                   exists wh,
                     In wh (webhook :: filter (matches event) rest)
                     /\ r0 = WebhookManager.delivery_request wh event)
                (repeat (WebhookManager.delivery_request webhook event) k)).
    { apply Forall_forall. intros r0 Hr0. apply repeat_spec in Hr0.
      exists webhook. split; [left; reflexivity | exact Hr0]. }
    destruct r as [d | e].
    + destruct (IH (stored ++ [d]) (acc ++ [d]) w1) as (reqs & Hrest & Hall).
      exists (repeat (WebhookManager.delivery_request webhook event) k ++ reqs).
      split.
      * rewrite Hrest, Hout, <- app_assoc. reflexivity.
      * apply Forall_app. split; [exact Hmine |].
        eapply Forall_impl; [| exact Hall].
        intros r0 (wh & Hwh & Hr0). exists wh. split; [right; exact Hwh | exact Hr0].
    + exists (repeat (WebhookManager.delivery_request webhook event) k).
      cbn [snd]. split; [exact Hout | exact Hmine].
Qed.

(** X8. Whatever the endpoints answer, and also when it ends by an
    exception, [trigger_event] sends calls only for subscriptions that are
    active and interested in the kind of the event: every call it adds is
    the delivery call of such a subscription. *)
Theorem trigger_event_calls_only_matches env self event w :
  exists reqs,
    outbox (snd (WebhookManager.trigger_event env self event w))
    = outbox w ++ reqs
    /\ Forall
         (fun r =>
            exists wh,
              In wh (dict_values (WebhookManager.webhooks self))
              /\ Webhook.active wh = true
              /\ EventType_in (WebhookEvent.type event)
                              (Webhook.event_types wh) = true
              /\ r = WebhookManager.delivery_request wh event)
         reqs.
Proof.
  destruct (trigger_loop_outbox env event
              (dict_values (WebhookManager.webhooks self))
              (WebhookManager.deliveries self) [] w) as (reqs & Hout & Hall).
  exists reqs. split.
  - unfold WebhookManager.trigger_event, bind.
    destruct (WebhookManager.trigger_loop env event _ _ _ w) as [[r | e] w'];
      exact Hout.
  - eapply Forall_impl; [| exact Hall].
    intros r (wh & Hwh & Hr). apply filter_In in Hwh.
    destruct Hwh as [Hin Hm]. unfold matches in Hm.
    apply andb_true_iff in Hm. exists wh. tauto.
Qed.

(** ** More on [get_delivery_status] *)

Lemma outcome_counts (ds : list WebhookDelivery.t) :
  Forall outcome_recorded ds ->
  (List.length (filter (fun d => truthy_iso (WebhookDelivery.completed_at d)) ds)
   + List.length (filter (fun d => truthy_iso (WebhookDelivery.next_retry d)) ds)
   = List.length ds)%nat.
Proof.
  induction 1 as [| d ds Hd _ IH]; cbn; [reflexivity |].
  destruct Hd as [[Hc Hn] | [Hc Hn]].
  - rewrite Hn. destruct (WebhookDelivery.completed_at d); [| congruence].
    cbn. lia.
  - rewrite Hc. destruct (WebhookDelivery.next_retry d); [| congruence].
    cbn. lia.
Qed.

(** X9. Completed and pending partition the records: if every stored
    record is either completed or stamped for retry, never both (true of
    an empty manager), then after a [trigger_event] the same holds, and
    for every subscription [successful + pending = total_deliveries]. *)
Theorem trigger_event_status_partition env self event w :
  only_Exceptions env ->
  Forall outcome_recorded (WebhookManager.deliveries self) ->
  exists ds self' w',
    WebhookManager.trigger_event env self event w = (Returned (ds, self'), w')
    /\ Forall outcome_recorded (WebhookManager.deliveries self')
    /\ forall id,
         let st := WebhookManager.get_delivery_status self' id in
         (WebhookManager.successful st + WebhookManager.pending st
          = WebhookManager.total_deliveries st)%nat.
Proof.
  intros Hexn Hold. unfold WebhookManager.trigger_event, bind.
  destruct (trigger_loop_spec env event Hexn
              (dict_values (WebhookManager.webhooks self))
              (WebhookManager.deliveries self) [] w) as (ds & w' & Hrun & Hall).
  rewrite Hrun. exists ds. eexists. exists w'. unfold ret.
  cbn [fst snd]. split; [reflexivity |].
  assert (Hnew : Forall outcome_recorded (WebhookManager.deliveries self ++ ds)).
  { apply Forall_app. split; [exact Hold |].
    clear Hrun. induction Hall as [| d wh ds whs Hd _ IH]; constructor;
      [| exact IH].
    destruct Hd as (_ & _ & _ & H). exact H. }
  cbn [WebhookManager.deliveries]. split; [exact Hnew |].
  intros id. unfold WebhookManager.get_delivery_status.
  cbn [WebhookManager.successful WebhookManager.pending
       WebhookManager.total_deliveries WebhookManager.deliveries].
  apply outcome_counts.
  apply Forall_forall. intros d Hd. apply filter_In in Hd.
  destruct Hd as [Hd _]. revert d Hd. apply Forall_forall. exact Hnew.
Qed.

Lemma trigger_event_status_partition_witness :
  exists ds self' w',
    WebhookManager.trigger_event
      (env_script [Fails connection_refused; Responds 404] (Responds 503))
      manager_abc task_done world0
    = (Returned (ds, self'), w')
    /\ Forall outcome_recorded (WebhookManager.deliveries self')
    /\ forall id,
         let st := WebhookManager.get_delivery_status self' id in
         (WebhookManager.successful st + WebhookManager.pending st
          = WebhookManager.total_deliveries st)%nat.
Proof.
  apply (trigger_event_status_partition
           (env_script [Fails connection_refused; Responds 404] (Responds 503))
           manager_abc task_done world0).
  - intros n r e H. simpl in H.
    destruct n as [| [| [| n]]]; simpl in H; try discriminate H.
    inversion H. reflexivity.
  - simpl. constructor.
Defined.

(** ** More on the attempt loop *)

Section MoreOutcomes.
Variable env : Env.
Variable webhook : Webhook.t.
Variable event : WebhookEvent.t.

Let req := WebhookManager.delivery_request webhook event.
Let rc := Webhook.retry_count webhook.

(** The loop returns [True] only on a 2xx answer, which is then its last
    call. *)
Lemma deliver_loop_success todo : forall attempt d w d' w',
  WebhookManager.deliver_loop env webhook event todo attempt d w
  = (Returned (true, d'), w') ->
  exists code k,
    200 <= code < 300
    /\ outbox w' = outbox w ++ repeat req (S k)
    /\ endpoint env (List.length (outbox w) + k) req = Responds code
    /\ WebhookDelivery.status_code d' = Some code
    /\ WebhookDelivery.attempts d' = attempt + Z.of_nat (S k).
Proof.
  induction todo as [| todo IH]; intros attempt d w d' w' Hrun;
    [cbn in Hrun; discriminate Hrun |].
  cbn [WebhookManager.deliver_loop] in Hrun. unfold bind at 1 in Hrun.
  assert (Hnext : forall d1 w1,
             outbox w1 = outbox w ++ [req] ->
             WebhookManager.deliver_loop env webhook event todo
               (attempt + 1) d1 w1 = (Returned (true, d'), w') ->
             exists code k,
               200 <= code < 300
               /\ outbox w' = outbox w ++ repeat req (S k)
               /\ endpoint env (List.length (outbox w) + k) req = Responds code
               /\ WebhookDelivery.status_code d' = Some code
               /\ WebhookDelivery.attempts d' = attempt + Z.of_nat (S k)).
  { intros d1 w1 Hout1 Hrun1.
    destruct (IH _ _ _ _ _ Hrun1) as (code & k & Hc & Hout & Hend & Hsc & Hatt).
    exists code, (S k). split; [exact Hc |].
    split; [rewrite Hout, Hout1, <- app_assoc; reflexivity |].
    split; [rewrite <- Hend; f_equal; rewrite Hout1, length_app; cbn; lia |].
    split; [exact Hsc | lia]. }
  destruct (endpoint env (List.length (outbox w)) req) as [code | e] eqn:Ho.
  - rewrite (attempt_body_status env webhook event _ _ _ _ Ho) in Hrun.
    cbn zeta in Hrun.
    destruct ((200 <=? code) && (code <? 300))%bool eqn:E2.
    + inversion Hrun; subst d' w'. exists code, 0%nat.
      apply andb_true_iff in E2. destruct E2 as [E2a E2b].
      apply Z.leb_le in E2a. apply Z.ltb_lt in E2b.
      rewrite Nat.add_0_r. repeat split; try assumption; try reflexivity.
    + destruct ((500 <=? code) && (attempt <? Webhook.retry_count webhook - 1))%bool.
      * eapply Hnext; [| exact Hrun]. reflexivity.
      * inversion Hrun.
  - rewrite (attempt_body_raise env webhook event _ _ _ _ Ho) in Hrun.
    cbn zeta in Hrun.
    destruct (exn_is_Exception e); [| inversion Hrun].
    destruct (attempt <? Webhook.retry_count webhook - 1).
    + eapply Hnext; [| exact Hrun]. reflexivity.
    + inversion Hrun.
Qed.

(** Against a client that raises an [Exception] at every call, the loop
    uses all its iterations with the same back-off as for a 5xx, and ends
    with [False] and the text of the last exception. *)
Lemma deliver_loop_raising
    (Hraise : forall n r, exists e,
        endpoint env n r = Fails e /\ exn_is_Exception e = true)
    todo : forall attempt d w,
  attempt + Z.of_nat (S todo) = rc ->
  exists d' w' e,
    WebhookManager.deliver_loop env webhook event (S todo) attempt d w
    = (Returned (false, d'), w')
    /\ endpoint env (List.length (outbox w) + todo) req = Fails e
    /\ same_identity d d'
    /\ WebhookDelivery.attempts d' = rc
    /\ WebhookDelivery.status_code d' = WebhookDelivery.status_code d
    /\ WebhookDelivery.error d' = Some (exn_str e)
    /\ outbox w' = outbox w ++ repeat req (S todo)
    /\ slept w' = slept w ++ backoff_delays attempt todo.
Proof.
  induction todo as [| todo IH]; intros attempt d w Hrc;
    destruct (Hraise (List.length (outbox w)) req) as (e & He & Hexn);
    pose proof (attempt_body_raise env webhook event attempt
                  (WebhookDelivery.set_attempts (attempt + 1) d) w e He)
      as Hbody;
    rewrite Hexn in Hbody; cbn zeta in Hbody.
  - replace (attempt <? Webhook.retry_count webhook - 1) with false in Hbody
      by (symmetry; apply Z.ltb_ge; fold rc; lia).
    rewrite (deliver_loop_return env webhook event _ _ _ _ _ _ _ Hbody).
    eexists _, _, e. split; [reflexivity |]. cbn.
    rewrite Nat.add_0_r, app_nil_r.
    repeat split; try assumption; try reflexivity; try (fold rc; lia).
  - replace (attempt <? Webhook.retry_count webhook - 1) with true in Hbody
      by (symmetry; apply Z.ltb_lt; fold rc; lia).
    rewrite (deliver_loop_continue env webhook event _ _ _ _ _ _ Hbody).
    match goal with
    | |- context [WebhookManager.deliver_loop _ _ _ _ _ ?d1 ?w1] =>
        destruct (IH (attempt + 1) d1 w1)
          as (d' & w' & e' & Hrun & Hlast & Hid & Hatt & Hsc & Herr
              & Hout & Hsl); [lia |]
    end.
    exists d', w', e'. cbn [outbox slept uuid_count clock after_sleep sent] in *.
    split; [exact Hrun |].
    split.
    { rewrite <- Hlast. f_equal. rewrite length_app. cbn. lia. }
    split.
    { eapply same_identity_trans; [| exact Hid]. repeat split. }
    split; [exact Hatt |]. split; [exact Hsc |]. split; [exact Herr |].
    split.
    { rewrite Hout, <- app_assoc. reflexivity. }
    rewrite Hsl, <- app_assoc, backoff_delays_S. reflexivity.
Qed.

End MoreOutcomes.

Lemma total_delay_backoff n : forall first,
  0 <= first ->
  total_delay (backoff_delays first n) = 2 ^ first * (2 ^ Z.of_nat n - 1).
Proof.
  induction n as [| n IH]; intros first Hf.
  - cbn. lia.
  - rewrite backoff_delays_S. cbn [total_delay fold_right].
    fold (total_delay (backoff_delays (first + 1) n)).
    rewrite IH by lia.
    rewrite Nat2Z.inj_succ, Z.pow_succ_r by lia.
    rewrite Z.pow_add_r by lia. lia.
Qed.

(** X10. [_deliver_webhook] returns [True] only when its last call was
    answered with a 2xx status: that status is the one left in
    [status_code], and [attempts] is the number of calls made. *)
Theorem deliver_webhook_true_only_on_2xx env webhook event d w d' w' :
  WebhookManager._deliver_webhook env webhook event d w
  = (Returned (true, d'), w') ->
  exists code k,
    200 <= code < 300
    /\ outbox w'
       = outbox w
         ++ repeat (WebhookManager.delivery_request webhook event) (S k)
    /\ endpoint env (List.length (outbox w) + k)
                (WebhookManager.delivery_request webhook event)
       = Responds code
    /\ WebhookDelivery.status_code d' = Some code
    /\ WebhookDelivery.attempts d' = Z.of_nat (S k).
Proof.
  unfold WebhookManager._deliver_webhook. intros Hrun.
  destruct (deliver_loop_success env webhook event _ _ _ _ _ _ Hrun)
    as (code & k & H1 & H2 & H3 & H4 & H5).
  exists code, k. repeat split; try assumption; lia.
Qed.

Lemma deliver_webhook_true_only_on_2xx_witness :
  exists d' w',
    WebhookManager._deliver_webhook
      (env_script [Fails connection_refused; Responds 204] (Responds 500))
      hook_a task_done (fresh_delivery "delivery-1" hook_a task_done) world0
    = (Returned (true, d'), w')
    /\ exists code k,
         200 <= code < 300
         /\ outbox w'
            = outbox world0
              ++ repeat (WebhookManager.delivery_request hook_a task_done) (S k)
         /\ endpoint
              (env_script [Fails connection_refused; Responds 204]
                          (Responds 500))
              (List.length (outbox world0) + k)
              (WebhookManager.delivery_request hook_a task_done)
            = Responds code
         /\ WebhookDelivery.status_code d' = Some code
         /\ WebhookDelivery.attempts d' = Z.of_nat (S k).
Proof.
  eexists _, _. split; [vm_compute; reflexivity |].
  eapply (deliver_webhook_true_only_on_2xx
            (env_script [Fails connection_refused; Responds 204] (Responds 500))
            hook_a task_done (fresh_delivery "delivery-1" hook_a task_done)
            world0).
  vm_compute. reflexivity.
Defined.

(** X11. Against a client that raises an [Exception] at every call
    (refused connection, timeout) the loop makes exactly [retry_count]
    attempts with the back-off 1, 2, 4, ... seconds, then returns [False]
    with the text of the last exception in [error]; [status_code] and
    [completed_at] stay unset. *)
Theorem deliver_network_errors_exhaust env webhook event id w :
  1 <= Webhook.retry_count webhook ->
  (forall n r, exists e,
      endpoint env n r = Fails e /\ exn_is_Exception e = true) ->
  exists d' w' e,
    WebhookManager._deliver_webhook env webhook event
      (fresh_delivery id webhook event) w
    = (Returned (false, d'), w')
    /\ endpoint env
         (List.length (outbox w) + (Z.to_nat (Webhook.retry_count webhook) - 1))
         (WebhookManager.delivery_request webhook event)
       = Fails e
    /\ WebhookDelivery.error d' = Some (exn_str e)
    /\ WebhookDelivery.attempts d' = Webhook.retry_count webhook
    /\ WebhookDelivery.status_code d' = None
    /\ WebhookDelivery.completed_at d' = None
    /\ outbox w'
       = outbox w
         ++ repeat (WebhookManager.delivery_request webhook event)
                   (Z.to_nat (Webhook.retry_count webhook))
    /\ slept w'
       = slept w
         ++ backoff_delays 0 (Z.to_nat (Webhook.retry_count webhook) - 1).
Proof.
  intros Hrc Hraise. unfold WebhookManager._deliver_webhook.
  destruct (Z.to_nat (Webhook.retry_count webhook)) as [| todo] eqn:Htodo;
    [lia |].
  destruct (deliver_loop_raising env webhook event Hraise todo 0
              (fresh_delivery id webhook event) w)
    as (d' & w' & e & Hrun & Hlast & Hid & Hatt & Hsc & Herr & Hout & Hsl);
    [lia |].
  replace (S todo - 1)%nat with todo by lia.
  exists d', w', e. split; [exact Hrun |]. split; [exact Hlast |].
  split; [exact Herr |]. split; [exact Hatt |]. split; [exact Hsc |].
  split.
  { destruct Hid as (_ & _ & _ & _ & Hca). rewrite Hca. reflexivity. }
  split; assumption.
Qed.

Lemma deliver_network_errors_exhaust_witness :
  exists d' w' e,
    WebhookManager._deliver_webhook (env_always (Fails connection_refused))
      hook_a task_done (fresh_delivery "delivery-1" hook_a task_done) world0
    = (Returned (false, d'), w')
    /\ endpoint (env_always (Fails connection_refused))
         (List.length (outbox world0)
          + (Z.to_nat (Webhook.retry_count hook_a) - 1))
         (WebhookManager.delivery_request hook_a task_done)
       = Fails e
    /\ WebhookDelivery.error d' = Some (exn_str e)
    /\ WebhookDelivery.attempts d' = Webhook.retry_count hook_a
    /\ WebhookDelivery.status_code d' = None
    /\ WebhookDelivery.completed_at d' = None
    /\ outbox w'
       = outbox world0
         ++ repeat (WebhookManager.delivery_request hook_a task_done)
                   (Z.to_nat (Webhook.retry_count hook_a))
    /\ slept w'
       = slept world0
         ++ backoff_delays 0 (Z.to_nat (Webhook.retry_count hook_a) - 1).
Proof.
  apply (deliver_network_errors_exhaust (env_always (Fails connection_refused))
           hook_a task_done "delivery-1" world0).
  - simpl. lia.
  - intros n r. exists connection_refused. split; reflexivity.
Defined.

(** X12. A subscription whose [retry_count] is zero or negative is never
    called: [trigger_event] still stores a record for it, with no attempt,
    no status, no error, not completed, and a retry time five minutes
    ahead. *)
Theorem trigger_event_without_attempts env key webhook event stored w :
  matches event webhook = true ->
  Webhook.retry_count webhook <= 0 ->
  exists d self' w',
    WebhookManager.trigger_event env
      (WebhookManager.mk [(key, webhook)] stored) event w
    = (Returned ([d], self'), w')
    /\ WebhookManager.deliveries self' = stored ++ [d]
    /\ WebhookDelivery.webhook_id d = Webhook.id webhook
    /\ WebhookDelivery.attempts d = 0
    /\ WebhookDelivery.status_code d = None
    /\ WebhookDelivery.error d = None
    /\ WebhookDelivery.completed_at d = None
    /\ WebhookDelivery.next_retry d
       = Some (IsoFormat (clock w + 5 * 60 * micros_per_second))
    /\ outbox w' = outbox w
    /\ slept w' = slept w.
Proof.
  intros Hm Hrc. unfold matches in Hm. apply andb_true_iff in Hm.
  destruct Hm as [Hact Hin].
  unfold WebhookManager.trigger_event, dict_values.
  cbn [WebhookManager.webhooks WebhookManager.deliveries map snd
       WebhookManager.trigger_loop].
  rewrite Hact, Hin. cbn [negb].
  unfold WebhookManager.deliver_one, WebhookManager._deliver_webhook.
  replace (Z.to_nat (Webhook.retry_count webhook)) with 0%nat by lia.
  cbn [WebhookManager.deliver_loop].
  unfold bind, uuid4, ret, now. cbn.
  eexists _, _, _. split; [reflexivity |]. cbn. repeat split.
Qed.

Lemma trigger_event_without_attempts_witness :
  exists d self' w',
    WebhookManager.trigger_event (env_always (Responds 200))
      (WebhookManager.mk
         [("hook-z",
           Webhook.mk "hook-z" "https://z.example/hook" [TASK_COMPLETED] true
                      (IsoFormat 0) "z-secret" 0 30)]
         [])
      task_done world0
    = (Returned ([d], self'), w')
    /\ WebhookManager.deliveries self' = [] ++ [d]
    /\ WebhookDelivery.webhook_id d = "hook-z"
    /\ WebhookDelivery.attempts d = 0
    /\ WebhookDelivery.status_code d = None
    /\ WebhookDelivery.error d = None
    /\ WebhookDelivery.completed_at d = None
    /\ WebhookDelivery.next_retry d
       = Some (IsoFormat (clock world0 + 5 * 60 * micros_per_second))
    /\ outbox w' = outbox world0
    /\ slept w' = slept world0.
Proof.
  apply (trigger_event_without_attempts (env_always (Responds 200)) "hook-z"
           (Webhook.mk "hook-z" "https://z.example/hook" [TASK_COMPLETED] true
                       (IsoFormat 0) "z-secret" 0 30)
           task_done [] world0).
  - reflexivity.
  - simpl. lia.
Defined.

(** X13. Against an endpoint that always answers 5xx, the delays slept by
    [_deliver_webhook] add up to [2 ^ (retry_count - 1) - 1] seconds. *)
Theorem deliver_5xx_total_backoff env webhook event d w :
  1 <= Webhook.retry_count webhook ->
  (forall n r, exists c, endpoint env n r = Responds c /\ 500 <= c) ->
  exists delays,
    slept (snd (WebhookManager._deliver_webhook env webhook event d w))
    = slept w ++ delays
    /\ total_delay delays = 2 ^ (Webhook.retry_count webhook - 1) - 1.
Proof.
  intros Hrc H5. unfold WebhookManager._deliver_webhook.
  destruct (Z.to_nat (Webhook.retry_count webhook)) as [| todo] eqn:Htodo;
    [lia |].
  destruct (deliver_loop_5xx env webhook event H5 todo 0 d w)
    as (d' & w' & c & Hrun & _ & _ & _ & _ & _ & _ & _ & Hsl & _); [lia |].
  exists (backoff_delays 0 todo). rewrite Hrun. cbn [snd].
  split; [exact Hsl |].
  rewrite total_delay_backoff by lia.
  replace (Z.of_nat todo) with (Webhook.retry_count webhook - 1) by lia.
  lia.
Qed.

Lemma deliver_5xx_total_backoff_witness :
  exists delays,
    slept (snd (WebhookManager._deliver_webhook (env_always (Responds 503))
                  hook_a task_done
                  (fresh_delivery "delivery-1" hook_a task_done) world0))
    = slept world0 ++ delays
    /\ total_delay delays = 2 ^ (Webhook.retry_count hook_a - 1) - 1.
Proof.
  apply (deliver_5xx_total_backoff (env_always (Responds 503)) hook_a task_done
           (fresh_delivery "delivery-1" hook_a task_done) world0).
  - simpl. lia.
  - intros n r. exists 503. simpl. split; [reflexivity | lia].
Defined.

(** ** The live event stream *)

(** X14. For a positive [limit], [get_events] returns the newest events:
    the end of the history, of length [limit] or the whole history if it
    is shorter. *)
Theorem get_events_newest self limit :
  0 < limit ->
  exists older,
    EventStream.events self = older ++ EventStream.get_events self limit
    /\ List.length (EventStream.get_events self limit)
       = Nat.min (Z.to_nat limit) (List.length (EventStream.events self)).
Proof.
  intros Hl. unfold EventStream.get_events, slice_from, slice_index.
  replace (- limit <? 0) with true by (symmetry; apply Z.ltb_lt; lia).
  set (l := EventStream.events self).
  set (i := Z.to_nat (Z.max 0 (- limit + Z.of_nat (List.length l)))).
  exists (firstn i l). split.
  - symmetry. apply firstn_skipn.
  - rewrite length_skipn. unfold i. lia.
Qed.

Lemma get_events_newest_witness :
  exists older,
    EventStream.events (EventStream.mk "s" [] [task_done; task_done; task_done])
    = older
      ++ EventStream.get_events
           (EventStream.mk "s" [] [task_done; task_done; task_done]) 2
    /\ List.length
         (EventStream.get_events
            (EventStream.mk "s" [] [task_done; task_done; task_done]) 2)
       = Nat.min (Z.to_nat 2)
           (List.length
              (EventStream.events
                 (EventStream.mk "s" [] [task_done; task_done; task_done]))).
Proof.
  apply (get_events_newest
           (EventStream.mk "s" [] [task_done; task_done; task_done]) 2).
  lia.
Defined.

(** X15. A [limit] of zero does not mean no event: [get_events(0)]
    returns the whole history, and a negative [limit] returns the history
    without its [-limit] oldest events. *)
Theorem get_events_nonpositive_limit self limit :
  limit <= 0 ->
  EventStream.get_events self limit
  = skipn (Z.to_nat (- limit)) (EventStream.events self)
  /\ EventStream.get_events self 0 = EventStream.events self.
Proof.
  intros Hl. unfold EventStream.get_events, slice_from, slice_index.
  split.
  - replace (- limit <? 0) with false by (symmetry; apply Z.ltb_ge; lia).
    set (l := EventStream.events self).
    destruct (Nat.le_ge_cases (Z.to_nat (- limit)) (List.length l)) as [H | H].
    + rewrite Nat.min_l by exact H. reflexivity.
    + rewrite Nat.min_r by exact H.
      rewrite skipn_all. symmetry. apply skipn_all2. exact H.
  - cbn. reflexivity.
Qed.

Lemma get_events_nonpositive_limit_witness :
  EventStream.get_events
    (EventStream.mk "s" [] [task_done; task_done; task_done]) (-1)
  = skipn (Z.to_nat (- -1))
      (EventStream.events
         (EventStream.mk "s" [] [task_done; task_done; task_done]))
  /\ EventStream.get_events
       (EventStream.mk "s" [] [task_done; task_done; task_done]) 0
     = EventStream.events
         (EventStream.mk "s" [] [task_done; task_done; task_done]).
Proof.
  apply (get_events_nonpositive_limit
           (EventStream.mk "s" [] [task_done; task_done; task_done]) (-1)).
  lia.
Defined.

Lemma emit_loop_runs_all (run : EventStream.behaviour) event
    (Hexn : forall cb s0 w0 e s1 w1,
        run cb event s0 w0 = (Raised e, s1, w1) -> exn_is_Exception e = true)
    (Hkeep : forall cb s0 w0,
        EventStream.subscribers (snd (fst (run cb event s0 w0)))
        = EventStream.subscribers s0)
    (rest : list EventStream.callable) :
  forall (done : list EventStream.callable) fuel s w,
    EventStream.subscribers s = done ++ rest ->
    (List.length rest < fuel)%nat ->
    EventStream.emit_loop run fuel (List.length done) event s w
    = Some (Returned tt,
            fst (fold_left (after_callback run event) rest (s, w)),
            snd (fold_left (after_callback run event) rest (s, w))).
Proof.
  induction rest as [| cb rest IH]; intros done fuel s w Hsubs Hfuel;
    (destruct fuel as [| fuel]; [cbn [List.length] in Hfuel; lia |]);
    cbn [EventStream.emit_loop fold_left fst snd].
  - replace (nth_error (EventStream.subscribers s) (List.length done))
      with (@None EventStream.callable); [reflexivity |].
    symmetry. apply nth_error_None.
    rewrite Hsubs, app_nil_r. apply Nat.le_refl.
  - replace (nth_error (EventStream.subscribers s) (List.length done))
      with (Some cb).
    2:{ rewrite Hsubs, nth_error_app2 by apply Nat.le_refl.
        rewrite Nat.sub_diag. reflexivity. }
    pose proof (Hkeep cb s w) as Hk.
    assert (Hnext : forall s1 w1,
              EventStream.subscribers s1 = EventStream.subscribers s ->
              EventStream.emit_loop run fuel (S (List.length done)) event s1 w1
              = Some (Returned tt,
                      fst (fold_left (after_callback run event) rest (s1, w1)),
                      snd (fold_left (after_callback run event) rest (s1, w1)))).
    { intros s1 w1 Hs1.
      replace (S (List.length done)) with (List.length (done ++ [cb]))
        by (rewrite length_app; cbn [List.length]; lia).
      apply IH.
      - rewrite Hs1, Hsubs, <- app_assoc. reflexivity.
      - cbn [List.length] in Hfuel. lia. }
    unfold after_callback at 2 4. cbn [fst snd].
    destruct (run cb event s w) as [[[[] | e] s1] w1] eqn:Hrun;
      cbn [fst snd] in Hk.
    + apply Hnext. exact Hk.
    + rewrite (Hexn _ _ _ _ _ _ Hrun). apply Hnext. exact Hk.
Qed.

(** X16. [emit_event] records the event and then, provided the callbacks
    raise only [Exception]s and leave the list of subscribers as it is,
    runs every subscriber once, in the order of subscription, each on
    the stream and the world the previous one left, whether or not
    earlier subscribers raised; it ends (one step of the loop for each
    subscriber and one to see the end of the list) and raises nothing
    itself. *)
Theorem emit_event_reaches_every_subscriber
    (run : EventStream.behaviour) self event w fuel :
  (forall cb s0 w0 e s1 w1,
      run cb event s0 w0 = (Raised e, s1, w1) -> exn_is_Exception e = true) ->
  (forall cb s0 w0,
      EventStream.subscribers (snd (fst (run cb event s0 w0)))
      = EventStream.subscribers s0) ->
  (List.length (EventStream.subscribers self) < fuel)%nat ->
  let recorded :=
    EventStream.mk (EventStream.stream_id self) (EventStream.subscribers self)
                   (EventStream.events self ++ [event]) in
  let final :=
    fold_left (after_callback run event) (EventStream.subscribers self)
              (recorded, w) in
  EventStream.emit_event run fuel self event w
  = Some (Returned tt, fst final, snd final)
  /\ EventStream.subscribers (fst final) = EventStream.subscribers self.
Proof.
  intros Hexn Hkeep Hfuel recorded final. split.
  - unfold EventStream.emit_event.
    apply (emit_loop_runs_all run event Hexn Hkeep
             (EventStream.subscribers self) [] fuel recorded w);
      [reflexivity | exact Hfuel].
  - subst final.
    assert (Hgen : forall l sw,
              EventStream.subscribers
                (fst (fold_left (after_callback run event) l sw))
              = EventStream.subscribers (fst sw)).
    { induction l as [| cb l IH]; intros sw; [reflexivity |].
      cbn [fold_left]. rewrite IH. unfold after_callback.
      pose proof (Hkeep cb (fst sw) (snd sw)) as Hk.
      destruct (run cb event (fst sw) (snd sw)) as [[r s1] w1].
      exact Hk. }
    rewrite Hgen. reflexivity.
Qed.

Lemma emit_event_reaches_every_subscriber_witness :
  let run : EventStream.behaviour :=
    fun cb _ =>
      stream_untouched (if Nat.eqb cb 1 then raise connection_refused
                        else sleep (Z.of_nat cb)) in
  let self := EventStream.mk "s" [1%nat; 2%nat; 3%nat] [] in
  let recorded :=
    EventStream.mk (EventStream.stream_id self) (EventStream.subscribers self)
                   (EventStream.events self ++ [task_done]) in
  let final :=
    fold_left (after_callback run task_done) (EventStream.subscribers self)
              (recorded, world0) in
  EventStream.emit_event run 4 self task_done world0
  = Some (Returned tt, fst final, snd final)
  /\ EventStream.subscribers (fst final) = EventStream.subscribers self.
Proof.
  apply (emit_event_reaches_every_subscriber
           (fun cb _ =>
              stream_untouched (if Nat.eqb cb 1 then raise connection_refused
                                else sleep (Z.of_nat cb)))
           (EventStream.mk "s" [1%nat; 2%nat; 3%nat] []) task_done world0 4).
  - intros cb s0 w0 e s1 w1 H. unfold stream_untouched in H.
    destruct (Nat.eqb cb 1); simpl in H; inversion H. reflexivity.
  - intros cb s0 w0. unfold stream_untouched.
    destruct (Nat.eqb cb 1); reflexivity.
  - simpl. lia.
Defined.

(** X30. The loop of [emit_event] reads the live list of subscribers: when
    the first of three subscribers unsubscribes itself as it is called,
    the list shifts under the iterator, the second subscriber is passed
    over, and only the third is called after the first. *)
Theorem emit_event_skips_after_unsubscribe sid history event w :
  EventStream.emit_event leaves_when_called 4
    (EventStream.mk sid [1%nat; 2%nat; 3%nat] history) event w
  = Some (Returned tt,
          EventStream.mk sid [2%nat; 3%nat] (history ++ [event]),
          after_sleep 3 w).
Proof. reflexivity. Qed.

(** X17. [unsubscribe] removes one subscription of the callback, the
    oldest: the callback is subscribed once less (not at all less if it
    was not subscribed, and then nothing changes), and the other
    subscribers keep their places. *)
Theorem unsubscribe_removes_one_subscription self callback :
  let self' := EventStream.unsubscribe self callback in
  count_occ Nat.eq_dec (EventStream.subscribers self') callback
  = Nat.pred (count_occ Nat.eq_dec (EventStream.subscribers self) callback)
  /\ filter (fun c => negb (Nat.eqb c callback)) (EventStream.subscribers self')
     = filter (fun c => negb (Nat.eqb c callback)) (EventStream.subscribers self)
  /\ EventStream.events self' = EventStream.events self
  /\ (~ In callback (EventStream.subscribers self) -> self' = self)
  /\ EventStream.unsubscribe (EventStream.subscribe self callback) callback
     = (if existsb (Nat.eqb callback) (EventStream.subscribers self)
        then EventStream.subscribe self' callback
        else self).
Proof.
  cbn zeta. unfold EventStream.unsubscribe, EventStream.subscribe.
  cbn [EventStream.subscribers EventStream.events EventStream.stream_id].
  set (l := EventStream.subscribers self).
  assert (Hcount : forall l0,
             count_occ Nat.eq_dec (EventStream.list_remove callback l0) callback
             = Nat.pred (count_occ Nat.eq_dec l0 callback)).
  { induction l0 as [| y rest IH]; cbn; [reflexivity |].
    destruct (Nat.eqb_spec y callback) as [-> | Hne].
    - destruct (Nat.eq_dec callback callback); [reflexivity | congruence].
    - cbn. destruct (Nat.eq_dec y callback); [congruence | exact IH]. }
  assert (Hothers : forall l0,
             filter (fun c => negb (Nat.eqb c callback))
                    (EventStream.list_remove callback l0)
             = filter (fun c => negb (Nat.eqb c callback)) l0).
  { induction l0 as [| y rest IH]; cbn; [reflexivity |].
    destruct (Nat.eqb y callback) eqn:E; cbn; [reflexivity |].
    rewrite E. cbn. rewrite IH. reflexivity. }
  assert (Habsent : existsb (Nat.eqb callback) l = false
                    -> count_occ Nat.eq_dec l callback = 0%nat).
  { intros H. apply count_occ_not_In. intros Hin.
    assert (Ht : existsb (Nat.eqb callback) l = true).
    { apply existsb_exists. exists callback. split; [exact Hin |].
      apply Nat.eqb_refl. }
    congruence. }
  assert (Happ : forall l0,
             existsb (Nat.eqb callback) l0 = true ->
             EventStream.list_remove callback (l0 ++ [callback])
             = EventStream.list_remove callback l0 ++ [callback]).
  { induction l0 as [| y rest IH]; cbn; [discriminate |].
    rewrite (Nat.eqb_sym callback y).
    destruct (Nat.eqb y callback); cbn; [reflexivity |].
    intros H. rewrite (IH H). reflexivity. }
  assert (Hfresh : forall l0,
             existsb (Nat.eqb callback) l0 = false ->
             EventStream.list_remove callback (l0 ++ [callback]) = l0).
  { induction l0 as [| y rest IH]; cbn.
    - rewrite Nat.eqb_refl. reflexivity.
    - rewrite (Nat.eqb_sym callback y).
      destruct (Nat.eqb y callback); cbn; [discriminate |].
      intros H. rewrite (IH H). reflexivity. }
  rewrite existsb_app. cbn [existsb]. rewrite Nat.eqb_refl, orb_true_r.
  destruct (existsb (Nat.eqb callback) l) eqn:E;
    cbn [EventStream.subscribers EventStream.events EventStream.stream_id].
  - split; [apply Hcount |]. split; [apply Hothers |]. split; [reflexivity |].
    split.
    + intros Hno. exfalso. apply Hno. apply existsb_exists in E.
      destruct E as (x & Hx & Heq). apply Nat.eqb_eq in Heq. subst x. exact Hx.
    + f_equal. exact (Happ l E).
  - fold l. rewrite (Habsent eq_refl). split; [reflexivity |].
    split; [reflexivity |].
    split; [reflexivity |]. split; [reflexivity |].
    destruct self as [sid subs evs]. cbn in *. f_equal. exact (Hfresh subs E).
Qed.

(** ** The adaptive cache *)

Lemma dict_contains_keys {V1 V2} k (d1 : dict V1) (d2 : dict V2) :
  dict_keys d1 = dict_keys d2 -> dict_contains k d1 = dict_contains k d2.
Proof.
  unfold dict_contains, dict_keys. revert d2.
  induction d1 as [| [k1 v1] r1 IH]; intros [| [k2 v2] r2] H; cbn in *;
    try discriminate; [reflexivity |].
  inversion H; subst. rewrite (IH r2); [reflexivity | assumption].
Qed.

Lemma dict_get_Some_contains {V} k (v : V) d :
  dict_get k d = Some v -> dict_contains k d = true.
Proof.
  intros H. destruct (dict_contains k d) eqn:E; [reflexivity |].
  apply dict_contains_false in E. apply dict_get_None in E. congruence.
Qed.

Section Cache.
Context {V : Type}.
Implicit Types (c : AdaptiveCaching.t V) (key : string) (value : V).

(** X18. What [set] stores, [get] returns: right after [set(key, value)]
    a [get(key)] returns [value], and the access count of the key is 2
    (1 from [set], whatever it was before, and 1 for the [get]). *)
Theorem cache_set_then_get c key value w :
  exists c1 c2 w1,
    AdaptiveCaching.set V c key value w = (Returned c1, w1)
    /\ AdaptiveCaching.get V c1 key w1 = (Returned (Some value, c2), w1)
    /\ dict_get key (AdaptiveCaching.access_count V c1) = Some 1
    /\ dict_get key (AdaptiveCaching.access_count V c2) = Some 2
    /\ AdaptiveCaching.cache V c2 = AdaptiveCaching.cache V c1.
Proof.
  unfold AdaptiveCaching.set, bind, now, ret.
  eexists _, _, _. split; [reflexivity |].
  unfold AdaptiveCaching.get. cbn [AdaptiveCaching.cache].
  rewrite dict_get_set. unfold bind, now, ret.
  cbn [AdaptiveCaching.access_count AdaptiveCaching.cache].
  split; [reflexivity |].
  unfold dict_get_default. rewrite !dict_get_set.
  split; [reflexivity |].
  cbn [AdaptiveCaching.access_count AdaptiveCaching.cache].
  rewrite dict_get_set. split; reflexivity.
Qed.

(** X19. [get] counts hits and only hits: for a key in the cache it
    returns the value, adds one to the count of that key, leaves the
    counts of the other keys and the cached values alone; for a key not in
    the cache it returns [None] and changes nothing, not even a count. *)
Theorem cache_get_counts_hits c key w :
  match dict_get key (AdaptiveCaching.cache V c) with
  | Some value =>
      exists c',
        AdaptiveCaching.get V c key w = (Returned (Some value, c'), w)
        /\ dict_get key (AdaptiveCaching.access_count V c')
           = Some (dict_get_default key 0 (AdaptiveCaching.access_count V c) + 1)
        /\ (forall k, k <> key ->
              dict_get k (AdaptiveCaching.access_count V c')
              = dict_get k (AdaptiveCaching.access_count V c))
        /\ AdaptiveCaching.cache V c' = AdaptiveCaching.cache V c
  | None => AdaptiveCaching.get V c key w = (Returned (None, c), w)
  end.
Proof.
  unfold AdaptiveCaching.get.
  destruct (dict_get key (AdaptiveCaching.cache V c)) as [value |];
    [| reflexivity].
  unfold bind, now, ret. eexists. split; [reflexivity |].
  cbn [AdaptiveCaching.access_count AdaptiveCaching.cache].
  split; [apply dict_get_set |].
  split; [| reflexivity].
  intros k Hk. apply dict_get_set_other. exact Hk.
Qed.

(** X20. The cache, the access counts and the access times hold the same
    keys in the same order (as they do in a new cache), and [set] and
    [get] keep it so. *)
Theorem cache_keys_agree_preserved c key value w :
  cache_keys_agree c ->
  (forall c' w',
      AdaptiveCaching.set V c key value w = (Returned c', w') ->
      cache_keys_agree c')
  /\ (forall r c' w',
        AdaptiveCaching.get V c key w = (Returned (r, c'), w') ->
        cache_keys_agree c').
Proof.
  intros [Hc Ht]. split.
  - intros c' w' Hrun. unfold AdaptiveCaching.set, bind, now, ret in Hrun.
    inversion Hrun; subst. unfold cache_keys_agree.
    cbn [AdaptiveCaching.access_count AdaptiveCaching.cache
         AdaptiveCaching.access_times].
    rewrite !dict_keys_set.
    rewrite (dict_contains_keys key _ _ Hc), (dict_contains_keys key _ _ Ht).
    rewrite Hc, Ht. split; reflexivity.
  - intros r c' w' Hrun. unfold AdaptiveCaching.get in Hrun.
    destruct (dict_get key (AdaptiveCaching.cache V c)) as [v |] eqn:E.
    + unfold bind, now, ret in Hrun. inversion Hrun; subst.
      unfold cache_keys_agree.
      cbn [AdaptiveCaching.access_count AdaptiveCaching.cache
           AdaptiveCaching.access_times].
      rewrite !dict_keys_set.
      rewrite (dict_contains_keys key _ _ Hc), (dict_contains_keys key _ _ Ht).
      rewrite (dict_get_Some_contains _ _ _ E). split; assumption.
    + unfold ret in Hrun. inversion Hrun; subst. split; assumption.
Qed.

(** X21. [set] never evicts: whatever [max_size_mb] is, after
    [set(key, value)] the key holds [value], every other key holds what it
    held, and the cache has not become smaller. *)
Theorem cache_set_never_evicts c key value w :
  exists c' w',
    AdaptiveCaching.set V c key value w = (Returned c', w')
    /\ dict_get key (AdaptiveCaching.cache V c') = Some value
    /\ (forall k, k <> key ->
          dict_get k (AdaptiveCaching.cache V c')
          = dict_get k (AdaptiveCaching.cache V c))
    /\ (List.length (AdaptiveCaching.cache V c)
        <= List.length (AdaptiveCaching.cache V c'))%nat
    /\ AdaptiveCaching.max_size_mb V c' = AdaptiveCaching.max_size_mb V c.
Proof.
  unfold AdaptiveCaching.set, bind, now, ret.
  eexists _, _. split; [reflexivity |].
  cbn [AdaptiveCaching.cache AdaptiveCaching.max_size_mb].
  split; [apply dict_get_set |].
  split; [intros k Hk; apply dict_get_set_other; exact Hk |].
  split; [| reflexivity].
  generalize (AdaptiveCaching.cache V c). intros d.
  induction d as [| [k' v'] rest IH]; cbn; [lia |].
  destruct (String.eqb k' key); cbn; lia.
Qed.

End Cache.

Lemma cache_keys_agree_preserved_witness :
  (forall c' w',
      AdaptiveCaching.set Z (AdaptiveCaching.__init__ Z 100) "k" 7 world0
      = (Returned c', w') ->
      cache_keys_agree c')
  /\ (forall r c' w',
        AdaptiveCaching.get Z (AdaptiveCaching.__init__ Z 100) "k" world0
        = (Returned (r, c'), w') ->
        cache_keys_agree c').
Proof.
  apply (cache_keys_agree_preserved (AdaptiveCaching.__init__ Z 100) "k" 7
           world0).
  split; reflexivity.
Defined.

Lemma insert_desc_perm x l : Permutation (x :: l) (insert_desc x l).
Proof.
  induction l as [| y rest IH]; cbn; [apply Permutation_refl |].
  destruct (snd x <? snd y); [| apply Permutation_refl].
  eapply perm_trans; [apply perm_swap |]. apply perm_skip. exact IH.
Qed.

Lemma sorted_desc_perm l : Permutation l (sorted_desc l).
Proof.
  induction l as [| x rest IH]; cbn; [constructor |].
  eapply perm_trans; [| apply insert_desc_perm]. apply perm_skip. exact IH.
Qed.

Lemma insert_desc_sorted x l :
  StronglySorted count_ge l -> StronglySorted count_ge (insert_desc x l).
Proof.
  induction 1 as [| y rest Hs IH Hall]; cbn.
  - repeat constructor.
  - destruct (snd x <? snd y) eqn:E.
    + constructor; [exact IH |].
      apply Z.ltb_lt in E.
      eapply Permutation_Forall; [apply insert_desc_perm |].
      constructor; [unfold count_ge; lia | exact Hall].
    + apply Z.ltb_ge in E. constructor; [constructor; assumption |].
      constructor; [unfold count_ge; lia |].
      eapply Forall_impl; [| exact Hall].
      unfold count_ge. intros a Ha. lia.
Qed.

Lemma sorted_desc_sorted l : StronglySorted count_ge (sorted_desc l).
Proof.
  induction l as [| x rest IH]; cbn; [constructor |].
  apply insert_desc_sorted. exact IH.
Qed.

Lemma StronglySorted_split {A} (R : A -> A -> Prop) l1 : forall l2,
  StronglySorted R (l1 ++ l2) ->
  StronglySorted R l1 /\ Forall (fun a => Forall (R a) l2) l1.
Proof.
  induction l1 as [| x l1 IH]; intros l2 H; cbn in *.
  - split; constructor.
  - inversion H as [| ? ? Hs Hall]; subst.
    destruct (IH l2 Hs) as [H1 H2].
    apply Forall_app in Hall. destruct Hall as [Ha1 Ha2].
    split; constructor; assumption.
Qed.

(** X22. [get_hot_keys(top_n)], for [top_n >= 0], returns [top_n] items
    of the access counts (all of them if there are fewer), by decreasing
    count, and no item left out has a greater count than one returned. *)
Theorem get_hot_keys_are_hottest {V} (c : AdaptiveCaching.t V) top_n :
  0 <= top_n ->
  let hot := AdaptiveCaching.get_hot_keys V c top_n in
  StronglySorted count_ge hot
  /\ List.length hot
     = Nat.min (Z.to_nat top_n) (List.length (AdaptiveCaching.access_count V c))
  /\ exists colder,
       Permutation (AdaptiveCaching.access_count V c) (hot ++ colder)
       /\ Forall (fun a => Forall (count_ge a) colder) hot.
Proof.
  intros Hn. cbn zeta. unfold AdaptiveCaching.get_hot_keys, slice_to, slice_index.
  replace (top_n <? 0) with false by (symmetry; apply Z.ltb_ge; lia).
  set (items := AdaptiveCaching.access_count V c).
  set (sorted := sorted_desc items).
  set (i := Nat.min (Z.to_nat top_n) (List.length sorted)).
  assert (Hlen : List.length sorted = List.length items)
    by (symmetry; apply Permutation_length, sorted_desc_perm).
  pose proof (sorted_desc_sorted items) as Hs. fold sorted in Hs.
  rewrite <- (firstn_skipn i sorted) in Hs.
  destruct (StronglySorted_split _ _ _ Hs) as [H1 H2].
  split; [exact H1 |]. split.
  - rewrite length_firstn. unfold i. rewrite Hlen. lia.
  - exists (skipn i sorted). split; [| exact H2].
    rewrite firstn_skipn. apply sorted_desc_perm.
Qed.

Lemma get_hot_keys_are_hottest_witness :
  let c := AdaptiveCaching.mk Z 100 [("a", 1); ("b", 2); ("c", 3)]
             [("a", 2); ("b", 9); ("c", 5)] [("a", 0); ("b", 0); ("c", 0)] in
  let hot := AdaptiveCaching.get_hot_keys Z c 2 in
  StronglySorted count_ge hot
  /\ List.length hot
     = Nat.min (Z.to_nat 2) (List.length (AdaptiveCaching.access_count Z c))
  /\ exists colder,
       Permutation (AdaptiveCaching.access_count Z c) (hot ++ colder)
       /\ Forall (fun a => Forall (count_ge a) colder) hot.
Proof.
  apply (get_hot_keys_are_hottest
           (AdaptiveCaching.mk Z 100 [("a", 1); ("b", 2); ("c", 3)]
              [("a", 2); ("b", 9); ("c", 5)] [("a", 0); ("b", 0); ("c", 0)])
           2).
  lia.
Defined.

Lemma dict_set_length {V} k (v : V) (d : dict V) :
  (List.length (dict_set k v d) <= S (List.length d))%nat.
Proof.
  induction d as [| [k' v'] rest IH]; cbn; [lia |].
  destruct (String.eqb k' k); cbn; lia.
Qed.

(** X23. [get_recommendations] looks only at the ten hottest keys: it
    gives at most ten recommendations, each for one of those keys, and
    each either [Increase TTL] for a count above 100 or
    [Consider removing] for a count below 5. *)
Theorem get_recommendations_from_top_ten {V} (c : AdaptiveCaching.t V) :
  let recs := AdaptiveCaching.get_recommendations V c in
  (List.length recs <= 10)%nat
  /\ Forall
       (fun km =>
          exists count,
            In (fst km, count) (AdaptiveCaching.get_hot_keys V c 10)
            /\ ((100 < count /\ snd km = "Increase TTL")
                \/ (count < 5 /\ snd km = "Consider removing")))
       recs.
Proof.
  cbn zeta. unfold AdaptiveCaching.get_recommendations.
  set (hot := AdaptiveCaching.get_hot_keys V c 10).
  assert (Hhot : (List.length hot <= 10)%nat).
  { unfold hot, AdaptiveCaching.get_hot_keys, slice_to, slice_index.
    change (10 <? 0) with false. cbv iota.
    rewrite length_firstn. change (Z.to_nat 10) with 10%nat. lia. }
  set (step := fun (recommendations : dict string) (kc : string * Z) =>
                 let '(key, count) := kc in
                 if 100 <? count then dict_set key "Increase TTL" recommendations
                 else if count <? 5
                      then dict_set key "Consider removing" recommendations
                      else recommendations).
  set (P := fun km : string * string =>
              exists count,
                In (fst km, count) hot
                /\ ((100 < count /\ snd km = "Increase TTL")
                    \/ (count < 5 /\ snd km = "Consider removing"))).
  assert (Hgen : forall items acc,
             (forall kc, In kc items -> In kc hot) ->
             Forall P acc ->
             (List.length (fold_left step items acc)
              <= List.length acc + List.length items)%nat
             /\ Forall P (fold_left step items acc)).
  { induction items as [| [k n] rest IH]; intros acc Hsub Hacc; cbn [fold_left].
    - split; [cbn; lia | exact Hacc].
    - assert (Hk : In (k, n) hot) by (apply Hsub; left; reflexivity).
      assert (Hrest : forall kc, In kc rest -> In kc hot)
        by (intros kc H; apply Hsub; right; exact H).
      unfold step at 2 4. cbn [List.length].
      destruct (100 <? n) eqn:E1; [| destruct (n <? 5) eqn:E2].
      + destruct (IH (dict_set k "Increase TTL" acc) Hrest) as [Hl Hp].
        * apply dict_set_Forall; [exact Hacc |].
          exists n. split; [exact Hk |]. left. apply Z.ltb_lt in E1. tauto.
        * split; [| exact Hp].
          pose proof (dict_set_length k "Increase TTL" acc). lia.
      + destruct (IH (dict_set k "Consider removing" acc) Hrest) as [Hl Hp].
        * apply dict_set_Forall; [exact Hacc |].
          exists n. split; [exact Hk |]. right. apply Z.ltb_lt in E2. tauto.
        * split; [| exact Hp].
          pose proof (dict_set_length k "Consider removing" acc). lia.
      + destruct (IH acc Hrest Hacc) as [Hl Hp]. split; [lia | exact Hp]. }
  destruct (Hgen hot [] (fun kc H => H) (Forall_nil P)) as [Hl Hp].
  split; [| exact Hp].
  cbn [List.length] in Hl. fold step. lia.
Qed.

(** ** Tracing *)

(** X24. [add_span] appends to its trace and to no other: afterwards
    [get_trace] of that trace is what it was (empty for an unknown trace)
    followed by the new span, which carries the name, the status, the
    duration and the name of the service; every other trace is as
    before. *)
Theorem add_span_appends self trace_id name duration status w :
  exists self' span,
    DistributedTracing.add_span self trace_id name duration status w
    = (Returned self', w)
    /\ DistributedTracing.get_trace self' trace_id
       = DistributedTracing.get_trace self trace_id ++ [span]
    /\ DistributedTracing.span_name span = name
    /\ DistributedTracing.span_status span = status
    /\ DistributedTracing.span_duration_ms span = duration
    /\ DistributedTracing.span_service span
       = DistributedTracing.service_name self
    /\ forall other, other <> trace_id ->
         DistributedTracing.get_trace self' other
         = DistributedTracing.get_trace self other.
Proof.
  unfold DistributedTracing.add_span, bind, now, ret.
  eexists _, _. split; [reflexivity |].
  unfold DistributedTracing.get_trace, dict_get_default.
  cbn [DistributedTracing.traces DistributedTracing.span_name
       DistributedTracing.span_status DistributedTracing.span_duration_ms
       DistributedTracing.span_service].
  rewrite dict_get_set.
  destruct (dict_contains trace_id (DistributedTracing.traces self)) eqn:E;
    cbn [negb].
  - split; [reflexivity |]. repeat split.
    intros other Hne. rewrite dict_get_set_other by exact Hne. reflexivity.
  - rewrite dict_get_set.
    apply dict_contains_false in E. apply dict_get_None in E. rewrite E.
    split; [reflexivity |]. repeat split.
    intros other Hne. rewrite !dict_get_set_other by exact Hne. reflexivity.
Qed.

(** ** Analytics *)

Lemma count_step_sum k (d : dict Z) :
  sum_counts (dict_set k (dict_get_default k 0 d + 1) d) = sum_counts d + 1.
Proof.
  unfold sum_counts, dict_get_default, dict_get.
  induction d as [| [k' v'] rest IH]; cbn; [reflexivity |].
  destruct (String.eqb k' k) eqn:E; cbn.
  - lia.
  - rewrite <- Z.add_assoc, <- IH.
    destruct (find _ rest) as [[k0 v0] |]; cbn; reflexivity.
Qed.

Lemma count_types_sum evs : forall acc,
  sum_counts
    (fold_left
       (fun event_counts e =>
          dict_set (AdvancedAnalytics.type e)
            (dict_get_default (AdvancedAnalytics.type e) 0 event_counts + 1)
            event_counts)
       evs acc)
  = sum_counts acc + Z.of_nat (List.length evs).
Proof.
  induction evs as [| e rest IH]; intros acc; cbn [fold_left List.length].
  - lia.
  - rewrite IH, count_step_sum. lia.
Qed.

Lemma max_item_greatest items : forall best,
  In (AdvancedAnalytics.max_item best items) (best :: items)
  /\ Forall (fun x => snd x <= snd (AdvancedAnalytics.max_item best items))
            (best :: items).
Proof.
  induction items as [| x rest IH]; intros best; cbn [AdvancedAnalytics.max_item].
  - split; [left; reflexivity |]. constructor; [lia | constructor].
  - destruct (snd best <? snd x) eqn:E.
    + destruct (IH x) as [Hin Hall]. split.
      * destruct Hin as [H | H]; [right; left; exact H | right; right; exact H].
      * inversion Hall as [| ? ? Hx Hrest]; subst.
        apply Z.ltb_lt in E. constructor; [lia |]. constructor; assumption.
    + destruct (IH best) as [Hin Hall]. split.
      * destruct Hin as [H | H]; [left; exact H | right; right; exact H].
      * inversion Hall as [| ? ? Hb Hrest]; subst.
        apply Z.ltb_ge in E. constructor; [exact Hb |].
        constructor; [lia | exact Hrest].
Qed.

(** X25. [get_insights] is empty exactly when no event was tracked.
    Otherwise [total_events] is the number of events, the counts of
    [event_distribution] add up to it, and [most_common_event] is a type
    of the distribution whose count no other exceeds. *)
Theorem get_insights_counts self :
  match AdvancedAnalytics.get_insights self with
  | None => AdvancedAnalytics.events self = []
  | Some i =>
      AdvancedAnalytics.events self <> []
      /\ AdvancedAnalytics.total_events i
         = List.length (AdvancedAnalytics.events self)
      /\ sum_counts (AdvancedAnalytics.event_distribution i)
         = Z.of_nat (AdvancedAnalytics.total_events i)
      /\ exists n,
           In (AdvancedAnalytics.most_common_event i, n)
              (AdvancedAnalytics.event_distribution i)
           /\ Forall (fun x => snd x <= n)
                     (AdvancedAnalytics.event_distribution i)
  end.
Proof.
  unfold AdvancedAnalytics.get_insights.
  destruct (AdvancedAnalytics.events self) as [| e rest] eqn:Hev;
    [reflexivity |].
  cbn [AdvancedAnalytics.total_events AdvancedAnalytics.event_distribution
       AdvancedAnalytics.most_common_event].
  split; [discriminate |]. split; [reflexivity |].
  assert (Hsum : sum_counts (AdvancedAnalytics.count_types (e :: rest))
                 = Z.of_nat (List.length (e :: rest))).
  { unfold AdvancedAnalytics.count_types. rewrite count_types_sum. cbn. lia. }
  split; [exact Hsum |].
  destruct (AdvancedAnalytics.count_types (e :: rest)) as [| x items] eqn:Hc.
  - cbn in Hsum. lia.
  - destruct (max_item_greatest items x) as [Hin Hall].
    exists (snd (AdvancedAnalytics.max_item x items)).
    rewrite <- surjective_pairing. split; assumption.
Qed.

(** ** Request signatures *)



(** ** Metrics *)

Lemma hit_rate_range self :
  0 <= AdvancedMetrics.cache_hits self ->
  0 <= AdvancedMetrics.cache_misses self ->
  (0 <= AdvancedMetrics.hit_rate self <= 1)%Q.
Proof.
  intros Hh Hm. unfold AdvancedMetrics.hit_rate.
  destruct (0 <? AdvancedMetrics.cache_hits self
                 + AdvancedMetrics.cache_misses self) eqn:E.
  - apply Z.ltb_lt in E.
    assert (Hpos : (0 < inject_Z (AdvancedMetrics.cache_hits self
                                  + AdvancedMetrics.cache_misses self))%Q).
    { unfold Qlt. cbn. lia. }
    split.
    + apply Qle_shift_div_l; [exact Hpos |]. rewrite Qmult_0_l.
      apply inject_Z_nonneg. exact Hh.
    + apply Qle_shift_div_r; [exact Hpos |]. rewrite Qmult_1_l.
      rewrite <- Zle_Qle. lia.
  - split; [apply Qle_refl | discriminate].
Qed.

(** X27. With non-negative counters: [hit_rate] lies between 0 and 1 and
    is 0 when there was no lookup; [efficiency_score] raises
    [ZeroDivisionError] for a duration of zero and for a positive
    duration lies between 0 and 150, and it is 150, not at most 100 as
    its docstring says, when every lookup hit and the duration is at most
    500 ms. *)
Theorem efficiency_score_range self :
  0 <= AdvancedMetrics.cache_hits self ->
  0 <= AdvancedMetrics.cache_misses self ->
  (0 <= AdvancedMetrics.hit_rate self <= 1)%Q
  /\ (AdvancedMetrics.cache_hits self + AdvancedMetrics.cache_misses self = 0 ->
      AdvancedMetrics.hit_rate self = 0%Q)
  /\ ((AdvancedMetrics.duration_ms self == 0)%Q ->
      AdvancedMetrics.efficiency_score self
      = Raised AdvancedMetrics.ZeroDivisionError)
  /\ ((0 < AdvancedMetrics.duration_ms self)%Q ->
      exists score,
        AdvancedMetrics.efficiency_score self = Returned score
        /\ (0 <= score <= 150)%Q
        /\ (0 < AdvancedMetrics.cache_hits self ->
            AdvancedMetrics.cache_misses self = 0 ->
            (AdvancedMetrics.duration_ms self <= 500)%Q ->
            (score == 150)%Q)).
Proof.
  intros Hh Hm. pose proof (hit_rate_range self Hh Hm) as [Hr0 Hr1].
  split; [split; assumption |]. split; [| split].
  - intros Hz. unfold AdvancedMetrics.hit_rate. rewrite Hz. reflexivity.
  - intros Hd. unfold AdvancedMetrics.efficiency_score.
    apply Qeq_bool_iff in Hd. rewrite Hd. reflexivity.
  - intros Hd. unfold AdvancedMetrics.efficiency_score.
    destruct (Qeq_bool (AdvancedMetrics.duration_ms self) 0) eqn:E.
    { apply Qeq_bool_iff in E. rewrite E in Hd.
      exfalso. apply (Qlt_irrefl 0). exact Hd. }
    set (speed := (1000 / AdvancedMetrics.duration_ms self * 50)%Q).
    assert (Hspeed : (0 <= speed)%Q).
    { unfold speed. apply Qmult_le_0_compat; [| discriminate].
      apply Qle_shift_div_l; [exact Hd |]. rewrite Qmult_0_l. discriminate. }
    assert (Hhr : (0 <= AdvancedMetrics.hit_rate self * 50 <= 50)%Q).
    { split.
      - apply Qmult_le_0_compat; [exact Hr0 | discriminate].
      - setoid_replace 50%Q with (1 * 50)%Q at 2 by reflexivity.
        apply Qmult_le_compat_r; [exact Hr1 | discriminate]. }
    eexists. split; [reflexivity |].
    destruct (Qle_bool 100 speed) eqn:Es.
    + split.
      * split.
        -- setoid_replace 0%Q with (0 + 0)%Q by reflexivity.
           apply Qplus_le_compat; [apply Hhr | discriminate].
        -- setoid_replace 150%Q with (50 + 100)%Q by reflexivity.
           apply Qplus_le_compat; [apply Hhr | apply Qle_refl].
      * intros Hhit Hmiss _.
        assert (Hone : (AdvancedMetrics.hit_rate self == 1)%Q).
        { unfold AdvancedMetrics.hit_rate. rewrite Hmiss, Z.add_0_r.
          replace (0 <? AdvancedMetrics.cache_hits self) with true
            by (symmetry; apply Z.ltb_lt; exact Hhit).
          apply Qmult_inv_r. intros H. unfold Qeq in H. cbn in H. lia. }
        rewrite Hone. reflexivity.
    + assert (Hlt : (speed < 100)%Q).
      { apply Qnot_le_lt. intros H. apply Qle_bool_iff in H. congruence. }
      split.
      * split.
        -- setoid_replace 0%Q with (0 + 0)%Q by reflexivity.
           apply Qplus_le_compat; [apply Hhr | exact Hspeed].
        -- setoid_replace 150%Q with (50 + 100)%Q by reflexivity.
           apply Qplus_le_compat; [apply Hhr | apply Qlt_le_weak; exact Hlt].
      * intros _ _ Hfast. exfalso.
        apply (Qlt_irrefl 100). eapply Qle_lt_trans; [| exact Hlt].
        unfold speed.
        setoid_replace 100%Q with (2 * 50)%Q by reflexivity.
        apply Qmult_le_compat_r; [| discriminate].
        apply Qle_shift_div_l; [exact Hd |].
        setoid_replace 1000%Q with (2 * 500)%Q by reflexivity.
        apply Qmult_le_l; [reflexivity | exact Hfast].
Qed.

Lemma efficiency_score_range_witness :
  let self := AdvancedMetrics.mk "scan" 250 12 7 0 0 in
  (0 <= AdvancedMetrics.hit_rate self <= 1)%Q
  /\ (AdvancedMetrics.cache_hits self + AdvancedMetrics.cache_misses self = 0 ->
      AdvancedMetrics.hit_rate self = 0%Q)
  /\ ((AdvancedMetrics.duration_ms self == 0)%Q ->
      AdvancedMetrics.efficiency_score self
      = Raised AdvancedMetrics.ZeroDivisionError)
  /\ ((0 < AdvancedMetrics.duration_ms self)%Q ->
      exists score,
        AdvancedMetrics.efficiency_score self = Returned score
        /\ (0 <= score <= 150)%Q
        /\ (0 < AdvancedMetrics.cache_hits self ->
            AdvancedMetrics.cache_misses self = 0 ->
            (AdvancedMetrics.duration_ms self <= 500)%Q ->
            (score == 150)%Q)).
Proof.
  cbn zeta.
  apply (efficiency_score_range (AdvancedMetrics.mk "scan" 250 12 7 0 0)).
  - simpl. lia.
  - simpl. lia.
Defined.

(** ** More on the breaker *)

Section MoreBreaker.
Context {A : Type}.

(** Fewer failures than the threshold leave a closed breaker closed, with
    the failures counted. *)
Lemma failures_below_threshold (failing : list (Py A)) :
  forall b w,
    CircuitBreaker.state b = "closed" ->
    CircuitBreaker.failure_count b + Z.of_nat (List.length failing)
    < CircuitBreaker.failure_threshold b ->
    Forall (fails_expectedly b) failing ->
    let bw := breaker_after_calls failing b w in
    CircuitBreaker.state (fst bw) = "closed"
    /\ CircuitBreaker.failure_count (fst bw)
       = CircuitBreaker.failure_count b + Z.of_nat (List.length failing).
Proof.
  induction failing as [| func rest IH]; intros b w Hs Hcount Hall.
  - cbn. split; [exact Hs | lia].
  - inversion Hall as [| ? ? Hfunc Hrest]; subst.
    destruct (Hfunc w) as (e & w1 & Hrun & Hexp).
    cbn [breaker_after_calls].
    unfold CircuitBreaker.call, CircuitBreaker.entry.
    rewrite Hs. cbn [String.eqb Ascii.eqb Bool.eqb].
    rewrite Hrun, Hexp.
    cbn [List.length] in Hcount.
    set (b1 := CircuitBreaker._on_failure b (clock w1)).
    assert (Hs1 : CircuitBreaker.state b1 = "closed").
    { unfold b1, CircuitBreaker._on_failure. cbn [CircuitBreaker.state].
      replace (_ <=? _) with false by (symmetry; apply Z.leb_gt; lia).
      exact Hs. }
    destruct (IH b1 w1 Hs1) as (H1 & H2).
    + unfold b1, CircuitBreaker._on_failure.
      cbn [CircuitBreaker.failure_count CircuitBreaker.failure_threshold]. lia.
    + eapply Forall_impl; [| exact Hrest]. intros f Hf. exact Hf.
    + split; [exact H1 |]. rewrite H2. unfold b1, CircuitBreaker._on_failure.
      cbn [CircuitBreaker.failure_count List.length]. lia.
Qed.

End MoreBreaker.

(** X28. Only failures in a row open the breaker: after fewer failures
    than [failure_threshold] a closed breaker is still closed and has
    counted them, and one call that returns puts the count back to 0, so
    the failures before it no longer count. *)
Theorem breaker_success_resets_count {A} (b0 : CircuitBreaker.t)
    (failing : list (Py A)) (w0 : World) :
  CircuitBreaker.state b0 = "closed" ->
  CircuitBreaker.failure_count b0 = 0 ->
  Z.of_nat (List.length failing) < CircuitBreaker.failure_threshold b0 ->
  Forall (fails_expectedly b0) failing ->
  let b1 := fst (breaker_after_calls failing b0 w0) in
  CircuitBreaker.state b1 = "closed"
  /\ CircuitBreaker.failure_count b1 = Z.of_nat (List.length failing)
  /\ forall (func : Py A) w v w',
       func w = (Returned v, w') ->
       exists b2,
         CircuitBreaker.call b1 func w = (Returned v, b2, w')
         /\ CircuitBreaker.state b2 = "closed"
         /\ CircuitBreaker.failure_count b2 = 0.
Proof.
  intros Hs Hc Hlen Hall.
  destruct (failures_below_threshold failing b0 w0 Hs) as [H1 H2];
    [lia | exact Hall |].
  cbn zeta. split; [exact H1 |]. split; [rewrite H2; lia |].
  intros func w v w' Hrun. unfold CircuitBreaker.call, CircuitBreaker.entry.
  rewrite H1. cbn [String.eqb Ascii.eqb Bool.eqb]. rewrite Hrun.
  eexists. split; [reflexivity |]. split; reflexivity.
Qed.

Lemma breaker_success_resets_count_witness :
  let b0 :=
    CircuitBreaker.__init__ "https://a.example/hook" 5 60
                            CircuitBreaker.isinstance_Exception in
  let b1 := fst (breaker_after_calls (repeat failing_call 4) b0 world0) in
  CircuitBreaker.state b1 = "closed"
  /\ CircuitBreaker.failure_count b1
     = Z.of_nat (List.length (repeat failing_call 4))
  /\ forall (func : Py unit) w v w',
       func w = (Returned v, w') ->
       exists b2,
         CircuitBreaker.call b1 func w = (Returned v, b2, w')
         /\ CircuitBreaker.state b2 = "closed"
         /\ CircuitBreaker.failure_count b2 = 0.
Proof.
  apply (breaker_success_resets_count
           (CircuitBreaker.__init__ "https://a.example/hook" 5 60
                                    CircuitBreaker.isinstance_Exception)
           (repeat failing_call 4) world0).
  - reflexivity.
  - reflexivity.
  - simpl. lia.
  - simpl. repeat constructor; intros w; exists connection_refused, w;
      split; reflexivity.
Defined.

(** X29. A probe that raises an exception the breaker does not expect is
    neither a success nor a failure: the exception passes through, the
    breaker stays half-open with its count unchanged, and from then on it
    lets every call through at once, with no cool-down. *)
Theorem breaker_stuck_half_open {A} (b : CircuitBreaker.t) (func : Py A)
    t_open w e w' :
  CircuitBreaker.state b = "open" ->
  CircuitBreaker.last_failure_time b = Some t_open ->
  t_open + CircuitBreaker.recovery_timeout b * micros_per_second <= clock w ->
  Z.abs (CircuitBreaker.recovery_timeout b) < float_exact_seconds ->
  func w = (Raised e, w') ->
  CircuitBreaker.expected_exception b e = false ->
  exists b2,
    CircuitBreaker.call b func w = (Raised e, b2, w')
    /\ CircuitBreaker.state b2 = "half-open"
    /\ CircuitBreaker.failure_count b2 = CircuitBreaker.failure_count b
    /\ forall w'', CircuitBreaker.entry b2 w'' = Some b2.
Proof.
  intros Hs Ht Hclock _ Hrun Hexp.
  unfold CircuitBreaker.call.
  rewrite (open_breaker_lets_probe_in b t_open w Hs Ht Hclock), Hrun.
  cbn [CircuitBreaker.set_state CircuitBreaker.expected_exception].
  rewrite Hexp. eexists. split; [reflexivity |].
  split; [reflexivity |]. split; [reflexivity |].
  intros w''. reflexivity.
Qed.

Lemma breaker_stuck_half_open_witness :
  let b :=
    CircuitBreaker.mk "https://a.example/hook" 5 60
      (fun e => String.eqb (exn_class e) "ConnectError") 5 (Some 0) "open" in
  let func : Py unit := raise (mkExn "ValueError" true "bad payload") in
  let w := mkWorld 60000000 0 [] [] in
  exists b2,
    CircuitBreaker.call b func w
    = (Raised (mkExn "ValueError" true "bad payload"), b2, w)
    /\ CircuitBreaker.state b2 = "half-open"
    /\ CircuitBreaker.failure_count b2 = CircuitBreaker.failure_count b
    /\ forall w'', CircuitBreaker.entry b2 w'' = Some b2.
Proof.
  cbn zeta.
  apply (breaker_stuck_half_open
           (CircuitBreaker.mk "https://a.example/hook" 5 60
              (fun e => String.eqb (exn_class e) "ConnectError") 5 (Some 0)
              "open")
           (raise (mkExn "ValueError" true "bad payload")) 0
           (mkWorld 60000000 0 [] [])
           (mkExn "ValueError" true "bad payload")
           (mkWorld 60000000 0 [] [])).
  - reflexivity.
  - reflexivity.
  - simpl. unfold micros_per_second. lia.
  - unfold float_exact_seconds. simpl. lia.
  - reflexivity.
  - reflexivity.
Defined.
